(** * PTNG front end: the VM service layer

    A shallow embedding of the VM utilities of the admin front end
    (the module that exports [mockVMs], [handleVMAction] and
    [loadUserVMs], with its private helpers [convertApiVMToAppFormat]
    and [normalizeVMStatus]), and the properties the specification
    states about them.

    Conventions of the embedding.

    - A JavaScript string is a [string] of bytes.  [toLowerCase] folds
      the capital letters A to Z and leaves every other byte alone.  All
      comparisons of the module are against lower-case ASCII words that
      contain no letter k; on such comparisons the byte-wise fold and
      the Unicode fold of the language agree (the only character outside
      ASCII whose lower-case form is made of ASCII letters alone is the
      Kelvin sign, which folds to k).  Where the module builds a text
      from a folded string (the descriptions of the notifications of
      [handleVMAction]), the text of the embedding is that of the module
      for every action without capital letters outside ASCII.
    - A value of static type [VMStatus] is a string at run time, since the
      loader stores unchecked strings under that type ([as VMStatus]).
    - Time values are integers (milliseconds), written in [Z]; an invalid
      date yields [NaN].  On integers below 2^53 in magnitude, which
      covers every time value and every difference of time values of the
      same era, the arithmetic of the language is exact, and the floor of
      a quotient by a positive integer is the floor of the exact quotient.
    - A draw of [Math.random] is a binary64 number (the [spec_float] of
      the Standard Library), its product with a constant is the IEEE 754
      product rounded to nearest even, and [Math.floor] takes it to an
      integer; the percentages so obtained are written in [Z].
    - Objects live in a store and are named by references: the two mock
      entries are allocated once and shared by every call.
    - The remote service, the clock and the random generator are an
      environment; notifications, console output and remote calls are
      recorded, in order, in a trace. *)

From Stdlib Require Import ZArith QArith Qround String Ascii DecimalString Lia.
From Stdlib Require Import Floats.SpecFloat.
From stdpp Require Import base list strings.

Open Scope string_scope.
Open Scope Z_scope.

(** ** Strings *)

Module Js.

(** [String.prototype.toLowerCase], one byte at a time. *)
Definition is_upper (c : ascii) : bool :=
  let n := N_of_ascii c in (65 <=? n)%N && (n <=? 90)%N.

Definition lower_ascii (c : ascii) : ascii :=
  if is_upper c then ascii_of_N (N_of_ascii c + 32) else c.

Fixpoint toLowerCase (s : string) : string :=
  match s with
  | EmptyString => EmptyString
  | String c rest => String (lower_ascii c) (toLowerCase rest)
  end.

(** Truthiness of an optional string: [undefined] and the empty string
    are falsy. *)
Definition truthy (o : option string) : bool :=
  match o with
  | Some s => negb (s =? "")%string
  | None => false
  end.

(** [a || b] where [a] is an optional string and [b] a string. *)
Definition or_else (a : option string) (b : string) : string :=
  match a with
  | Some s => if (s =? "")%string then b else s
  | None => b
  end.

(** Numbers as the module meets them. *)
Inductive number : Type :=
  | NaN
  | Int (z : Z).

(** Template-literal conversion of a number: [NaN], or the decimal
    digits of an integer (so the language prints integers below 10^21 in
    magnitude). *)
Definition show (n : number) : string :=
  match n with
  | NaN => "NaN"
  | Int z => NilZero.string_of_int (Z.to_int z)
  end.

(** [a - b]. *)
Definition sub (a b : number) : number :=
  match a, b with
  | Int x, Int y => Int (x - y)
  | _, _ => NaN
  end.

(** [Math.floor(a / d)] for a positive integer constant [d]. *)
Definition floor_div (a : number) (d : Z) : number :=
  match a with
  | Int x => Int (Qfloor (inject_Z x / inject_Z d))
  | NaN => NaN
  end.

(** [a % d] for a positive integer constant [d]: the remainder takes the
    sign of the dividend. *)
Definition rem (a : number) (d : Z) : number :=
  match a with
  | Int x => Int (Z.rem x d)
  | NaN => NaN
  end.

End Js.

Import Js.

(** ** Binary64 numbers, for the random draws *)

Module Binary64.

Definition prec : Z := 53.
Definition emax : Z := 1024.

(** The binary64 number of an integer literal. *)
Definition of_Z (z : Z) : spec_float := binary_normalize prec emax z 0 false.

(** [a * b]. *)
Definition mul : spec_float -> spec_float -> spec_float := SFmul prec emax.

(** [a / b]. *)
Definition div : spec_float -> spec_float -> spec_float := SFdiv prec emax.

(** [Math.floor], as an integer, of zero and of finite numbers (the floor
    of an infinity or of NaN is no integer; the products that the mapper
    floors are zero or finite, see [mul_draw_below]). *)
Definition floor (x : spec_float) : Z :=
  match x with
  | S754_finite s m e => Z.shiftl (cond_Zopp s (Z.pos m)) e
  | _ => 0
  end.

(** What [Math.random] may return: a binary64 number [x] with
    [0 <= x < 1]. *)
Definition is_draw (x : spec_float) : bool :=
  valid_binary prec emax x && SFleb (S754_zero false) x && SFltb x (of_Z 1).

End Binary64.

(** Case-insensitive equality, said directly: two strings of the same
    length whose characters are pairwise the same letter, a capital
    letter and its small form being the same letter. *)
Definition same_letter (a b : ascii) : Prop :=
  a = b
  \/ (is_upper a = true /\ N_of_ascii b = (N_of_ascii a + 32)%N)
  \/ (is_upper b = true /\ N_of_ascii a = (N_of_ascii b + 32)%N).

Inductive eq_ignore_case : string -> string -> Prop :=
  | eic_empty : eq_ignore_case "" ""
  | eic_char a b s t :
      same_letter a b -> eq_ignore_case s t ->
      eq_ignore_case (String a s) (String b t).

(** ** Data model *)

(** The closed set of the [VMStatus] type. *)
Definition VMStatus_values : list string :=
  ["Running"; "Stopped"; "Starting"; "Stopping"; "Paused"; "Error"].

(** The five labels the normalizer knows, each with its canonical form. *)
Definition known_labels : list (string * string) :=
  [("running", "Running"); ("stopped", "Stopped"); ("starting", "Starting");
   ("stopping", "Stopping"); ("paused", "Paused")].

Record VMResources : Type := {
  cpu : Z;
  memory : Z;
  disk : Z;
  network : Z
}.

Record VirtualMachine : Type := {
  id : string;
  name : string;
  status : string;
  os : string;
  assigned_user : string;
  uptime : string;
  health : string;
  ip_address : string;
  last_snapshot : option string;
  resources : VMResources;
  user_name : option string;
  user_email : option string;
  guacamole_url : option string;
  instance_id : option string;
  created_at : option string
}.

(** A raw VM record of the API.  [updated_at] holds the time value that
    [new Date(apiVM.updated_at).getTime()] yields. *)
Module ApiVM.
Record t : Type := {
  id : option Z;
  instance_id : option string;
  instance_os : string;
  employee_id : string;
  status : string;
  updated_at : number;
  guacamole_url : option string;
  user_name : option string;
  user_email : option string;
  created_at : option string
}.
End ApiVM.

(** Field assignments [vm.status = ...], [vm.resources = ...],
    [vm.uptime = ...]. *)
Definition set_status (v : string) (vm : VirtualMachine) : VirtualMachine :=
  {| id := id vm; name := name vm; status := v; os := os vm;
     assigned_user := assigned_user vm; uptime := uptime vm;
     health := health vm; ip_address := ip_address vm;
     last_snapshot := last_snapshot vm; resources := resources vm;
     user_name := user_name vm; user_email := user_email vm;
     guacamole_url := guacamole_url vm; instance_id := instance_id vm;
     created_at := created_at vm |}.

Definition set_resources (v : VMResources) (vm : VirtualMachine) : VirtualMachine :=
  {| id := id vm; name := name vm; status := status vm; os := os vm;
     assigned_user := assigned_user vm; uptime := uptime vm;
     health := health vm; ip_address := ip_address vm;
     last_snapshot := last_snapshot vm; resources := v;
     user_name := user_name vm; user_email := user_email vm;
     guacamole_url := guacamole_url vm; instance_id := instance_id vm;
     created_at := created_at vm |}.

Definition set_uptime (v : string) (vm : VirtualMachine) : VirtualMachine :=
  {| id := id vm; name := name vm; status := status vm; os := os vm;
     assigned_user := assigned_user vm; uptime := v;
     health := health vm; ip_address := ip_address vm;
     last_snapshot := last_snapshot vm; resources := resources vm;
     user_name := user_name vm; user_email := user_email vm;
     guacamole_url := guacamole_url vm; instance_id := instance_id vm;
     created_at := created_at vm |}.

(** The two literals of [mockVMs]. *)
Definition mock_vm_001 : VirtualMachine :=
  {| id := "vm-001"; name := "Windows Development"; status := "Running";
     os := "Windows"; assigned_user := "emp-001"; uptime := "12h 45m";
     health := "Good"; ip_address := "10.0.0.15";
     last_snapshot := Some "2025-04-15 09:30";
     resources := {| cpu := 45; memory := 60; disk := 30; network := 25 |};
     user_name := None; user_email := None; guacamole_url := None;
     instance_id := None; created_at := None |}.

Definition mock_vm_002 : VirtualMachine :=
  {| id := "vm-002"; name := "Linux Server"; status := "Stopped";
     os := "Linux"; assigned_user := "emp-002"; uptime := "0h 0m";
     health := "Good"; ip_address := "10.0.0.16";
     last_snapshot := Some "2025-04-14 17:15";
     resources := {| cpu := 0; memory := 0; disk := 15; network := 0 |};
     user_name := None; user_email := None; guacamole_url := None;
     instance_id := None; created_at := None |}.

(** ** The status normalizer *)

Definition normalizeVMStatus (status : string) : string :=
  let lowercaseStatus := toLowerCase status in
  if (lowercaseStatus =? "running")%string then "Running"
  else if (lowercaseStatus =? "stopped")%string then "Stopped"
  else if (lowercaseStatus =? "starting")%string then "Starting"
  else if (lowercaseStatus =? "stopping")%string then "Stopping"
  else if (lowercaseStatus =? "paused")%string then "Paused"
  else "Error".

(** ** The environment and the effects *)

(** An error object: its [message], and [response.data.message] when the
    server attached one. *)
Record JsError : Type := {
  err_message : string;
  err_response_message : option string
}.

(** [new Error(msg)]. *)
Definition new_Error (msg : string) : JsError :=
  {| err_message := msg; err_response_message := None |}.

(** A promise of the remote service, once settled. *)
Inductive Settled (A : Type) : Type :=
  | Fulfilled (value : A)
  | Rejected (reason : JsError).
Arguments Fulfilled {A} value.
Arguments Rejected {A} reason.

(** What an action of the service resolves to: an object that may carry
    a [message] and a [URL] (the dispatcher reads both properties without
    a guard, so the service is taken to resolve to an object). *)
Record ActionResponse : Type := {
  message : option string;
  URL : option string
}.

(** What [getVMStatus] resolves to. *)
Record StatusResponse : Type := {
  windows : string;
  linux : string
}.

(** What [getAllVMs] resolves to, by shape: a falsy value, or an object
    whose [vms] property is falsy (or missing), truthy but no array, or
    an array of raw records, each well formed (the mapper assumes so). *)
Inductive VmsProperty : Type :=
  | VmsFalsy
  | VmsNotArray
  | VmsArray (vms : list ApiVM.t).

Inductive AllVMsResponse : Type :=
  | ResponseFalsy
  | ResponseObject (vms : VmsProperty).

Record VmService : Type := {
  startVM : string -> string -> Settled ActionResponse;
  stopVM : string -> string -> Settled ActionResponse;
  restartVM : string -> string -> Settled ActionResponse;
  getVMStatus : string -> Settled StatusResponse;
  getAllVMs : Settled AllVMsResponse
}.

(** The service, the successive readings of the clock ([new Date()], in
    milliseconds) and the successive draws of [Math.random()]. *)
Record Env : Type := {
  vmService : VmService;
  clock : nat -> Z;
  random : nat -> spec_float
}.

Inductive RemoteCall : Type :=
  | StartVM (instanceOs employeeId : string)
  | StopVM (instanceOs employeeId : string)
  | RestartVM (instanceOs employeeId : string)
  | GetVMStatus (employeeId : string)
  | GetAllVMs.

Inductive Payload : Type :=
  | ErrorPayload (error : JsError)
  | ResponsePayload (response : AllVMsResponse).

Inductive Event : Type :=
  | Remote (call : RemoteCall)
  | Toast (title : string) (description : option string)
  | ToastError (title : string) (description : option string)
  | ConsoleError (label : string) (payload : Payload).

(** References to [VirtualMachine] objects of the store. *)
Definition ref : Type := nat.

Record World : Type := {
  heap : list VirtualMachine;
  trace : list Event;
  ticks : nat;
  draws : nat
}.

(** How a computation completes. *)
Inductive Completion (A : Type) : Type :=
  | Normal (value : A)
  | Throw (error : JsError).
Arguments Normal {A} value.
Arguments Throw {A} error.

Definition M (A : Type) : Type := World -> Completion A * World.

Definition ret {A} (a : A) : M A := fun w => (Normal a, w).

Definition bind {A B} (c : M A) (k : A -> M B) : M B :=
  fun w =>
    match c w with
    | (Normal a, w') => k a w'
    | (Throw e, w') => (Throw e, w')
    end.

Definition throw {A} (e : JsError) : M A := fun w => (Throw e, w).

(** [try { body } catch (error) { handler }]. *)
Definition try_catch {A} (body : M A) (handler : JsError -> M A) : M A :=
  fun w =>
    match body w with
    | (Normal a, w') => (Normal a, w')
    | (Throw e, w') => handler e w'
    end.

Declare Scope vm_scope.
Delimit Scope vm_scope with vm.
Notation "x <- c ;; k" := (bind c (fun x => k))
  (at level 100, c at next level, right associativity) : vm_scope.
Notation "c ;; k" := (bind c (fun _ => k))
  (at level 100, right associativity) : vm_scope.
Open Scope vm_scope.

Definition emit (e : Event) : M unit :=
  fun w => (Normal tt,
            {| heap := heap w; trace := trace w ++ [e];
               ticks := ticks w; draws := draws w |}).

Definition toast (title : string) (description : option string) : M unit :=
  emit (Toast title description).

Definition toast_error (title : string) (description : option string) : M unit :=
  emit (ToastError title description).

Definition console_error (label : string) (payload : Payload) : M unit :=
  emit (ConsoleError label payload).

(** [await] of one call of the remote service: the call is recorded,
    then its promise settles. *)
Definition await {A} (call : RemoteCall) (promise : Settled A) : M A :=
  emit (Remote call) ;;
  match promise with
  | Fulfilled a => ret a
  | Rejected e => throw e
  end.

(** [new Date().getTime()]. *)
Definition Date_now (env : Env) : M Z :=
  fun w => (Normal (clock env (ticks w)),
            {| heap := heap w; trace := trace w;
               ticks := S (ticks w); draws := draws w |}).

(** [Math.random()]. *)
Definition Math_random (env : Env) : M spec_float :=
  fun w => (Normal (random env (draws w)),
            {| heap := heap w; trace := trace w;
               ticks := ticks w; draws := S (draws w) |}).

(** Allocation of an object literal. *)
Definition alloc (vm : VirtualMachine) : M ref :=
  fun w => (Normal (length (heap w)),
            {| heap := heap w ++ [vm]; trace := trace w;
               ticks := ticks w; draws := draws w |}).

(** In-place update of the object behind a reference (a reference
    always names an object of the store; on any other number the update
    does nothing). *)
Definition mutate (r : ref) (f : VirtualMachine -> VirtualMachine) : M unit :=
  fun w => (Normal tt,
            {| heap := alter f r (heap w); trace := trace w;
               ticks := ticks w; draws := draws w |}).

(** [Array.prototype.map] with an effectful callback, left to right. *)
Fixpoint array_map {A B} (f : A -> M B) (l : list A) : M (list B) :=
  match l with
  | [] => ret []
  | x :: rest => y <- f x ;; ys <- array_map f rest ;; ret (y :: ys)
  end.

(** The module-level array [mockVMs]: the two objects allocated when the
    module is loaded. *)
Definition mockVMs : list ref := [0%nat; 1%nat].

Definition initial_heap : list VirtualMachine := [mock_vm_001; mock_vm_002].

Definition initial_world : World :=
  {| heap := initial_heap; trace := []; ticks := 0; draws := 0 |}.

(** The objects an array of references shows in a store. *)
Definition deref (h : list VirtualMachine) (rs : list ref) : list (option VirtualMachine) :=
  map (fun r => h !! r) rs.

(** ** The action dispatcher *)

(** The [switch] on the action in lower case, then the success
    notification and the return of the response ([if (response.URL)]
    guards an empty block, and [vmId] is not used); the [catch] logs,
    notifies and throws the error again. *)
Definition handleVMAction (env : Env) (vmId action instanceOs employeeId : string)
  : M ActionResponse :=
  try_catch
    (response <-
       (let a := toLowerCase action in
        if (a =? "start")%string then
          await (StartVM instanceOs employeeId)
                (startVM (vmService env) instanceOs employeeId)
        else if (a =? "stop")%string then
          await (StopVM instanceOs employeeId)
                (stopVM (vmService env) instanceOs employeeId)
        else if ((a =? "restart") || (a =? "reset"))%string then
          await (RestartVM instanceOs employeeId)
                (restartVM (vmService env) instanceOs employeeId)
        else throw (new_Error ("Unsupported action: " +:+ action))) ;;
     toast ("VM " +:+ action +:+ " initiated")
           (Some (or_else (message response)
                          ("The VM is now being " +:+ toLowerCase action +:+ "ed."))) ;;
     ret response)
    (fun error =>
       console_error ("Error performing VM " +:+ action +:+ ":") (ErrorPayload error) ;;
       toast_error ("VM " +:+ action +:+ " Failed")
                   (Some (or_else (err_response_message error)
                                  ("Failed to " +:+ toLowerCase action +:+ " VM."))) ;;
       throw error).

(** ** The API-to-domain mapper *)

(** The clock is read once; the generator is drawn from in the order of
    the properties [cpu], [memory], [disk], [network], and only [disk]
    draws when the record is not running. *)
Definition convertApiVMToAppFormat (env : Env) (apiVM : ApiVM.t) : M VirtualMachine :=
  let updatedAt := ApiVM.updated_at apiVM in
  now <- Date_now env ;;
  let uptimeMs :=
    if (toLowerCase (ApiVM.status apiVM) =? "running")%string
    then Js.sub (Int now) updatedAt else Int 0 in
  let hours := Js.floor_div uptimeMs (1000 * 60 * 60) in
  let minutes := Js.floor_div (Js.rem uptimeMs (1000 * 60 * 60)) (1000 * 60) in
  let uptime := show hours +:+ "h " +:+ show minutes +:+ "m" in
  let isRunning := (toLowerCase (ApiVM.status apiVM) =? "running")%string in
  let normalizedStatus := normalizeVMStatus (ApiVM.status apiVM) in
  cpu <- (if isRunning
          then r <- Math_random env ;;
               ret (Binary64.floor (Binary64.mul r (Binary64.of_Z 60)) + 20)
          else ret 0) ;;
  memory <- (if isRunning
             then r <- Math_random env ;;
                  ret (Binary64.floor (Binary64.mul r (Binary64.of_Z 50)) + 30)
             else ret 0) ;;
  disk <- (r <- Math_random env ;;
           ret (Binary64.floor (Binary64.mul r (Binary64.of_Z 40)) + 10)) ;;
  network <- (if isRunning
              then r <- Math_random env ;;
                   ret (Binary64.floor (Binary64.mul r (Binary64.of_Z 40)) + 5)
              else ret 0) ;;
  ret {| id := or_else (ApiVM.instance_id apiVM)
                       ("vm-" +:+ match ApiVM.id apiVM with
                                  | Some n => show (Int n)
                                  | None => "undefined"
                                  end);
         name := ApiVM.instance_os apiVM +:+ " VM";
         status := normalizedStatus;
         os := ApiVM.instance_os apiVM;
         assigned_user := ApiVM.employee_id apiVM;
         uptime := uptime;
         health := "Good";
         ip_address := "10.0.0.15";
         last_snapshot := None;
         resources := {| cpu := cpu; memory := memory; disk := disk; network := network |};
         user_name := ApiVM.user_name apiVM;
         user_email := ApiVM.user_email apiVM;
         guacamole_url := ApiVM.guacamole_url apiVM;
         instance_id := ApiVM.instance_id apiVM;
         created_at := ApiVM.created_at apiVM |}.

(** ** The VM loader *)

(** The callback of the single-user branch, as the effect it has on the
    object [vm] it receives. *)
Definition overlay_status (statusResponse : StatusResponse) (vm : VirtualMachine)
  : VirtualMachine :=
  let vm :=
    if (toLowerCase (os vm) =? "windows")%string
    then set_status (windows statusResponse) vm
    else if (toLowerCase (os vm) =? "linux")%string
    then set_status (linux statusResponse) vm
    else vm in
  if (status vm =? "Stopped")%string then
    let vm :=
      set_resources {| cpu := 0; memory := 0; disk := disk (resources vm);
                       network := 0 |} vm in
    set_uptime "0h 0m" vm
  else vm.

(** [employeeId] is optional; the single-user branch is taken when it is
    truthy.  An array is the list of its references (the fallbacks
    return the array [mockVMs] itself, the single-user branch a new array
    of the same two objects: either way the same list). *)
Definition loadUserVMs (env : Env) (employeeId : option string) : M (list ref) :=
  try_catch
    (if truthy employeeId then
       let employeeId := default "" employeeId in
       statusResponse <- await (GetVMStatus employeeId)
                               (getVMStatus (vmService env) employeeId) ;;
       array_map (fun vm => mutate vm (overlay_status statusResponse) ;; ret vm)
                 mockVMs
     else
       try_catch
         (response <- await GetAllVMs (getAllVMs (vmService env)) ;;
          match response with
          | ResponseObject (VmsArray vms) =>
              array_map (fun vm => o <- convertApiVMToAppFormat env vm ;; alloc o) vms
          | _ =>
              console_error "Unexpected API response format:" (ResponsePayload response) ;;
              toast_error "Unexpected API response format" None ;;
              ret mockVMs
          end)
         (fun error =>
            console_error "Error fetching all VMs:" (ErrorPayload error) ;;
            toast_error "Failed to fetch VMs data" None ;;
            ret mockVMs))
    (fun error =>
       console_error "Error loading VMs:" (ErrorPayload error) ;;
       toast_error "Error Loading VMs"
                   (Some (or_else (err_response_message error)
                                  "Failed to load virtual machines.")) ;;
       ret mockVMs).

(** ** Auxiliary definitions for the statements *)

(** The fold of [lower_ascii] on character codes. *)
Definition lower_code (n : N) : N :=
  if ((65 <=? n) && (n <=? 90))%N then (n + 32)%N else n.

(** The world once further events have been recorded. *)
Definition record (w : World) (evs : list Event) : World :=
  {| heap := heap w; trace := trace w ++ evs; ticks := ticks w; draws := draws w |}.

(** The remote calls of a trace, in order. *)
Definition remote_calls (t : list Event) : list RemoteCall :=
  omap (fun e => match e with Remote c => Some c | _ => None end) t.

(** The actions the dispatcher supports. *)
Definition supported_actions : list string := ["start"; "stop"; "restart"; "reset"].

(** The remote operation that belongs to each supported action, with the
    promise the service returns for it. *)
Inductive dispatches (env : Env) (instanceOs employeeId : string)
  : string -> RemoteCall -> Settled ActionResponse -> Prop :=
  | dispatches_start :
      dispatches env instanceOs employeeId "start"
        (StartVM instanceOs employeeId) (startVM (vmService env) instanceOs employeeId)
  | dispatches_stop :
      dispatches env instanceOs employeeId "stop"
        (StopVM instanceOs employeeId) (stopVM (vmService env) instanceOs employeeId)
  | dispatches_restart :
      dispatches env instanceOs employeeId "restart"
        (RestartVM instanceOs employeeId) (restartVM (vmService env) instanceOs employeeId)
  | dispatches_reset :
      dispatches env instanceOs employeeId "reset"
        (RestartVM instanceOs employeeId) (restartVM (vmService env) instanceOs employeeId).

(** ** Sample environments *)

(** A service whose start succeeds with a message, whose stop is refused
    with a message of the server, whose restart succeeds without message,
    which reports Windows stopped and Linux running, and whose list of all
    VMs is the malformed response [{}]; a clock that stands still; a
    generator that draws 0/7, 1/7, ..., 6/7, rounded to binary64, in
    turn. *)
Definition sample_service : VmService :=
  {| startVM := fun _ _ => Fulfilled {| message := Some "Instance started";
                                        URL := Some "https://desk.example/1" |};
     stopVM := fun _ _ => Rejected {| err_message := "Request failed with status code 409";
                                      err_response_message := Some "Instance is busy" |};
     restartVM := fun _ _ => Fulfilled {| message := None; URL := None |};
     getVMStatus := fun _ => Fulfilled {| windows := "Stopped"; linux := "Running" |};
     getAllVMs := Fulfilled (ResponseObject VmsFalsy) |}.

Definition sample_env : Env :=
  {| vmService := sample_service;
     clock := fun _ => 1750000000000;
     random := fun n => Binary64.div (Binary64.of_Z (Z.of_nat (n mod 7)))
                                     (Binary64.of_Z 7) |}.

(** The world once the clock has been read [t] more times and [d] more
    random numbers have been drawn. *)
Definition advance (w : World) (t d : nat) : World :=
  {| heap := heap w; trace := trace w;
     ticks := (t + ticks w)%nat; draws := (d + draws w)%nat |}.

(** One hour and one minute, in milliseconds. *)
Definition hour_ms : Z := 3600000.
Definition minute_ms : Z := 60000.

(** A raw record of a VM: running, last updated two hours and five
    minutes before the time [now], or idle. *)
Definition sample_record (status : string) (updated : Z) : ApiVM.t :=
  {| ApiVM.id := Some 7; ApiVM.instance_id := Some "i-0abc";
     ApiVM.instance_os := "Linux"; ApiVM.employee_id := "emp-009";
     ApiVM.status := status; ApiVM.updated_at := Int updated;
     ApiVM.guacamole_url := None; ApiVM.user_name := Some "Dana";
     ApiVM.user_email := None; ApiVM.created_at := None |}.

(** The world after the single-user branch has run with the status
    response [sr] for the employee [e]. *)
Definition overlaid (w : World) (e : string) (sr : StatusResponse) : World :=
  {| heap := alter (overlay_status sr) 1%nat (alter (overlay_status sr) 0%nat (heap w));
     trace := trace w ++ [Remote (GetVMStatus e)];
     ticks := ticks w; draws := draws w |}.

(** A raw record and the object the mapper makes of it, in some state of
    the clock and of the generator. *)
Definition mapped (env : Env) (apiVM : ApiVM.t) (vm : VirtualMachine) : Prop :=
  exists w w', convertApiVMToAppFormat env apiVM w = (Normal vm, w').

(** Resources that are all zero. *)
Definition zeroed (r : VMResources) : Prop :=
  cpu r = 0 /\ memory r = 0 /\ disk r = 0 /\ network r = 0.

(** A response of [getAllVMs] that has the shape [{vms: Array}]. *)
Definition has_vms_array (r : Settled AllVMsResponse) : Prop :=
  exists vms, r = Fulfilled (ResponseObject (VmsArray vms)).

(** The mock entries as the loader leaves them when the service reports
    Windows stopped and Linux running. *)
Definition mock_vm_001_stopped : VirtualMachine :=
  {| id := "vm-001"; name := "Windows Development"; status := "Stopped";
     os := "Windows"; assigned_user := "emp-001"; uptime := "0h 0m";
     health := "Good"; ip_address := "10.0.0.15";
     last_snapshot := Some "2025-04-15 09:30";
     resources := {| cpu := 0; memory := 0; disk := 30; network := 0 |};
     user_name := None; user_email := None; guacamole_url := None;
     instance_id := None; created_at := None |}.

Definition mock_vm_002_running : VirtualMachine :=
  {| id := "vm-002"; name := "Linux Server"; status := "Running";
     os := "Linux"; assigned_user := "emp-002"; uptime := "0h 0m";
     health := "Good"; ip_address := "10.0.0.16";
     last_snapshot := Some "2025-04-14 17:15";
     resources := {| cpu := 0; memory := 0; disk := 15; network := 0 |};
     user_name := None; user_email := None; guacamole_url := None;
     instance_id := None; created_at := None |}.

(** A service that reports Windows as [stopped], in small letters. *)
Definition lowercase_service : VmService :=
  {| startVM := startVM sample_service;
     stopVM := stopVM sample_service;
     restartVM := restartVM sample_service;
     getVMStatus := fun _ => Fulfilled {| windows := "stopped"; linux := "rebooting" |};
     getAllVMs := Rejected {| err_message := "Network Error";
                              err_response_message := None |} |}.

Definition lowercase_env : Env :=
  {| vmService := lowercase_service; clock := clock sample_env;
     random := random sample_env |}.

(** A service whose status request fails. *)
Definition rejecting_service : VmService :=
  {| startVM := startVM sample_service;
     stopVM := stopVM sample_service;
     restartVM := restartVM sample_service;
     getVMStatus := fun _ => Rejected {| err_message := "Network Error";
                                         err_response_message := None |};
     getAllVMs := getAllVMs sample_service |}.

Definition rejecting_env : Env :=
  {| vmService := rejecting_service; clock := clock sample_env;
     random := random sample_env |}.

(** After [k] one-bit right shifts of the mantissa [m] by [shr_1]: the
    quotient by [2 ^ k], and a round bit that is set only when the part
    shifted out is at least one half. *)
Definition shifted (m k : Z) (rec : shr_record) : Prop :=
  shr_m rec = m / 2 ^ k
  /\ (shr_r rec = true -> 2 ^ k <= 2 * (m mod 2 ^ k)).

(** The states that calls of the two exported functions lead to, from the
    state in which the module is loaded. *)
Inductive reachable : World -> Prop :=
  | reachable_initial : reachable initial_world
  | reachable_loadUserVMs env employeeId w :
      reachable w -> reachable (snd (loadUserVMs env employeeId w))
  | reachable_handleVMAction env vmId action instanceOs employeeId w :
      reachable w ->
      reachable (snd (handleVMAction env vmId action instanceOs employeeId w)).

From Stdlib Require Import DecimalPos DecimalZ.

(** ** Further definitions: counting the events of a trace *)

(** The events that a run has added to the trace. *)
Definition is_toast (e : Event) : bool :=
  match e with Toast _ _ => true | _ => false end.

Definition is_toast_error (e : Event) : bool :=
  match e with ToastError _ _ => true | _ => false end.

Definition is_console_error (e : Event) : bool :=
  match e with ConsoleError _ _ => true | _ => false end.

Definition count_events (f : Event -> bool) (t : list Event) : nat :=
  length (List.filter f t).

(** The single remote call that the loader makes for an employee. *)
Definition loader_call (employeeId : option string) : RemoteCall :=
  if truthy employeeId then GetVMStatus (default "" employeeId) else GetAllVMs.

(** ** The action buttons of a VM row *)

(** The component [VMTableActions], as the buttons it renders, in order.
    Of a button the title, the [disabled] flag and the click handler are
    kept; class names and icons are left out. *)
Module VMRow.

Record Props : Type := {
  vmId : string;
  status : string;
  instanceOs : string;
  employeeId : string;
  actionLoading : option string;
  guacamoleUrl : option string
}.

(** What a click handler of the component does: a call of the [onAction]
    or of the [onViewDetails] callback of the properties, or the local
    [handleConnect]. *)
Inductive Handler : Type :=
  | OnAction (vmId action instanceOs employeeId : string)
  | OnViewDetails
  | HandleConnect.

Record Button : Type := {
  title : string;
  disabled : bool;
  onClick : Handler
}.

(** What a handler does when it runs. *)
Inductive Effect : Type :=
  | CallOnAction (vmId action instanceOs employeeId : string)
  | CallOnViewDetails
  | StopPropagation
  | PreventDefault
  | WindowOpen (url target : string).

(** [actionLoading === vmId]. *)
Definition loading (p : Props) : bool :=
  match actionLoading p with
  | Some a => (a =? vmId p)%string
  | None => false
  end.

Definition handleConnect (p : Props) : list Effect :=
  [StopPropagation; PreventDefault]
  ++ (if truthy (guacamoleUrl p)
      then [WindowOpen (default "" (guacamoleUrl p)) "_blank"]
      else []).

Definition run (p : Props) (h : Handler) : list Effect :=
  match h with
  | OnAction v a o e => [CallOnAction v a o e]
  | OnViewDetails => [CallOnViewDetails]
  | HandleConnect => handleConnect p
  end.

(** A click on a button: a disabled button does not react. *)
Definition click (p : Props) (b : Button) : list Effect :=
  if disabled b then [] else run p (onClick b).

End VMRow.

Definition VMTableActions (p : VMRow.Props) : list VMRow.Button :=
  let vmStatus := toLowerCase (VMRow.status p) in
  ((if (vmStatus =? "running")%string then
      [ {| VMRow.title := "Stop VM"; VMRow.disabled := VMRow.loading p;
           VMRow.onClick := VMRow.OnAction (VMRow.vmId p) "Stop" (VMRow.instanceOs p)
                                           (VMRow.employeeId p) |} ]
      ++ (if truthy (VMRow.guacamoleUrl p)
          then [ {| VMRow.title := "Connect to VM"; VMRow.disabled := false;
                    VMRow.onClick := VMRow.HandleConnect |} ]
          else [])
    else
      [ {| VMRow.title := "Start VM"; VMRow.disabled := VMRow.loading p;
           VMRow.onClick := VMRow.OnAction (VMRow.vmId p) "Start" (VMRow.instanceOs p)
                                           (VMRow.employeeId p) |} ])
   ++ [ {| VMRow.title := "View Details"; VMRow.disabled := false;
           VMRow.onClick := VMRow.OnViewDetails |} ]
   ++ (if ((vmStatus =? "error") || (vmStatus =? "running"))%string
       then [ {| VMRow.title := "Restart VM"; VMRow.disabled := VMRow.loading p;
                 VMRow.onClick := VMRow.OnAction (VMRow.vmId p) "Restart"
                                                 (VMRow.instanceOs p)
                                                 (VMRow.employeeId p) |} ]
       else []))%list.

(** The titles of the buttons of a row. *)
Definition titles (bs : list VMRow.Button) : list string := map VMRow.title bs.

(** The remote operation behind each action that a row can ask for. *)
Definition row_call (action instanceOs employeeId : string) : RemoteCall :=
  if (action =? "Stop")%string then StopVM instanceOs employeeId
  else if (action =? "Start")%string then StartVM instanceOs employeeId
  else RestartVM instanceOs employeeId.

(** What the mapper copies from a raw record, whatever the clock and the
    draws. *)
Definition mapped_from (apiVM : ApiVM.t) (vm : VirtualMachine) : Prop :=
  status vm = normalizeVMStatus (ApiVM.status apiVM)
  /\ In (status vm) VMStatus_values
  /\ os vm = ApiVM.instance_os apiVM
  /\ name vm = ApiVM.instance_os apiVM +:+ " VM"
  /\ assigned_user vm = ApiVM.employee_id apiVM
  /\ health vm = "Good"
  /\ ip_address vm = "10.0.0.15"
  /\ last_snapshot vm = None
  /\ user_name vm = ApiVM.user_name apiVM
  /\ user_email vm = ApiVM.user_email apiVM
  /\ guacamole_url vm = ApiVM.guacamole_url apiVM
  /\ instance_id vm = ApiVM.instance_id apiVM
  /\ created_at vm = ApiVM.created_at apiVM.

(** A service whose list of all VMs holds a running record and a record
    in a state unknown to the normalizer. *)
Definition listing_records : list ApiVM.t :=
  [sample_record "RUNNING" 1749999000000; sample_record "rebooting" 1749999000000].

Definition listing_service : VmService :=
  {| startVM := startVM sample_service;
     stopVM := stopVM sample_service;
     restartVM := restartVM sample_service;
     getVMStatus := getVMStatus sample_service;
     getAllVMs := Fulfilled (ResponseObject (VmsArray listing_records)) |}.

Definition listing_env : Env :=
  {| vmService := listing_service; clock := clock sample_env;
     random := random sample_env |}.

(** An entry that shows no activity: no cpu, memory or network use and
    no uptime. *)
Definition idle_figures (vm : VirtualMachine) : Prop :=
  cpu (resources vm) = 0 /\ memory (resources vm) = 0
  /\ network (resources vm) = 0 /\ uptime vm = "0h 0m".

(** Two objects that agree on everything the overlay leaves alone. *)
Definition same_identity (a b : VirtualMachine) : Prop :=
  id a = id b /\ name a = name b /\ os a = os b
  /\ assigned_user a = assigned_user b /\ health a = health b
  /\ ip_address a = ip_address b /\ last_snapshot a = last_snapshot b
  /\ disk (resources a) = disk (resources b)
  /\ user_name a = user_name b /\ user_email a = user_email b
  /\ guacamole_url a = guacamole_url b /\ instance_id a = instance_id b
  /\ created_at a = created_at b.

(** A service that reports both systems running. *)
Definition running_service : VmService :=
  {| startVM := startVM sample_service;
     stopVM := stopVM sample_service;
     restartVM := restartVM sample_service;
     getVMStatus := fun _ => Fulfilled {| windows := "Running"; linux := "Running" |};
     getAllVMs := getAllVMs sample_service |}.

Definition running_env : Env :=
  {| vmService := running_service; clock := clock sample_env;
     random := random sample_env |}.

(** The status that the overlay gives an entry, by its operating system. *)
Definition overlay_choice (sr : StatusResponse) (vm : VirtualMachine) : string :=
  if (toLowerCase (os vm) =? "windows")%string then windows sr
  else if (toLowerCase (os vm) =? "linux")%string then linux sr
  else status vm.

(** A raw record without instance id, and one without a valid date. *)
Definition anonymous_record (n : option Z) : ApiVM.t :=
  {| ApiVM.id := n; ApiVM.instance_id := None;
     ApiVM.instance_os := "Windows"; ApiVM.employee_id := "emp-011";
     ApiVM.status := "stopped"; ApiVM.updated_at := Int 1749999000000;
     ApiVM.guacamole_url := None; ApiVM.user_name := None;
     ApiVM.user_email := None; ApiVM.created_at := None |}.

Definition undated_record (status : string) : ApiVM.t :=
  {| ApiVM.id := Some 3; ApiVM.instance_id := Some "i-0def";
     ApiVM.instance_os := "Linux"; ApiVM.employee_id := "emp-012";
     ApiVM.status := status; ApiVM.updated_at := NaN;
     ApiVM.guacamole_url := None; ApiVM.user_name := None;
     ApiVM.user_email := None; ApiVM.created_at := None |}.

(** The action that each action button of a row asks for. *)
Definition button_actions : list (string * string) :=
  [("Stop VM", "Stop"); ("Start VM", "Start"); ("Restart VM", "Restart")].

(** The row of a running VM with a connection URL, while no action is in
    flight. *)
Definition sample_row : VMRow.Props :=
  {| VMRow.vmId := "i-0abc"; VMRow.status := "Running";
     VMRow.instanceOs := "Linux"; VMRow.employeeId := "emp-009";
     VMRow.actionLoading := None;
     VMRow.guacamoleUrl := Some "https://desk.example/1" |}.

(** The same row while its own action is in flight. *)
Definition busy_row : VMRow.Props :=
  {| VMRow.vmId := "i-0abc"; VMRow.status := "Running";
     VMRow.instanceOs := "Linux"; VMRow.employeeId := "emp-009";
     VMRow.actionLoading := Some "i-0abc";
     VMRow.guacamoleUrl := Some "https://desk.example/1" |}.

(** ** The projects page of the administrator *)

(** A value of type [string | number]. *)
Inductive StringOrNumber : Type :=
  | Num (z : Z)
  | Str (s : string).

Module ProjectMember.
Record t : Type := {
  employee_id : Z;
  name : string
}.
End ProjectMember.

(** A project as the server sends it.  The mapper guards every field but
    [id] and [start_date] against a missing or empty value, so these
    fields are optional here; [None] stands for [undefined] and [null]. *)
Module ApiProject.
Record t : Type := {
  id : Z;
  name : option string;
  description : option string;
  status : option string;
  start_date : option string;
  end_date : option string;
  scope : option string;
  manager : option string;
  manager_name : option string;
  members : option (list ProjectMember.t);
  archived : option bool
}.
End ApiProject.

Module Project.
Record t : Type := {
  id : StringOrNumber;
  name : string;
  status : string;
  description : string;
  start_date : option string;
  end_date : option string;
  scope : option string;
  manager : option string;
  managerId : option StringOrNumber;
  manager_name : option string;
  members : option (list ProjectMember.t);
  archived : option bool
}.
End Project.

Module ProjectFormValues.
Record t : Type := {
  name : string;
  description : string;
  status : option string;
  start_date : string;
  end_date : string;
  scope : option string;
  managerId : option StringOrNumber
}.
End ProjectFormValues.

(** [a || false] for an optional boolean. *)
Definition or_false (a : option bool) : bool :=
  match a with
  | Some b => b
  | None => false
  end.

Definition mapApiProjectToProject (apiProject : ApiProject.t) : Project.t :=
  {| Project.id := Num (ApiProject.id apiProject);
     Project.name := or_else (ApiProject.name apiProject) "";
     Project.description := or_else (ApiProject.description apiProject) "";
     Project.status := or_else (ApiProject.status apiProject) "not started";
     Project.start_date := ApiProject.start_date apiProject;
     Project.end_date := Some (or_else (ApiProject.end_date apiProject) "");
     Project.scope := Some (or_else (ApiProject.scope apiProject) "");
     Project.manager := Some (or_else (ApiProject.manager apiProject) "Not Assigned");
     Project.managerId := None;
     Project.manager_name :=
       Some (or_else (ApiProject.manager_name apiProject) "Not Assigned");
     Project.members := None;
     Project.archived := Some (or_false (ApiProject.archived apiProject)) |}.

(** What [getAllProjects] resolves to, by shape: an array of projects, or
    anything else (a falsy value or a value that is no array). *)
Inductive ProjectsResponse : Type :=
  | ProjectsNotArray
  | ProjectsArray (projects : list ApiProject.t).

(** What the page tells the user and the console. *)
Inductive Notice : Type :=
  | NoticeSuccess (title description : string)
  | NoticeError (title description : string)
  | NoticeConsole (label : string).

(** The query function of the page: what it writes, and what it returns.
    It awaits one call of [getAllProjects], given here by its settled
    promise. *)
Definition queryFn (response : Settled ProjectsResponse)
  : list Notice * list Project.t :=
  match response with
  | Fulfilled (ProjectsArray projects) => ([], map mapApiProjectToProject projects)
  | Fulfilled ProjectsNotArray =>
      ([NoticeConsole "Unexpected projects API response format:";
        NoticeError "Invalid projects data format"
                    "The server returned projects in an unexpected format."],
       [])
  | Rejected _ =>
      ([NoticeConsole "Error fetching projects:";
        NoticeError "Failed to load projects"
                    "There was an error loading projects. Please try again later."],
       [])
  end.

(** The three counters at the top of the page. *)
Definition has_status (label : string) (p : Project.t) : bool :=
  (toLowerCase (Project.status p) =? label)%string.

Definition activeProjects (projects : list Project.t) : nat :=
  length (List.filter (has_status "in progress") projects).

Definition completedProjects (projects : list Project.t) : nat :=
  length (List.filter (has_status "complete") projects).

Definition notStartedProjects (projects : list Project.t) : nat :=
  length (List.filter (has_status "not started") projects).

Definition getStatusColor (status : string) : string :=
  let statusLower := toLowerCase status in
  if (statusLower =? "in progress")%string
  then "bg-green-900/40 text-green-300 border-green-800"
  else if (statusLower =? "complete")%string
  then "bg-blue-900/40 text-blue-300 border-blue-800"
  else if (statusLower =? "not started")%string
  then "bg-amber-900/40 text-amber-300 border-amber-800"
  else "bg-gray-800 text-gray-300 border-gray-700".

(** The rows whose status badge has a given colour. *)
Definition badges (color : string) (projects : list Project.t) : nat :=
  length (List.filter (fun p => (getStatusColor (Project.status p) =? color)%string)
                      projects).

(** The body of the table.  Of a project row the texts of the cells and
    the colour of the status badge are kept.  The two dates of the
    timeline are kept apart: each is what [date && formatDate(date)]
    renders, nothing ([None]) when the date is missing or empty. *)
Module ProjectRow.
Record t : Type := {
  id : StringOrNumber;
  name : string;
  description : string;
  status_color : string;
  status : string;
  archived : string;
  timeline_start : option string;
  timeline_end : option string;
  manager : string
}.
End ProjectRow.

Inductive BodyRow : Type :=
  | LoadingRow
  | NoProjectsRow
  | ProjectCells (cells : ProjectRow.t).

Section Rendering.

(** [new Date(s).toLocaleDateString('en-US', ...)], which depends on the
    locale data and the time zone of the browser. *)
Variable toLocaleDateString : string -> string.

Definition formatDate (dateString : string) : string :=
  if (dateString =? "")%string then "Not set" else toLocaleDateString dateString.

(** [{date && formatDate(date)}]. *)
Definition and_formatDate (date : option string) : option string :=
  if truthy date then Some (formatDate (default "" date)) else None.

Definition project_row (project : Project.t) : ProjectRow.t :=
  {| ProjectRow.id := Project.id project;
     ProjectRow.name := Project.name project;
     ProjectRow.description := Project.description project;
     ProjectRow.status_color := getStatusColor (Project.status project);
     ProjectRow.status := Project.status project;
     ProjectRow.archived := if or_false (Project.archived project) then "True" else "False";
     ProjectRow.timeline_start := and_formatDate (Project.start_date project);
     ProjectRow.timeline_end := and_formatDate (Project.end_date project);
     ProjectRow.manager := or_else (Project.manager_name project) "Not specified" |}.

Definition table_body (isLoading : bool) (projects : list Project.t) : list BodyRow :=
  if isLoading then [LoadingRow]
  else if (0 <? length projects)%nat
       then map (fun project => ProjectCells (project_row project)) projects
       else [NoProjectsRow].

End Rendering.

(** The state of the page, and what its handlers do besides changing it:
    requests of the three mutations, notifications, resets of the form
    and invalidations of the query. *)
Module Page.

Record State : Type := {
  isCreateDialogOpen : bool;
  isEditDialogOpen : bool;
  selectedProject : option Project.t;
  archiveProjectId : option StringOrNumber
}.

Inductive Effect : Type :=
  | CreateProject (projectData : ProjectFormValues.t)
  | UpdateProject (id : StringOrNumber) (data : ProjectFormValues.t)
  | ArchiveProject (projectId : StringOrNumber)
  | Notify (notice : Notice)
  | FormReset (values : option ProjectFormValues.t)
  | InvalidateQueries.

(** The calls of the handlers of the page: by the user through the form,
    the dialogs and the rows, and by the mutations when they settle. *)
Inductive Action : Type :=
  | SubmitCreate (values : ProjectFormValues.t)
  | SubmitEdit (values : ProjectFormValues.t)
  | ClickEdit (project : Project.t)
  | ClickArchive (project : Project.t)
  | CancelArchive
  | ConfirmArchive
  | CancelEdit
  | CreateOpenChange (open : bool)
  | EditOpenChange (open : bool)
  | CreateSucceeded
  | CreateFailed (error : JsError)
  | UpdateSucceeded
  | UpdateFailed (error : JsError)
  | ArchiveSucceeded
  | ArchiveFailed (error : JsError).

Definition initial : State :=
  {| isCreateDialogOpen := false; isEditDialogOpen := false;
     selectedProject := None; archiveProjectId := None |}.

Definition setIsCreateDialogOpen (v : bool) (s : State) : State :=
  {| isCreateDialogOpen := v; isEditDialogOpen := isEditDialogOpen s;
     selectedProject := selectedProject s; archiveProjectId := archiveProjectId s |}.

Definition setIsEditDialogOpen (v : bool) (s : State) : State :=
  {| isCreateDialogOpen := isCreateDialogOpen s; isEditDialogOpen := v;
     selectedProject := selectedProject s; archiveProjectId := archiveProjectId s |}.

Definition setSelectedProject (v : option Project.t) (s : State) : State :=
  {| isCreateDialogOpen := isCreateDialogOpen s; isEditDialogOpen := isEditDialogOpen s;
     selectedProject := v; archiveProjectId := archiveProjectId s |}.

Definition setArchiveProjectId (v : option StringOrNumber) (s : State) : State :=
  {| isCreateDialogOpen := isCreateDialogOpen s; isEditDialogOpen := isEditDialogOpen s;
     selectedProject := selectedProject s; archiveProjectId := v |}.

(** The description of the error toast of a mutation:
    [error.response?.data?.message || fallback]. *)
Definition errorMessage (error : JsError) (fallback : string) : string :=
  or_else (err_response_message error) fallback.

Definition handleCreateProject (values : ProjectFormValues.t) (s : State)
  : State * list Effect :=
  (s, [CreateProject values]).

Definition handleEditProject (values : ProjectFormValues.t) (s : State)
  : State * list Effect :=
  match selectedProject s with
  | Some project => (s, [UpdateProject (Project.id project) values])
  | None => (s, [])
  end.

Definition handleEditClick (project : Project.t) (s : State) : State * list Effect :=
  (setIsEditDialogOpen true (setSelectedProject (Some project) s),
   [FormReset (Some {| ProjectFormValues.name := Project.name project;
                       ProjectFormValues.description := Project.description project;
                       ProjectFormValues.status := Some (Project.status project);
                       ProjectFormValues.start_date :=
                         or_else (Project.start_date project) "";
                       ProjectFormValues.end_date := or_else (Project.end_date project) "";
                       ProjectFormValues.scope :=
                         Some (or_else (Project.scope project) "");
                       ProjectFormValues.managerId := Project.managerId project |})]).

Definition handleArchiveProject (s : State) : State * list Effect :=
  match archiveProjectId s with
  | Some projectId => (s, [ArchiveProject projectId])
  | None => (s, [])
  end.

Definition handle (s : State) (a : Action) : State * list Effect :=
  match a with
  | SubmitCreate values => handleCreateProject values s
  | SubmitEdit values => handleEditProject values s
  | ClickEdit project => handleEditClick project s
  | ClickArchive project => (setArchiveProjectId (Some (Project.id project)) s, [])
  | CancelArchive => (setArchiveProjectId None s, [])
  | ConfirmArchive => handleArchiveProject s
  | CancelEdit => (setIsEditDialogOpen false s, [])
  | CreateOpenChange open => (setIsCreateDialogOpen open s, [])
  | EditOpenChange open => (setIsEditDialogOpen open s, [])
  | CreateSucceeded =>
      (setIsCreateDialogOpen false s,
       [Notify (NoticeSuccess "Project created"
                              "New project has been created successfully.");
        FormReset None; InvalidateQueries])
  | CreateFailed error =>
      (s, [Notify (NoticeError "Error" (errorMessage error "Failed to create project"))])
  | UpdateSucceeded =>
      (setSelectedProject None (setIsEditDialogOpen false s),
       [Notify (NoticeSuccess "Project updated" "Project has been updated successfully.");
        InvalidateQueries])
  | UpdateFailed error =>
      (s, [Notify (NoticeError "Error" (errorMessage error "Failed to update project"))])
  | ArchiveSucceeded =>
      (setArchiveProjectId None s,
       [Notify (NoticeSuccess "Project archived" "Project has been archived successfully.");
        InvalidateQueries])
  | ArchiveFailed error =>
      (s, [Notify (NoticeError "Error" (errorMessage error "Failed to archive project"))])
  end.

(** A sequence of calls, from a state: the state reached and everything
    done on the way, in order. *)
Fixpoint run (s : State) (actions : list Action) : State * list Effect :=
  match actions with
  | [] => (s, [])
  | a :: rest =>
      let (s1, done1) := handle s a in
      let (s2, done2) := run s1 rest in
      (s2, (done1 ++ done2)%list)
  end.

(** The calls that leave the project chosen for editing as it is, and
    those that leave the project chosen for archiving as it is. *)
Definition keeps_selection (a : Action) : bool :=
  match a with
  | ClickEdit _ | UpdateSucceeded => false
  | _ => true
  end.

Definition keeps_archive_choice (a : Action) : bool :=
  match a with
  | ClickArchive _ | CancelArchive | ArchiveSucceeded => false
  | _ => true
  end.

End Page.
(** * Properties *)

(** ** Case folding *)

Lemma lower_ascii_code (c : ascii) :
  N_of_ascii (lower_ascii c) = lower_code (N_of_ascii c).
Proof.
  unfold lower_ascii, lower_code, is_upper.
  destruct ((65 <=? N_of_ascii c) && (N_of_ascii c <=? 90))%N eqn:E; [|reflexivity].
  apply N_ascii_embedding.
  apply andb_true_iff in E as [_ E]. apply N.leb_le in E. lia.
Qed.

Lemma N_of_ascii_inj (a b : ascii) : N_of_ascii a = N_of_ascii b -> a = b.
Proof.
  intros H. rewrite <- (ascii_N_embedding a), <- (ascii_N_embedding b).
  now rewrite H.
Qed.

Lemma lower_ascii_same_letter (a b : ascii) :
  lower_ascii a = lower_ascii b <-> same_letter a b.
Proof.
  unfold same_letter. split.
  - intros H. apply (f_equal N_of_ascii) in H.
    rewrite !lower_ascii_code in H. unfold lower_code, is_upper in *.
    destruct ((65 <=? N_of_ascii a) && (N_of_ascii a <=? 90))%N eqn:Ea;
      destruct ((65 <=? N_of_ascii b) && (N_of_ascii b <=? 90))%N eqn:Eb.
    + left. apply N_of_ascii_inj. lia.
    + right; left. split; [reflexivity | lia].
    + right; right. split; [reflexivity | lia].
    + left. now apply N_of_ascii_inj.
  - intros H. apply N_of_ascii_inj. rewrite !lower_ascii_code.
    unfold lower_code, is_upper in *.
    destruct H as [-> | [[Ha Hb] | [Hb Ha]]]; [reflexivity | |].
    + rewrite Ha, Hb.
      apply andb_true_iff in Ha as [H1 H2].
      apply N.leb_le in H1. apply N.leb_le in H2.
      destruct ((65 <=? N_of_ascii a + 32) && (N_of_ascii a + 32 <=? 90))%N eqn:E;
        [|reflexivity].
      apply andb_true_iff in E as [_ E]. apply N.leb_le in E. lia.
    + rewrite Ha, Hb.
      apply andb_true_iff in Hb as [H1 H2].
      apply N.leb_le in H1. apply N.leb_le in H2.
      destruct ((65 <=? N_of_ascii b + 32) && (N_of_ascii b + 32 <=? 90))%N eqn:E;
        [|reflexivity].
      apply andb_true_iff in E as [_ E]. apply N.leb_le in E. lia.
Qed.

Lemma toLowerCase_eq_ignore_case (s t : string) :
  toLowerCase s = toLowerCase t <-> eq_ignore_case s t.
Proof.
  split.
  - revert t. induction s as [|a s IH]; intros [|b t] H; simpl in H; try discriminate.
    + constructor.
    + injection H as Hc Hs. constructor.
      * now apply lower_ascii_same_letter.
      * now apply IH.
  - induction 1 as [|a b s t Hl _ IH]; simpl; [reflexivity|].
    apply lower_ascii_same_letter in Hl. now rewrite Hl, IH.
Qed.

(** ** The status normalizer *)

Lemma normalizeVMStatus_cases (s : string) :
  let l := toLowerCase s in
  (l = "running" /\ normalizeVMStatus s = "Running")
  \/ (l = "stopped" /\ normalizeVMStatus s = "Stopped")
  \/ (l = "starting" /\ normalizeVMStatus s = "Starting")
  \/ (l = "stopping" /\ normalizeVMStatus s = "Stopping")
  \/ (l = "paused" /\ normalizeVMStatus s = "Paused")
  \/ ((l <> "running" /\ l <> "stopped" /\ l <> "starting" /\ l <> "stopping"
       /\ l <> "paused") /\ normalizeVMStatus s = "Error").
Proof.
  unfold normalizeVMStatus. cbv zeta.
  destruct (toLowerCase s =? "running")%string eqn:E1;
    [apply String.eqb_eq in E1; tauto | apply String.eqb_neq in E1].
  destruct (toLowerCase s =? "stopped")%string eqn:E2;
    [apply String.eqb_eq in E2; tauto | apply String.eqb_neq in E2].
  destruct (toLowerCase s =? "starting")%string eqn:E3;
    [apply String.eqb_eq in E3; tauto | apply String.eqb_neq in E3].
  destruct (toLowerCase s =? "stopping")%string eqn:E4;
    [apply String.eqb_eq in E4; tauto | apply String.eqb_neq in E4].
  destruct (toLowerCase s =? "paused")%string eqn:E5;
    [apply String.eqb_eq in E5; tauto | apply String.eqb_neq in E5].
  tauto.
Qed.

Lemma eq_ignore_case_label (s label : string) :
  toLowerCase label = label ->
  (eq_ignore_case s label <-> toLowerCase s = label).
Proof.
  intros Hl. rewrite <- toLowerCase_eq_ignore_case, Hl. reflexivity.
Qed.

(** C1.  The normalizer is a total function from strings to the six
    values of [VMStatus].  For each of the five known labels it returns
    the canonical form of that label exactly when the input equals the
    label up to case; it returns [Error] exactly when the input equals
    none of them up to case, which is so for the empty string and for an
    unknown state. *)
Theorem normalizeVMStatus_total_exact (s : string) :
  In (normalizeVMStatus s) VMStatus_values
  /\ (forall label canon, In (label, canon) known_labels ->
        (normalizeVMStatus s = canon <-> eq_ignore_case s label))
  /\ (normalizeVMStatus s = "Error" <->
        forall label canon, In (label, canon) known_labels ->
                            ~ eq_ignore_case s label)
  /\ normalizeVMStatus "" = "Error"
  /\ normalizeVMStatus "unknown-state" = "Error".
Proof.
  pose proof (normalizeVMStatus_cases s) as H. cbv zeta in H.
  assert (Hlab : forall label canon, In (label, canon) known_labels ->
                   (eq_ignore_case s label <-> toLowerCase s = label)).
  { intros label canon Hin. apply eq_ignore_case_label.
    simpl in Hin.
    repeat (destruct Hin as [Hin | Hin]; [injection Hin as <- <-; reflexivity|]).
    destruct Hin. }
  assert (Hone : forall label canon, In (label, canon) known_labels ->
                   (normalizeVMStatus s = canon <-> toLowerCase s = label)).
  { intros label canon Hin. simpl in Hin.
    repeat (destruct Hin as [Hin | Hin];
            [injection Hin as <- <-;
             destruct H as [[L E] | [[L E] | [[L E] | [[L E] | [[L E] | [L E]]]]]];
             rewrite E; split; intros Hx; try discriminate Hx;
             try reflexivity; try congruence; tauto|]).
    destruct Hin. }
  split; [|split; [|split; [|split]]].
  - unfold VMStatus_values. simpl.
    destruct H as [[_ ->] | [[_ ->] | [[_ ->] | [[_ ->] | [[_ ->] | [_ ->]]]]]]; tauto.
  - intros label canon Hin.
    rewrite (Hlab label canon Hin). now apply Hone.
  - split.
    + intros Hn label canon Hin He.
      apply (Hlab label canon Hin) in He. apply (Hone label canon Hin) in He.
      simpl in Hin.
      repeat (destruct Hin as [Hin | Hin]; [injection Hin as <- <-; congruence|]).
      destruct Hin.
    + intros Hno.
      destruct H as [[L E] | [[L E] | [[L E] | [[L E] | [[L E] | [_ E]]]]]];
        [exfalso .. | exact E].
      * apply (Hno "running" "Running"); [simpl; tauto | now apply eq_ignore_case_label].
      * apply (Hno "stopped" "Stopped"); [simpl; tauto | now apply eq_ignore_case_label].
      * apply (Hno "starting" "Starting"); [simpl; tauto | now apply eq_ignore_case_label].
      * apply (Hno "stopping" "Stopping"); [simpl; tauto | now apply eq_ignore_case_label].
      * apply (Hno "paused" "Paused"); [simpl; tauto | now apply eq_ignore_case_label].
  - reflexivity.
  - reflexivity.
Qed.

(** ** The trace *)

Lemma emit_record (e : Event) (w : World) : emit e w = (Normal tt, record w [e]).
Proof. reflexivity. Qed.

Lemma record_record (w : World) (a b : list Event) :
  record (record w a) b = record w (a ++ b).
Proof. unfold record. simpl. now rewrite <- app_assoc. Qed.

Lemma remote_calls_app (a b : list Event) :
  remote_calls (a ++ b) = (remote_calls a ++ remote_calls b)%list.
Proof. unfold remote_calls. apply omap_app. Qed.

Lemma await_fulfilled {A} (call : RemoteCall) (a : A) (w : World) :
  await call (Fulfilled a) w = (Normal a, record w [Remote call]).
Proof. reflexivity. Qed.

Lemma await_rejected {A} (call : RemoteCall) (e : JsError) (w : World) :
  await call (@Rejected A e) w = (Throw e, record w [Remote call]).
Proof. reflexivity. Qed.

(** ** The action dispatcher *)

(** What the dispatcher does once the promise of the selected operation
    is known. *)
Lemma handleVMAction_dispatch env vmId action instanceOs employeeId w label call promise :
  toLowerCase action = label ->
  dispatches env instanceOs employeeId label call promise ->
  handleVMAction env vmId action instanceOs employeeId w =
  match promise with
  | Fulfilled r =>
      (Normal r,
       record w [Remote call;
                 Toast ("VM " +:+ action +:+ " initiated")
                       (Some (or_else (message r)
                                ("The VM is now being " +:+ label +:+ "ed.")))])
  | Rejected e =>
      (Throw e,
       record w [Remote call;
                 ConsoleError ("Error performing VM " +:+ action +:+ ":") (ErrorPayload e);
                 ToastError ("VM " +:+ action +:+ " Failed")
                            (Some (or_else (err_response_message e)
                                     ("Failed to " +:+ label +:+ " VM.")))])
  end.
Proof.
  intros Hl Hd. unfold handleVMAction, try_catch, bind. rewrite Hl.
  destruct Hd; cbn [String.eqb Ascii.eqb Bool.eqb orb];
    match goal with
    | |- context [await ?c ?p] => destruct p as [r | e]
    end;
    rewrite ?await_fulfilled, ?await_rejected;
    unfold toast, toast_error, console_error, throw, ret;
    rewrite ?emit_record, ?record_record; reflexivity.
Qed.

Lemma handleVMAction_default env vmId action instanceOs employeeId w :
  let l := toLowerCase action in
  l <> "start" -> l <> "stop" -> l <> "restart" -> l <> "reset" ->
  handleVMAction env vmId action instanceOs employeeId w =
  (Throw (new_Error ("Unsupported action: " +:+ action)),
   record w [ConsoleError ("Error performing VM " +:+ action +:+ ":")
                          (ErrorPayload (new_Error ("Unsupported action: " +:+ action)));
             ToastError ("VM " +:+ action +:+ " Failed")
                        (Some ("Failed to " +:+ toLowerCase action +:+ " VM."))]).
Proof.
  intros l H1 H2 H3 H4. subst l.
  apply String.eqb_neq in H1, H2, H3, H4.
  unfold handleVMAction, try_catch, bind. cbv zeta.
  rewrite H1, H2, H3, H4. cbn [orb].
  unfold throw, console_error, toast_error, ret.
  rewrite !emit_record, record_record. reflexivity.
Qed.

Lemma or_else_truthy (o : option string) (m b : string) :
  o = Some m -> m <> "" -> or_else o b = m.
Proof.
  intros -> Hm. unfold or_else. apply String.eqb_neq in Hm. now rewrite Hm.
Qed.

Lemma or_else_falsy (o : option string) (b : string) :
  truthy o = false -> or_else o b = b.
Proof.
  unfold truthy, or_else. destruct o as [s|]; [|reflexivity].
  destruct (s =? "")%string; [reflexivity | discriminate].
Qed.

(** C4.  An action that equals none of start, stop, restart and reset up
    to case makes the dispatcher fail with the error "Unsupported action:
    <action>", which reaches the caller, and no remote operation is
    invoked: the only events are the console line and the error
    notification. *)
Theorem handleVMAction_unsupported env vmId action instanceOs employeeId w :
  (forall a, In a supported_actions -> ~ eq_ignore_case action a) ->
  let error := new_Error ("Unsupported action: " +:+ action) in
  let w' :=
    record w [ConsoleError ("Error performing VM " +:+ action +:+ ":") (ErrorPayload error);
              ToastError ("VM " +:+ action +:+ " Failed")
                         (Some ("Failed to " +:+ toLowerCase action +:+ " VM."))] in
  handleVMAction env vmId action instanceOs employeeId w = (Throw error, w')
  /\ remote_calls (trace w') = remote_calls (trace w)
  /\ heap w' = heap w.
Proof.
  intros Hno error w'.
  assert (Hne : forall a, In a supported_actions -> toLowerCase action <> a).
  { intros a Hin He. apply (Hno a Hin).
    apply eq_ignore_case_label; [|exact He].
    simpl in Hin.
    repeat (destruct Hin as [<- | Hin]; [reflexivity|]). destruct Hin. }
  split; [|split].
  - apply handleVMAction_default; apply Hne; simpl; tauto.
  - subst w'. simpl. rewrite remote_calls_app. simpl. apply app_nil_r.
  - reflexivity.
Qed.

Lemma handleVMAction_unsupported_witness :
  (forall a, In a supported_actions -> ~ eq_ignore_case "launch" a)
  /\ fst (handleVMAction sample_env "vm-001" "launch" "Windows" "emp-001" initial_world)
     = Throw (new_Error "Unsupported action: launch")
  /\ remote_calls (trace (snd (handleVMAction sample_env "vm-001" "launch" "Windows"
                                              "emp-001" initial_world))) = [].
Proof.
  assert (H : forall a, In a supported_actions -> ~ eq_ignore_case "launch" a).
  { intros a Hin He. apply toLowerCase_eq_ignore_case in He.
    simpl in Hin. intuition (subst; discriminate). }
  split; [exact H|].
  destruct (handleVMAction_unsupported sample_env "vm-001" "launch" "Windows" "emp-001"
              initial_world H) as (E & C & _).
  rewrite E. split; [reflexivity | exact C].
Defined.

(** C5.  Whatever the VM, the operating system and the employee, and in
    any casing, the action reset and the action restart invoke the same
    remote operation with the same arguments: each run calls
    [restartVM(instanceOs, employeeId)] once and nothing else, and the two
    runs complete alike. *)
Theorem reset_same_as_restart env vmId vmId' instanceOs employeeId w (reset restart : string) :
  eq_ignore_case reset "reset" ->
  eq_ignore_case restart "restart" ->
  let run_reset := handleVMAction env vmId reset instanceOs employeeId w in
  let run_restart := handleVMAction env vmId' restart instanceOs employeeId w in
  remote_calls (trace (snd run_reset))
    = (remote_calls (trace w) ++ [RestartVM instanceOs employeeId])%list
  /\ remote_calls (trace (snd run_restart))
    = (remote_calls (trace w) ++ [RestartVM instanceOs employeeId])%list
  /\ fst run_reset = fst run_restart.
Proof.
  intros H1 H2.
  apply eq_ignore_case_label in H1; [|reflexivity].
  apply eq_ignore_case_label in H2; [|reflexivity].
  cbv zeta.
  rewrite (handleVMAction_dispatch env vmId reset instanceOs employeeId w _ _ _ H1
             (dispatches_reset env instanceOs employeeId)).
  rewrite (handleVMAction_dispatch env vmId' restart instanceOs employeeId w _ _ _ H2
             (dispatches_restart env instanceOs employeeId)).
  destruct (restartVM (vmService env) instanceOs employeeId) as [r | e];
    cbn [fst snd record trace]; rewrite !remote_calls_app; auto.
Qed.

Lemma reset_same_as_restart_witness :
  eq_ignore_case "ReSet" "reset" /\ eq_ignore_case "RESTART" "restart"
  /\ remote_calls (trace (snd (handleVMAction sample_env "vm-001" "ReSet" "Linux" "emp-002"
                                              initial_world)))
     = [RestartVM "Linux" "emp-002"]
  /\ remote_calls (trace (snd (handleVMAction sample_env "vm-002" "RESTART" "Linux" "emp-002"
                                              initial_world)))
     = [RestartVM "Linux" "emp-002"].
Proof.
  assert (H1 : eq_ignore_case "ReSet" "reset")
    by (apply toLowerCase_eq_ignore_case; reflexivity).
  assert (H2 : eq_ignore_case "RESTART" "restart")
    by (apply toLowerCase_eq_ignore_case; reflexivity).
  split; [exact H1 | split; [exact H2|]].
  destruct (reset_same_as_restart sample_env "vm-001" "vm-002" "Linux" "emp-002"
              initial_world "ReSet" "RESTART" H1 H2) as (A & B & _).
  split; [exact A | exact B].
Defined.

(** C6.  Let the action equal, up to case, a supported action, and take
    the remote operation dispatched for it.  When the operation fails, the
    dispatcher emits an error notification and completes by throwing the
    very failure of the operation; the notification shows the message of
    the server when there is a non-empty one, and otherwise the fallback
    "Failed to <action in lower case> VM.".  When the operation succeeds,
    the dispatcher returns the response of the operation as it is. *)
Theorem handleVMAction_outcome env vmId action instanceOs employeeId w label call promise :
  eq_ignore_case action label ->
  dispatches env instanceOs employeeId label call promise ->
  (forall e, promise = Rejected e ->
     exists description,
       handleVMAction env vmId action instanceOs employeeId w
       = (Throw e,
          record w [Remote call;
                    ConsoleError ("Error performing VM " +:+ action +:+ ":") (ErrorPayload e);
                    ToastError ("VM " +:+ action +:+ " Failed") (Some description)])
       /\ (forall m, err_response_message e = Some m -> m <> "" -> description = m)
       /\ (truthy (err_response_message e) = false ->
           description = "Failed to " +:+ toLowerCase action +:+ " VM."))
  /\ (forall r, promise = Fulfilled r ->
        fst (handleVMAction env vmId action instanceOs employeeId w) = Normal r).
Proof.
  intros Hc Hd.
  assert (Hl : toLowerCase action = label).
  { apply eq_ignore_case_label; [|exact Hc]. destruct Hd; reflexivity. }
  rewrite (handleVMAction_dispatch env vmId action instanceOs employeeId w _ _ _ Hl Hd).
  rewrite Hl. split.
  - intros e ->. eexists. split; [reflexivity|]. split.
    + intros m Hm Hne. now apply or_else_truthy.
    + intros Hf. now apply or_else_falsy.
  - intros r ->. reflexivity.
Qed.

Lemma handleVMAction_outcome_witness :
  eq_ignore_case "Stop" "stop"
  /\ dispatches sample_env "Windows" "emp-001" "stop" (StopVM "Windows" "emp-001")
       (stopVM sample_service "Windows" "emp-001")
  /\ handleVMAction sample_env "vm-001" "Stop" "Windows" "emp-001" initial_world
     = (Throw {| err_message := "Request failed with status code 409";
                 err_response_message := Some "Instance is busy" |},
        record initial_world
          [Remote (StopVM "Windows" "emp-001");
           ConsoleError "Error performing VM Stop:"
             (ErrorPayload {| err_message := "Request failed with status code 409";
                              err_response_message := Some "Instance is busy" |});
           ToastError "VM Stop Failed" (Some "Instance is busy")]).
Proof.
  assert (H1 : eq_ignore_case "Stop" "stop")
    by (apply toLowerCase_eq_ignore_case; reflexivity).
  pose proof (dispatches_stop sample_env "Windows" "emp-001") as H2.
  split; [exact H1 | split; [exact H2|]].
  destruct (handleVMAction_outcome sample_env "vm-001" "Stop" "Windows" "emp-001"
              initial_world _ _ _ H1 H2) as [F _].
  destruct (F _ eq_refl) as (d & E & P & _).
  rewrite E. rewrite (P "Instance is busy" eq_refl); [reflexivity | discriminate].
Defined.

(** ** Binary64 products of random draws *)

Section Binary64Facts.
Import Binary64.

Lemma iter_pos_iter {A} (f : A -> A) (p : positive) : forall x,
  SpecFloat.iter_pos f p x = Pos.iter f x p.
Proof.
  induction p as [p IH | p IH |]; intros x; simpl.
  - rewrite !IH. rewrite <- !Pos.iter_swap. reflexivity.
  - rewrite !IH. reflexivity.
  - reflexivity.
Qed.

Lemma shr_1_nonneg (m : Z) (r s : bool) :
  0 <= m ->
  shr_1 {| shr_m := m; shr_r := r; shr_s := s |}
  = {| shr_m := m / 2; shr_r := Z.odd m; shr_s := r || s |}.
Proof.
  intros Hm. destruct m as [|p|p]; [reflexivity | | lia].
  destruct p as [p|p|]; simpl shr_1.
  - f_equal. rewrite Pos2Z.inj_xI.
    apply (Z.div_unique (2 * Z.pos p + 1) 2 (Z.pos p) 1); lia.
  - f_equal. rewrite Pos2Z.inj_xO.
    apply (Z.div_unique (2 * Z.pos p) 2 (Z.pos p) 0); lia.
  - reflexivity.
Qed.

Lemma shifted_step (m k : Z) (rec : shr_record) :
  0 <= m -> 0 <= k -> shifted m k rec -> shifted m (k + 1) (shr_1 rec).
Proof.
  intros Hm Hk [Hq Hr]. destruct rec as [q r s]. cbn [shr_m shr_r] in Hq, Hr.
  assert (Hp : 0 < 2 ^ k) by (apply Z.pow_pos_nonneg; lia).
  assert (Hq0 : 0 <= q) by (subst q; apply Z.div_pos; lia).
  rewrite (shr_1_nonneg q r s Hq0). unfold shifted. cbn [shr_m shr_r].
  rewrite Z.pow_add_r by lia. change (2 ^ 1) with 2.
  pose proof (Z.div_mod m (2 ^ k) ltac:(lia)) as Dm.
  pose proof (Z.mod_pos_bound m (2 ^ k) Hp) as Bm.
  pose proof (Z.div_mod q 2 ltac:(lia)) as Dq.
  pose proof (Z.mod_pos_bound q 2 ltac:(lia)) as Bq.
  rewrite <- Hq in Dm.
  assert (Hdiv : m / (2 ^ k * 2) = q / 2).
  { rewrite <- Z.div_div by lia. now rewrite <- Hq. }
  assert (Hmod : m mod (2 ^ k * 2) = 2 ^ k * (q mod 2) + m mod 2 ^ k).
  { symmetry. apply (Z.mod_unique m (2 ^ k * 2) (q / 2)); [nia |].
    rewrite Dm at 1. rewrite Dq at 1. ring. }
  split; [symmetry; exact Hdiv|].
  intros Ho. rewrite Hmod, Zmod_odd, Ho. lia.
Qed.

Lemma shifted_iter (m : Z) (p : positive) :
  0 <= m ->
  shifted m (Z.pos p)
          (SpecFloat.iter_pos shr_1 p {| shr_m := m; shr_r := false; shr_s := false |}).
Proof.
  intros Hm. rewrite iter_pos_iter.
  induction p as [|p IH] using Pos.peano_ind.
  - change (Z.pos 1) with (0 + 1).
    change (Pos.iter shr_1 {| shr_m := m; shr_r := false; shr_s := false |} 1)
      with (shr_1 {| shr_m := m; shr_r := false; shr_s := false |}).
    apply shifted_step; [exact Hm | lia |].
    split; cbn [shr_m shr_r]; [now rewrite Z.div_1_r | discriminate].
  - rewrite Pos.iter_succ, Pos2Z.inj_succ. unfold Z.succ.
    apply shifted_step; [exact Hm | lia | exact IH].
Qed.

Lemma shifted_zero (m : Z) :
  shifted m 0 {| shr_m := m; shr_r := false; shr_s := false |}.
Proof. split; cbn [shr_m shr_r]; [now rewrite Z.div_1_r | discriminate]. Qed.

Lemma shr_shifted (m e n : Z) :
  0 <= m ->
  shifted m (Z.max n 0) (fst (shr {| shr_m := m; shr_r := false; shr_s := false |} e n))
  /\ snd (shr {| shr_m := m; shr_r := false; shr_s := false |} e n) = e + Z.max n 0.
Proof.
  intros Hm. destruct n as [|p|p]; cbn [shr fst snd Z.max Z.compare].
  - split; [apply shifted_zero | lia].
  - split; [now apply shifted_iter | reflexivity].
  - split; [apply shifted_zero | lia].
Qed.

Lemma round_nearest_even_shifted (rec : shr_record) :
  let M := round_nearest_even (shr_m rec) (loc_of_shr_record rec) in
  M = shr_m rec \/ (M = shr_m rec + 1 /\ shr_r rec = true).
Proof.
  destruct rec as [q [|] [|]]; cbn [shr_m shr_r loc_of_shr_record round_nearest_even];
    try tauto.
  destruct (Z.even q); tauto.
Qed.

Lemma digits2_bounds (p : positive) :
  2 ^ (Z.pos (digits2_pos p) - 1) <= Z.pos p < 2 ^ Z.pos (digits2_pos p).
Proof.
  induction p as [p IH | p IH |]; cbn [digits2_pos].
  - rewrite Pos2Z.inj_succ, (Pos2Z.inj_xI p).
    replace (Z.succ (Z.pos (digits2_pos p)) - 1) with (Z.succ (Z.pos (digits2_pos p) - 1)) by lia.
    rewrite !Z.pow_succ_r by lia.
    generalize dependent (2 ^ (Z.pos (digits2_pos p) - 1)).
    generalize dependent (2 ^ Z.pos (digits2_pos p)). intros; lia.
  - rewrite Pos2Z.inj_succ, (Pos2Z.inj_xO p).
    replace (Z.succ (Z.pos (digits2_pos p)) - 1) with (Z.succ (Z.pos (digits2_pos p) - 1)) by lia.
    rewrite !Z.pow_succ_r by lia.
    generalize dependent (2 ^ (Z.pos (digits2_pos p) - 1)).
    generalize dependent (2 ^ Z.pos (digits2_pos p)). intros; lia.
  - split; [discriminate | reflexivity].
Qed.

Lemma Zdigits2_upper (m b : Z) : 0 <= m -> 0 <= b -> m < 2 ^ b -> Zdigits2 m <= b.
Proof.
  intros Hm Hb Hlt. destruct m as [|p|p]; [simpl; lia | | lia].
  cbn [Zdigits2]. pose proof (digits2_bounds p) as [Hl _].
  destruct (Z_lt_le_dec b (Z.pos (digits2_pos p))) as [Hc | Hc]; [|exact Hc].
  exfalso. assert (2 ^ b <= 2 ^ (Z.pos (digits2_pos p) - 1))
    by (apply Z.pow_le_mono_r; lia). lia.
Qed.


Lemma of_Z_1 : of_Z 1 = S754_finite false 4503599627370496 (-52).
Proof. vm_compute. reflexivity. Qed.

Lemma is_draw_cases (r : spec_float) :
  is_draw r = true ->
  (exists s, r = S754_zero s)
  \/ (exists m e, r = S754_finite false m e
                  /\ -1074 <= e <= -53 /\ Z.pos (digits2_pos m) <= 53).
Proof.
  unfold is_draw. rewrite of_Z_1. intros H.
  apply andb_true_iff in H as [H Hlt]. apply andb_true_iff in H as [Hv Hle].
  destruct r as [s | s | | s m e].
  - left. now exists s.
  - destruct s; [discriminate Hle | discriminate Hlt].
  - discriminate Hle.
  - right. exists m, e.
    destruct s; [discriminate Hle|]. split; [reflexivity|].
    cbn [valid_binary] in Hv. unfold bounded, canonical_mantissa in Hv.
    apply andb_true_iff in Hv as [Hc _]. apply Z.eqb_eq in Hc.
    unfold fexp, emin, prec, emax in Hc.
    unfold SFltb, SFcompare in Hlt.
    destruct (Z.compare_spec e (-52)) as [He | He | He]; [| | discriminate Hlt].
    + exfalso.
      assert (Hm : Z.pos m < 2 ^ 52).
      { replace (2 ^ 52) with 4503599627370496 by (vm_compute; reflexivity).
        apply Pos2Z.pos_lt_pos. apply Pos.compare_lt_iff.
        destruct (Pos.compare_cont Eq m 4503599627370496) eqn:E;
          [discriminate Hlt | exact E | discriminate Hlt]. }
      assert (Hd : Zdigits2 (Z.pos m) <= 52)
        by (apply Zdigits2_upper; [lia | lia | exact Hm]).
      cbn [Zdigits2] in Hd. clear Hm. lia.
    + lia.
Qed.

(** The result of rounding an exact positive product to binary64, with the
    two shifts of [binary_round_aux] written as quotients. *)
Lemma binary_round_aux_exact (mx : positive) (ex : Z) :
  let P := Z.pos mx in
  let n := Z.max (fexp prec emax (Zdigits2 P + ex) - ex) 0 in
  exists M,
    (M = P / 2 ^ n \/ (M = P / 2 ^ n + 1 /\ 2 ^ n <= 2 * (P mod 2 ^ n)))
    /\ let e1 := ex + n in
       let n2 := Z.max (fexp prec emax (Zdigits2 M + e1) - e1) 0 in
       binary_round_aux prec emax false P ex loc_Exact
       = match M / 2 ^ n2 with
         | 0 => S754_zero false
         | Z.pos q => if e1 + n2 <=? emax - prec
                      then S754_finite false q (e1 + n2)
                      else S754_infinity false
         | Z.neg _ => S754_nan
         end.
Proof.
  intros P n. unfold binary_round_aux, shr_fexp. cbn [shr_record_of_loc].
  pose proof (shr_shifted P ex (fexp prec emax (Zdigits2 P + ex) - ex)
                ltac:(subst P; lia)) as [S1 E1].
  fold n in S1, E1.
  destruct (shr {| shr_m := P; shr_r := false; shr_s := false |} ex
              (fexp prec emax (Zdigits2 P + ex) - ex)) as [rec1 e1].
  cbn [fst snd] in S1, E1. subst e1.
  set (M := round_nearest_even (shr_m rec1) (loc_of_shr_record rec1)).
  destruct S1 as [Q1 R1].
  assert (HM : M = P / 2 ^ n \/ (M = P / 2 ^ n + 1 /\ 2 ^ n <= 2 * (P mod 2 ^ n))).
  { destruct (round_nearest_even_shifted rec1) as [H | [H Hr]]; fold M in H.
    - left. congruence.
    - right. split; [congruence | auto]. }
  assert (HM0 : 0 <= M).
  { assert (0 <= P / 2 ^ n).
    { apply Z.div_pos; [subst P; lia | apply Z.pow_pos_nonneg; lia]. }
    destruct HM as [-> | [-> _]]; lia. }
  exists M. split; [exact HM|]. cbv zeta.
  pose proof (shr_shifted M (ex + n) (fexp prec emax (Zdigits2 M + (ex + n)) - (ex + n))
                HM0) as [[Q2 _] E2].
  destruct (shr {| shr_m := M; shr_r := false; shr_s := false |} (ex + n)
              (fexp prec emax (Zdigits2 M + (ex + n)) - (ex + n))) as [rec2 e2].
  cbn [fst snd] in Q2, E2. subst e2. rewrite Q2. reflexivity.
Qed.

Lemma pow2_pos (k : Z) : 0 <= k -> 0 < 2 ^ k.
Proof. intros. apply Z.pow_pos_nonneg; lia. Qed.

(** The product of a draw and a constant [c] between 32 and 64, rounded
    to binary64, is zero or a positive float below [c]. *)
Lemma mul_draw_below (m Mc : positive) (e c : Z) :
  -1074 <= e <= -53 -> Z.pos (digits2_pos m) <= 53 ->
  2 ^ 52 < Z.pos Mc -> Z.pos Mc = c * 2 ^ 47 -> c < 64 ->
  mul (S754_finite false m e) (S754_finite false Mc (-47)) = S754_zero false
  \/ exists q ef,
       mul (S754_finite false m e) (S754_finite false Mc (-47)) = S754_finite false q ef
       /\ ef <= -47 /\ Z.pos q < c * 2 ^ (- ef).
Proof.
  intros He Hd HMc Hc Hc64.
  unfold mul, SFmul. cbn [xorb].
  destruct (binary_round_aux_exact (m * Mc) (e + -47)) as (M & HM & Hres).
  cbv zeta in Hres. rewrite Hres. clear Hres.
  set (P := Z.pos (m * Mc)) in *.
  assert (HP : P = Z.pos m * Z.pos Mc) by (subst P; apply Pos2Z.inj_mul).
  (* sizes of the mantissas *)
  assert (Hm53 : Z.pos m < 2 ^ 53).
  { pose proof (digits2_bounds m) as [_ Hu].
    apply Z.lt_le_trans with (1 := Hu). apply Z.pow_le_mono_r; lia. }
  assert (HMc53 : Z.pos Mc < 2 ^ 53).
  { rewrite Hc. replace 53 with (6 + 47) by lia. rewrite Z.pow_add_r by lia.
    change (2 ^ 6) with 64. pose proof (pow2_pos 47 ltac:(lia)). nia. }
  assert (HdP : Zdigits2 P <= 106).
  { apply Zdigits2_upper; [subst P; lia | lia |].
    replace 106 with (53 + 53) by lia. rewrite Z.pow_add_r by lia.
    rewrite HP. pose proof (pow2_pos 53 ltac:(lia)). nia. }
  assert (HdP0 : 0 <= Zdigits2 P) by (subst P; cbn [Zdigits2]; apply Pos2Z.is_nonneg).
  (* the first shift *)
  set (n := Z.max (fexp prec emax (Zdigits2 P + (e + -47)) - (e + -47)) 0) in *.
  assert (Hn : 0 <= n <= 53).
  { subst n. unfold fexp, emin, prec, emax. lia. }
  set (K := - e - n).
  assert (HK : 0 <= K) by (subst K; lia).
  assert (HA : 0 < 2 ^ n) by (apply pow2_pos; lia).
  assert (HB : 0 < 2 ^ K) by (apply pow2_pos; lia).
  assert (HA53 : 2 ^ n <= 2 ^ 53) by (apply Z.pow_le_mono_r; lia).
  assert (HAB : 2 ^ 53 <= 2 ^ n * 2 ^ K).
  { rewrite <- Z.pow_add_r by lia. apply Z.pow_le_mono_r; subst K; lia. }
  pose proof (Z.div_mod P (2 ^ n) ltac:(lia)) as HPdiv.
  pose proof (Z.mod_pos_bound P (2 ^ n) HA) as HPmod.
  assert (H5253 : 2 ^ 53 = 2 * 2 ^ 52).
  { replace 53 with (1 + 52) by lia. now rewrite Z.pow_add_r by lia. }
  assert (HMlt : 0 <= M < Z.pos Mc * 2 ^ K).
  { assert (Hq : 0 <= P / 2 ^ n) by (apply Z.div_pos; [subst P; lia | lia]).
    assert (HN : P + Z.pos Mc <= 2 ^ n * (Z.pos Mc * 2 ^ K)).
    { rewrite HP.
      replace (2 ^ n * (Z.pos Mc * 2 ^ K)) with ((2 ^ n * 2 ^ K) * Z.pos Mc) by ring.
      replace (Z.pos m * Z.pos Mc + Z.pos Mc) with ((Z.pos m + 1) * Z.pos Mc) by ring.
      apply Z.mul_le_mono_nonneg_r; lia. }
    set (N := Z.pos Mc * 2 ^ K) in *.
    set (q := P / 2 ^ n) in *. set (r := P mod 2 ^ n) in *.
    set (a := 2 ^ n) in *.
    assert (Hqa : a * q + r + Z.pos Mc <= a * N) by lia.
    assert (HqN : q < N).
    { destruct (Z_lt_le_dec q N) as [Hlt | Hge]; [exact Hlt|].
      assert (a * N <= a * q) by (apply Z.mul_le_mono_nonneg_l; lia). lia. }
    destruct HM as [-> | [-> Hr]]; [lia|].
    split; [lia|].
    destruct (Z_lt_le_dec (q + 1) N) as [Hlt | Hge]; [exact Hlt|].
    exfalso. assert (Hq1 : q = N - 1) by lia.
    assert (Hexp : a * q = a * N - a) by (rewrite Hq1; ring). lia. }
  (* the second shift *)
  set (e1 := e + -47 + n) in *.
  assert (He1 : e1 = - K - 47) by (subst e1 K; lia).
  assert (Hd2 : Zdigits2 M <= 53 + K).
  { apply Zdigits2_upper; [lia | lia |]. rewrite Z.pow_add_r by lia.
    generalize dependent (2 ^ K). generalize dependent (2 ^ 53). clear. intros. nia. }
  assert (Hd20 : 0 <= Zdigits2 M).
  { destruct M; cbn [Zdigits2]; lia. }
  set (n2 := Z.max (fexp prec emax (Zdigits2 M + e1) - e1) 0) in *.
  assert (Hn2 : 0 <= n2 <= K).
  { subst n2. unfold fexp, emin, prec, emax. lia. }
  assert (HA2 : 0 < 2 ^ n2) by (apply pow2_pos; lia).
  assert (Hq0 : 0 <= M / 2 ^ n2) by (apply Z.div_pos; lia).
  assert (Hqlt : M / 2 ^ n2 < Z.pos Mc * 2 ^ (K - n2)).
  { apply Z.div_lt_upper_bound; [exact HA2|].
    replace (2 ^ n2 * (Z.pos Mc * 2 ^ (K - n2)))
      with (Z.pos Mc * (2 ^ n2 * 2 ^ (K - n2))) by ring.
    rewrite <- Z.pow_add_r by lia. replace (n2 + (K - n2)) with K by lia. lia. }
  destruct (M / 2 ^ n2) as [|q|q] eqn:Eq; [left; reflexivity | | lia].
  right. exists q, (e1 + n2).
  assert (Hle : (e1 + n2 <=? emax - prec) = true).
  { apply Z.leb_le. unfold emax, prec. lia. }
  rewrite Hle. split; [reflexivity|]. split; [lia|].
  replace (- (e1 + n2)) with (47 + (K - n2)) by lia.
  rewrite Z.pow_add_r by lia. rewrite Z.mul_assoc, <- Hc. exact Hqlt.
Qed.

Lemma floor_finite_nonpos (q : positive) (ef : Z) :
  ef <= 0 -> floor (S754_finite false q ef) = Z.pos q / 2 ^ (- ef).
Proof.
  intros He. unfold floor. cbn [cond_Zopp].
  rewrite <- Z.shiftr_opp_r. apply Z.shiftr_div_pow2. lia.
Qed.

(** [Math.floor(Math.random() * c)] for a constant [c] between 32 and 64:
    the product is zero or finite, and its floor is one of 0, ..., c - 1. *)
Lemma floor_mul_draw (r : spec_float) (c : Z) (Mc : positive) :
  is_draw r = true ->
  of_Z c = S754_finite false Mc (-47) ->
  2 ^ 52 < Z.pos Mc -> Z.pos Mc = c * 2 ^ 47 -> c < 64 ->
  0 <= floor (mul r (of_Z c)) < c.
Proof.
  intros Hr Hof HMc Hc Hc64. rewrite Hof.
  assert (Hc0 : 0 < c).
  { pose proof (pow2_pos 47 ltac:(lia)). pose proof (Pos2Z.is_pos Mc). nia. }
  destruct (is_draw_cases r Hr) as [[s ->] | (m & e & -> & He & Hd)].
  - cbn. lia.
  - destruct (mul_draw_below m Mc e c He Hd HMc Hc Hc64) as [-> | (q & ef & -> & Hef & Hq)].
    + cbn. lia.
    + rewrite floor_finite_nonpos by lia.
      pose proof (pow2_pos (- ef) ltac:(lia)) as Hp. split.
      * apply Z.div_pos; lia.
      * apply Z.div_lt_upper_bound; [exact Hp | lia].
Qed.

Lemma floor_mul_draw_60 (r : spec_float) :
  is_draw r = true -> 0 <= floor (mul r (of_Z 60)) < 60.
Proof.
  intros Hr. apply (floor_mul_draw r 60 8444249301319680 Hr);
    [vm_compute; reflexivity | vm_compute; reflexivity | vm_compute; reflexivity | lia].
Qed.

Lemma floor_mul_draw_50 (r : spec_float) :
  is_draw r = true -> 0 <= floor (mul r (of_Z 50)) < 50.
Proof.
  intros Hr. apply (floor_mul_draw r 50 7036874417766400 Hr);
    [vm_compute; reflexivity | vm_compute; reflexivity | vm_compute; reflexivity | lia].
Qed.

Lemma floor_mul_draw_40 (r : spec_float) :
  is_draw r = true -> 0 <= floor (mul r (of_Z 40)) < 40.
Proof.
  intros Hr. apply (floor_mul_draw r 40 5629499534213120 Hr);
    [vm_compute; reflexivity | vm_compute; reflexivity | vm_compute; reflexivity | lia].
Qed.

End Binary64Facts.

(** ** The API-to-domain mapper *)

Lemma convert_running env apiVM w :
  toLowerCase (ApiVM.status apiVM) = "running" ->
  exists vm,
    convertApiVMToAppFormat env apiVM w = (Normal vm, advance w 1 4)
    /\ status vm = "Running"
    /\ uptime vm =
       (let uptimeMs := Js.sub (Int (clock env (ticks w))) (ApiVM.updated_at apiVM) in
        show (Js.floor_div uptimeMs hour_ms) +:+ "h "
        +:+ show (Js.floor_div (Js.rem uptimeMs hour_ms) minute_ms) +:+ "m")
    /\ resources vm =
       {| cpu := Binary64.floor
                   (Binary64.mul (random env (draws w)) (Binary64.of_Z 60)) + 20;
          memory := Binary64.floor
                      (Binary64.mul (random env (1 + draws w)) (Binary64.of_Z 50)) + 30;
          disk := Binary64.floor
                    (Binary64.mul (random env (2 + draws w)) (Binary64.of_Z 40)) + 10;
          network := Binary64.floor
                       (Binary64.mul (random env (3 + draws w)) (Binary64.of_Z 40)) + 5 |}.
Proof.
  intros H. unfold convertApiVMToAppFormat, normalizeVMStatus. rewrite H.
  cbn [String.eqb Ascii.eqb Bool.eqb].
  eexists. split; [reflexivity|]. repeat split.
Qed.

Lemma convert_idle env apiVM w :
  toLowerCase (ApiVM.status apiVM) <> "running" ->
  exists vm,
    convertApiVMToAppFormat env apiVM w = (Normal vm, advance w 1 1)
    /\ status vm = normalizeVMStatus (ApiVM.status apiVM)
    /\ uptime vm = "0h 0m"
    /\ resources vm =
       {| cpu := 0; memory := 0;
          disk := Binary64.floor
                    (Binary64.mul (random env (draws w)) (Binary64.of_Z 40)) + 10;
          network := 0 |}.
Proof.
  intros H. apply String.eqb_neq in H.
  unfold convertApiVMToAppFormat. rewrite H.
  eexists. split; [reflexivity|]. repeat split.
Qed.

Lemma floor_div_Int (x d : Z) : Js.floor_div (Int x) d = Int (x / d).
Proof. unfold Js.floor_div. now rewrite <- Zdiv_Qdiv. Qed.

(** Hours and minutes of a delay that lies in the past. *)
Lemma hours_minutes_of_delta (h m ms : Z) :
  0 <= h -> 0 <= m < 60 -> 0 <= ms < minute_ms ->
  let delta := h * hour_ms + m * minute_ms + ms in
  Js.floor_div (Int delta) hour_ms = Int h
  /\ Js.floor_div (Js.rem (Int delta) hour_ms) minute_ms = Int m.
Proof.
  unfold hour_ms, minute_ms. intros Hh Hm Hms.
  set (delta := h * 3600000 + m * 60000 + ms).
  assert (Hq : delta / 3600000 = h).
  { symmetry. apply (Z.div_unique delta 3600000 h (m * 60000 + ms)); subst delta; lia. }
  assert (Hr : delta mod 3600000 = m * 60000 + ms).
  { symmetry. apply (Z.mod_unique delta 3600000 h (m * 60000 + ms)); subst delta; lia. }
  split.
  - rewrite floor_div_Int. now rewrite Hq.
  - unfold Js.rem. rewrite floor_div_Int.
    rewrite Z.rem_mod_nonneg by (subst delta; lia). rewrite Hr.
    f_equal. symmetry. apply (Z.div_unique (m * 60000 + ms) 60000 m ms); lia.
Qed.




(** The draws of the sample generator are draws. *)
Lemma sample_env_draws (n : nat) : Binary64.is_draw (random sample_env n) = true.
Proof.
  unfold sample_env, random.
  pose proof (Nat.mod_upper_bound n 7 ltac:(lia)) as Hb.
  destruct (n mod 7)%nat as [|[|[|[|[|[|[|k]]]]]]];
    [vm_compute; reflexivity .. | lia].
Qed.

(** C8.  Let every draw of the generator be a binary64 number from 0
    (included) to 1 (excluded), as [Math.random] promises.  The mapper
    always returns, and in the resources it produces: when the status of
    the record equals running up to case, cpu lies from 20 to 79, memory
    from 30 to 79 and network from 5 to 44; otherwise cpu, memory and
    network are 0; and in both cases disk lies from 10 to 49. *)
Theorem convertApiVMToAppFormat_resources env apiVM w :
  (forall n, Binary64.is_draw (random env n) = true) ->
  exists vm w',
    convertApiVMToAppFormat env apiVM w = (Normal vm, w')
    /\ (eq_ignore_case (ApiVM.status apiVM) "running" ->
        20 <= cpu (resources vm) < 80
        /\ 30 <= memory (resources vm) < 80
        /\ 5 <= network (resources vm) < 45)
    /\ (~ eq_ignore_case (ApiVM.status apiVM) "running" ->
        cpu (resources vm) = 0 /\ memory (resources vm) = 0
        /\ network (resources vm) = 0)
    /\ 10 <= disk (resources vm) < 50.
Proof.
  intros Hr.
  destruct (String.eqb_spec (toLowerCase (ApiVM.status apiVM)) "running") as [E | E].
  - destruct (convert_running env apiVM w E) as (vm & Hrun & _ & _ & R).
    exists vm, (advance w 1 4). split; [exact Hrun|]. rewrite R. cbn [cpu memory disk network].
    pose proof (floor_mul_draw_60 _ (Hr (draws w))).
    pose proof (floor_mul_draw_50 _ (Hr (1 + draws w)%nat)).
    pose proof (floor_mul_draw_40 _ (Hr (2 + draws w)%nat)).
    pose proof (floor_mul_draw_40 _ (Hr (3 + draws w)%nat)).
    split; [intros _; lia|]. split; [|lia].
    intros Hn. exfalso. apply Hn. now apply eq_ignore_case_label.
  - destruct (convert_idle env apiVM w E) as (vm & Hrun & _ & _ & R).
    exists vm, (advance w 1 1). split; [exact Hrun|]. rewrite R. cbn [cpu memory disk network].
    pose proof (floor_mul_draw_40 _ (Hr (draws w))).
    split; [|split; [intros _; lia | lia]].
    intros Hc. exfalso. apply E. now apply eq_ignore_case_label in Hc.
Qed.

Lemma convertApiVMToAppFormat_resources_witness :
  (forall n, Binary64.is_draw (random sample_env n) = true)
  /\ (exists vm w',
        convertApiVMToAppFormat sample_env (sample_record "Paused" 1749999000000)
          initial_world = (Normal vm, w')
        /\ cpu (resources vm) = 0 /\ memory (resources vm) = 0
        /\ network (resources vm) = 0 /\ 10 <= disk (resources vm) < 50).
Proof.
  split; [exact sample_env_draws|].
  destruct (convertApiVMToAppFormat_resources sample_env
              (sample_record "Paused" 1749999000000) initial_world sample_env_draws)
    as (vm & w' & E & _ & Z0 & D).
  exists vm, w'. split; [exact E|].
  assert (Hn : ~ eq_ignore_case (ApiVM.status (sample_record "Paused" 1749999000000)) "running").
  { intros Hc. apply toLowerCase_eq_ignore_case in Hc. discriminate Hc. }
  destruct (Z0 Hn) as (A & B & C). auto.
Defined.

(** ** The VM loader *)

Lemma truthy_Some (e : string) : e <> "" -> truthy (Some e) = true.
Proof. intros H. unfold truthy. apply String.eqb_neq in H. now rewrite H. Qed.

(** The loader takes the all-VMs branch when no employee is given or
    when the employee is the empty string. *)
Lemma truthy_false_cases (o : option string) :
  truthy o = false <-> o = None \/ o = Some "".
Proof.
  unfold truthy. destruct o as [s|]; [|tauto].
  destruct (String.eqb_spec s ""); subst; simpl; split; intros H;
    try tauto; try discriminate.
  destruct H as [H | H]; [discriminate | congruence].
Qed.

(** The single-user branch, when the status request succeeds. *)
Lemma loadUserVMs_single env e sr w :
  e <> "" ->
  getVMStatus (vmService env) e = Fulfilled sr ->
  loadUserVMs env (Some e) w = (Normal mockVMs, overlaid w e sr).
Proof.
  intros He Hs. unfold loadUserVMs, try_catch, bind.
  rewrite (truthy_Some e He). change (default "" (Some e)) with e. rewrite Hs, await_fulfilled.
  reflexivity.
Qed.

(** The single-user branch, when the status request fails. *)
Lemma loadUserVMs_single_rejected env e err w :
  e <> "" ->
  getVMStatus (vmService env) e = Rejected err ->
  loadUserVMs env (Some e) w =
  (Normal mockVMs,
   record w [Remote (GetVMStatus e);
             ConsoleError "Error loading VMs:" (ErrorPayload err);
             ToastError "Error Loading VMs"
               (Some (or_else (err_response_message err)
                        "Failed to load virtual machines."))]).
Proof.
  intros He Hs. unfold loadUserVMs, try_catch, bind.
  rewrite (truthy_Some e He). change (default "" (Some e)) with e. rewrite Hs, await_rejected.
  unfold console_error, toast_error, ret.
  rewrite !emit_record, !record_record. reflexivity.
Qed.

(** The all-VMs branch, when the response is no [{vms: Array}]. *)
Lemma loadUserVMs_all_fallback env employeeId w :
  truthy employeeId = false ->
  ~ has_vms_array (getAllVMs (vmService env)) ->
  exists evs,
    loadUserVMs env employeeId w = (Normal mockVMs, record w (Remote GetAllVMs :: evs))
    /\ remote_calls evs = []
    /\ exists title, In (ToastError title None) evs.
Proof.
  intros Ht Hn. unfold loadUserVMs, try_catch, bind. rewrite Ht.
  destruct (getAllVMs (vmService env)) as [[|[| |vms]]|err] eqn:Hg;
    rewrite ?await_fulfilled, ?await_rejected;
    unfold console_error, toast_error, ret;
    rewrite ?emit_record, ?record_record.
  - eexists. split; [reflexivity|]. split; [reflexivity|]. eexists; simpl; eauto.
  - eexists. split; [reflexivity|]. split; [reflexivity|]. eexists; simpl; eauto.
  - eexists. split; [reflexivity|]. split; [reflexivity|]. eexists; simpl; eauto.
  - exfalso. apply Hn. now exists vms.
  - eexists. split; [reflexivity|]. split; [reflexivity|]. eexists; simpl; eauto.
Qed.

(** Mapping an array of raw records allocates one fresh object per
    record, in order, and touches neither the trace nor the objects that
    exist already. *)
Lemma array_map_convert env vms : forall w,
  exists objs w',
    array_map (fun vm => o <- convertApiVMToAppFormat env vm ;; alloc o) vms w
    = (Normal (seq (length (heap w)) (length vms)), w')
    /\ heap w' = (heap w ++ objs)%list
    /\ trace w' = trace w
    /\ Forall2 (mapped env) vms objs.
Proof.
  induction vms as [|vm vms IH]; intros w.
  - exists [], w. simpl. rewrite app_nil_r. repeat split. constructor.
  - assert (Hc : exists o t d, convertApiVMToAppFormat env vm w = (Normal o, advance w t d)).
    { destruct (String.eqb_spec (toLowerCase (ApiVM.status vm)) "running") as [E | E].
      - destruct (convert_running env vm w E) as (o & Ho & _). eauto.
      - destruct (convert_idle env vm w E) as (o & Ho & _). eauto. }
    destruct Hc as (o & t & d & Ho).
    set (w1 := {| heap := heap w ++ [o]; trace := trace w;
                  ticks := (t + ticks w)%nat; draws := (d + draws w)%nat |}).
    destruct (IH w1) as (objs & w' & Hm & Hh & Ht & Hf).
    exists (o :: objs), w'.
    cbn [array_map]. unfold bind at 1. unfold bind at 1. rewrite Ho.
    unfold alloc at 1. cbn [heap advance trace ticks draws].
    fold w1. unfold bind at 1. rewrite Hm.
    split; [|split; [|split]].
    + unfold ret. subst w1. cbn [heap]. rewrite length_app. simpl.
      replace (length (heap w) + 1)%nat with (S (length (heap w))) by lia.
      reflexivity.
    + rewrite Hh. subst w1. cbn [heap]. now rewrite <- app_assoc.
    + rewrite Ht. reflexivity.
    + constructor; [|exact Hf]. now exists w, (advance w t d).
Qed.

Lemma deref_fresh (objs : list VirtualMachine) : forall h,
  deref (h ++ objs) (seq (length h) (length objs)) = map Some objs.
Proof.
  unfold deref. induction objs as [|o objs IH]; intros h; [reflexivity|].
  cbn [length seq map]. f_equal.
  - now apply list_lookup_middle.
  - specialize (IH (h ++ [o])%list).
    rewrite <- app_assoc in IH. cbn [app] in IH.
    rewrite length_app in IH. cbn [length] in IH.
    replace (length h + 1)%nat with (S (length h)) in IH by lia. exact IH.
Qed.

(** The all-VMs branch, when the response has the shape [{vms: Array}]. *)
Lemma loadUserVMs_all_mapped env employeeId vms w :
  truthy employeeId = false ->
  getAllVMs (vmService env) = Fulfilled (ResponseObject (VmsArray vms)) ->
  exists refs objs w',
    loadUserVMs env employeeId w = (Normal refs, w')
    /\ heap w' = (heap w ++ objs)%list
    /\ deref (heap w') refs = map Some objs
    /\ Forall2 (mapped env) vms objs.
Proof.
  intros Ht Hg.
  destruct (array_map_convert env vms (record w [Remote GetAllVMs]))
    as (objs & w' & Hm & Hh & _ & Hf).
  unfold loadUserVMs, try_catch. rewrite Ht, Hg.
  unfold bind in Hm |- *. rewrite await_fulfilled, Hm. exists (seq (length (heap w)) (length vms)), objs, w'.
  cbn [record heap] in Hh.
  split; [reflexivity|]. split; [exact Hh|]. split; [|exact Hf].
  rewrite Hh, (Forall2_length _ _ _ Hf). apply deref_fresh.
Qed.

(** C3.  Without an employee (none, or the empty string) the loader asks
    for all VMs.  When the response has the shape [{vms: Array}] it returns
    the list of the objects that the mapper makes of the records, in order.
    For any other response, and when the request fails, it completes
    normally, never by throwing, and returns [mockVMs], whose entries it
    leaves as they are: from the initial state these are the two literal
    mock entries. *)
Theorem loadUserVMs_all_vms env employeeId w :
  truthy employeeId = false ->
  (forall vms,
     getAllVMs (vmService env) = Fulfilled (ResponseObject (VmsArray vms)) ->
     exists refs objs w',
       loadUserVMs env employeeId w = (Normal refs, w')
       /\ heap w' = (heap w ++ objs)%list
       /\ deref (heap w') refs = map Some objs
       /\ Forall2 (mapped env) vms objs)
  /\ ((~ has_vms_array (getAllVMs (vmService env))
       \/ exists err, getAllVMs (vmService env) = Rejected err) ->
      exists w',
        loadUserVMs env employeeId w = (Normal mockVMs, w')
        /\ heap w' = heap w
        /\ (heap w = initial_heap ->
            deref (heap w') mockVMs = [Some mock_vm_001; Some mock_vm_002])).
Proof.
  intros Ht. split.
  - intros vms Hg. now apply loadUserVMs_all_mapped.
  - intros Hn.
    assert (Hn' : ~ has_vms_array (getAllVMs (vmService env))).
    { destruct Hn as [Hn | [err Hn]]; [exact Hn|].
      intros [vms Hv]. congruence. }
    destruct (loadUserVMs_all_fallback env employeeId w Ht Hn') as (evs & E & _).
    eexists. split; [exact E|]. split; [reflexivity|].
    cbn [record heap]. intros ->. reflexivity.
Qed.

Lemma loadUserVMs_all_vms_witness :
  truthy None = false
  /\ ~ has_vms_array (getAllVMs (vmService sample_env))
  /\ exists w',
       loadUserVMs sample_env None initial_world = (Normal mockVMs, w')
       /\ deref (heap w') mockVMs = [Some mock_vm_001; Some mock_vm_002].
Proof.
  assert (Hn : ~ has_vms_array (getAllVMs (vmService sample_env))).
  { intros [vms Hv]. discriminate Hv. }
  split; [reflexivity|]. split; [exact Hn|].
  destruct (loadUserVMs_all_vms sample_env None initial_world eq_refl) as [_ F].
  destruct (F (or_introl Hn)) as (w' & E & _ & D).
  exists w'. split; [exact E | exact (D eq_refl)].
Defined.

(** What the callback of the single-user branch does to an entry whose
    operating system selects the status [s] of the response. *)
Lemma overlay_status_selected sr vm s :
  (toLowerCase (os vm) = "windows" /\ s = windows sr)
  \/ (toLowerCase (os vm) = "linux" /\ s = linux sr) ->
  let vm' := overlay_status sr vm in
  status vm' = s
  /\ disk (resources vm') = disk (resources vm)
  /\ (s = "Stopped" ->
      cpu (resources vm') = 0 /\ memory (resources vm') = 0
      /\ network (resources vm') = 0 /\ uptime vm' = "0h 0m")
  /\ (s <> "Stopped" -> resources vm' = resources vm /\ uptime vm' = uptime vm)
  /\ os vm' = os vm /\ id vm' = id vm /\ name vm' = name vm.
Proof.
  intros H. unfold overlay_status.
  assert (E : (if (toLowerCase (os vm) =? "windows")%string
               then set_status (windows sr) vm
               else if (toLowerCase (os vm) =? "linux")%string
                    then set_status (linux sr) vm else vm)
              = set_status s vm).
  { destruct H as [[-> ->] | [-> ->]]; reflexivity. }
  rewrite E. cbn [set_status status].
  destruct (String.eqb_spec s "Stopped") as [Hs | Hs]; cbn; repeat split;
    intros; try reflexivity; try contradiction; try discriminate; congruence.
Qed.

Lemma overlaid_deref w e sr v0 v1 :
  heap w !! 0%nat = Some v0 -> heap w !! 1%nat = Some v1 ->
  deref (heap (overlaid w e sr)) mockVMs
  = [Some (overlay_status sr v0); Some (overlay_status sr v1)].
Proof.
  intros H0 H1. unfold deref, mockVMs, overlaid. cbn [heap map].
  rewrite list_lookup_alter_ne by lia. rewrite list_lookup_alter_eq, H0.
  rewrite list_lookup_alter_eq, list_lookup_alter_ne by lia. rewrite H1.
  reflexivity.
Qed.

Lemma overlaid_length w e sr : length (heap (overlaid w e sr)) = length (heap w).
Proof. unfold overlaid. cbn [heap]. now rewrite !length_alter. Qed.

(** C2, as the code has it.  With an employee, and when the status
    request succeeds, the loader calls [getVMStatus] once and nothing
    else, and returns the two mock entries: the Windows entry with the
    status of the key [windows], the Linux entry with the status of the
    key [linux].  An entry whose status is then Stopped has cpu, memory and
    network set to 0 and its uptime set to "0h 0m", while its disk figure
    is kept.  From the initial state and the response Windows Stopped,
    Linux Running, the Windows entry comes back stopped with resources
    0, 0, 30 (disk), 0 and uptime "0h 0m", and the Linux entry with status
    Running. *)
Theorem loadUserVMs_single_user env e sr w v0 v1 :
  e <> "" ->
  getVMStatus (vmService env) e = Fulfilled sr ->
  heap w !! 0%nat = Some v0 -> heap w !! 1%nat = Some v1 ->
  os v0 = "Windows" -> os v1 = "Linux" ->
  exists w' r0 r1,
    loadUserVMs env (Some e) w = (Normal mockVMs, w')
    /\ remote_calls (trace w') = (remote_calls (trace w) ++ [GetVMStatus e])%list
    /\ deref (heap w') mockVMs = [Some r0; Some r1]
    /\ status r0 = windows sr /\ status r1 = linux sr
    /\ (forall r v, (r, v) = (r0, v0) \/ (r, v) = (r1, v1) ->
        status r = "Stopped" ->
        cpu (resources r) = 0 /\ memory (resources r) = 0
        /\ network (resources r) = 0 /\ uptime r = "0h 0m"
        /\ disk (resources r) = disk (resources v))
    /\ (heap w = initial_heap -> windows sr = "Stopped" -> linux sr = "Running" ->
        r0 = mock_vm_001_stopped /\ r1 = mock_vm_002_running).
Proof.
  intros He Hs H0 H1 O0 O1.
  exists (overlaid w e sr), (overlay_status sr v0), (overlay_status sr v1).
  assert (S0 : toLowerCase (os v0) = "windows" /\ windows sr = windows sr)
    by (rewrite O0; split; reflexivity).
  assert (S1 : toLowerCase (os v1) = "linux" /\ linux sr = linux sr)
    by (rewrite O1; split; reflexivity).
  destruct (overlay_status_selected sr v0 _ (or_introl S0)) as (A0 & D0 & Z0 & _).
  destruct (overlay_status_selected sr v1 _ (or_intror S1)) as (A1 & D1 & Z1 & _).
  split; [now apply loadUserVMs_single|].
  split; [unfold overlaid; cbn [trace]; now rewrite remote_calls_app|].
  split; [now apply overlaid_deref|].
  split; [exact A0|]. split; [exact A1|]. split.
  - intros r v [E | E] Hst; injection E as -> ->.
    + rewrite A0 in Hst. destruct (Z0 Hst) as (? & ? & ? & ?). auto.
    + rewrite A1 in Hst. destruct (Z1 Hst) as (? & ? & ? & ?). auto.
  - intros Hh Hw Hl. rewrite Hh in H0, H1.
    injection H0 as <-. injection H1 as <-.
    destruct sr as [sw sl]. cbn [windows linux] in Hw, Hl. subst sw sl.
    split; reflexivity.
Qed.

Lemma loadUserVMs_single_user_witness :
  "emp-001" <> ""
  /\ getVMStatus (vmService sample_env) "emp-001"
     = Fulfilled {| windows := "Stopped"; linux := "Running" |}
  /\ os mock_vm_001 = "Windows" /\ os mock_vm_002 = "Linux"
  /\ exists w',
       loadUserVMs sample_env (Some "emp-001") initial_world = (Normal mockVMs, w')
       /\ remote_calls (trace w') = [GetVMStatus "emp-001"]
       /\ deref (heap w') mockVMs = [Some mock_vm_001_stopped; Some mock_vm_002_running].
Proof.
  assert (He : "emp-001" <> "") by discriminate.
  split; [exact He|]. split; [reflexivity|]. split; [reflexivity|]. split; [reflexivity|].
  destruct (loadUserVMs_single_user sample_env "emp-001"
              {| windows := "Stopped"; linux := "Running" |}
              initial_world mock_vm_001 mock_vm_002 He eq_refl eq_refl eq_refl
              eq_refl eq_refl)
    as (w' & r0 & r1 & E & C & D & _ & _ & _ & P).
  destruct (P eq_refl eq_refl eq_refl) as [-> ->].
  exists w'. split; [exact E|]. split; [exact C | exact D].
Defined.

(** C2, as the specification words it, fails: with the response Windows
    Stopped, Linux Running, the Windows entry comes back with status
    Stopped and a disk figure of 30, so its resources are not zeroed. *)
Lemma loadUserVMs_stopped_entry_keeps_disk :
  exists w' vm,
    loadUserVMs sample_env (Some "emp-001") initial_world = (Normal mockVMs, w')
    /\ heap w' !! 0%nat = Some vm
    /\ os vm = "Windows" /\ status vm = "Stopped"
    /\ disk (resources vm) = 30
    /\ ~ zeroed (resources vm).
Proof.
  exists (overlaid initial_world "emp-001" {| windows := "Stopped"; linux := "Running" |}),
         mock_vm_001_stopped.
  split; [apply loadUserVMs_single; [discriminate | reflexivity]|].
  repeat split. intros (_ & _ & D & _). discriminate D.
Qed.

(** C9, amended.  A single-user call whose status request succeeds
    returns the array of the two shared mock objects, allocates no object,
    and leaves each of the two objects updated in place by the overlay.
    The update outlives the call: a later call that falls back to
    [mockVMs] (all-VMs mode with a response that is no [{vms: Array}], or
    a failed request) returns the same objects and shows the overlaid
    fields.  A single-user call whose request fails changes no object: it
    returns the entries as the last successful call left them.  From the
    initial state and the response Windows Stopped, Linux Running, what
    the fallback returns differs from the static mock data. *)
Theorem loadUserVMs_mutates_shared_mock env env' e sr w v0 v1 :
  e <> "" ->
  getVMStatus (vmService env) e = Fulfilled sr ->
  heap w !! 0%nat = Some v0 -> heap w !! 1%nat = Some v1 ->
  ~ has_vms_array (getAllVMs (vmService env')) ->
  exists w1 w2,
    loadUserVMs env (Some e) w = (Normal mockVMs, w1)
    /\ length (heap w1) = length (heap w)
    /\ deref (heap w1) mockVMs
       = [Some (overlay_status sr v0); Some (overlay_status sr v1)]
    /\ loadUserVMs env' None w1 = (Normal mockVMs, w2)
    /\ deref (heap w2) mockVMs
       = [Some (overlay_status sr v0); Some (overlay_status sr v1)]
    /\ (forall e' err, e' <> "" -> getVMStatus (vmService env') e' = Rejected err ->
        exists w3,
          loadUserVMs env' (Some e') w1 = (Normal mockVMs, w3)
          /\ heap w3 = heap w1
          /\ deref (heap w3) mockVMs
             = [Some (overlay_status sr v0); Some (overlay_status sr v1)])
    /\ (heap w = initial_heap -> windows sr = "Stopped" -> linux sr = "Running" ->
        deref (heap w2) mockVMs = [Some mock_vm_001_stopped; Some mock_vm_002_running]
        /\ deref (heap w2) mockVMs <> [Some mock_vm_001; Some mock_vm_002]).
Proof.
  intros He Hs H0 H1 Hn.
  destruct (loadUserVMs_all_fallback env' None (overlaid w e sr) eq_refl Hn)
    as (evs & E2 & _).
  exists (overlaid w e sr), (record (overlaid w e sr) (Remote GetAllVMs :: evs)).
  split; [now apply loadUserVMs_single|].
  split; [apply overlaid_length|].
  split; [now apply overlaid_deref|].
  split; [exact E2|].
  cbn [record heap].
  split; [now apply overlaid_deref|].
  split.
  { intros e' err He' Hrej.
    rewrite (loadUserVMs_single_rejected env' e' err (overlaid w e sr) He' Hrej).
    eexists. split; [reflexivity|].
    cbn [record heap]. split; [reflexivity|]. now apply overlaid_deref. }
  intros Hh Hw Hl. rewrite (overlaid_deref w e sr v0 v1 H0 H1).
  rewrite Hh in H0, H1. injection H0 as <-. injection H1 as <-.
  destruct sr as [sw sl]. cbn [windows linux] in Hw, Hl. subst sw sl.
  split; [reflexivity | discriminate].
Qed.

Lemma loadUserVMs_mutates_shared_mock_witness :
  "emp-001" <> ""
  /\ ~ has_vms_array (getAllVMs (vmService lowercase_env))
  /\ exists w1 w2,
       loadUserVMs sample_env (Some "emp-001") initial_world = (Normal mockVMs, w1)
       /\ loadUserVMs lowercase_env None w1 = (Normal mockVMs, w2)
       /\ deref (heap w2) mockVMs = [Some mock_vm_001_stopped; Some mock_vm_002_running]
       /\ deref (heap w2) mockVMs <> [Some mock_vm_001; Some mock_vm_002].
Proof.
  assert (He : "emp-001" <> "") by discriminate.
  assert (Hn : ~ has_vms_array (getAllVMs (vmService lowercase_env))).
  { intros [vms Hv]. discriminate Hv. }
  split; [exact He|]. split; [exact Hn|].
  destruct (loadUserVMs_mutates_shared_mock sample_env lowercase_env "emp-001"
              {| windows := "Stopped"; linux := "Running" |}
              initial_world mock_vm_001 mock_vm_002 He eq_refl eq_refl eq_refl Hn)
    as (w1 & w2 & E1 & _ & _ & E2 & _ & _ & P).
  destruct (P eq_refl eq_refl eq_refl) as [D N].
  exists w1, w2. auto.
Defined.

(** C9, as the specification words it, fails on a single-user call whose
    status request is rejected: the call returns the two mock entries and
    has changed no object, so the entries still hold the static data. *)
Lemma loadUserVMs_rejected_request_mutates_nothing :
  truthy (Some "emp-001") = true
  /\ exists w',
       loadUserVMs rejecting_env (Some "emp-001") initial_world = (Normal mockVMs, w')
       /\ heap w' = heap initial_world
       /\ deref (heap w') mockVMs = [Some mock_vm_001; Some mock_vm_002].
Proof.
  split; [reflexivity|].
  rewrite (loadUserVMs_single_rejected rejecting_env "emp-001"
             {| err_message := "Network Error"; err_response_message := None |}
             initial_world ltac:(discriminate) eq_refl).
  eexists. split; [reflexivity|]. split; reflexivity.
Qed.

(** C10.  With an employee, and when the status request succeeds, the
    status of each returned entry is the string of the response, character
    for character, whatever that string is: no normalization is applied, so
    a string outside the six values of [VMStatus] comes back as it is.  The
    resources and the uptime of an entry are left alone unless that string
    is exactly "Stopped": with "stopped", which the normalizer would map to
    Stopped, the entry keeps its resources and its uptime, and its status
    is none of the six values. *)
Theorem loadUserVMs_status_verbatim env e sr w v0 v1 :
  e <> "" ->
  getVMStatus (vmService env) e = Fulfilled sr ->
  heap w !! 0%nat = Some v0 -> heap w !! 1%nat = Some v1 ->
  os v0 = "Windows" -> os v1 = "Linux" ->
  exists w' r0 r1,
    loadUserVMs env (Some e) w = (Normal mockVMs, w')
    /\ deref (heap w') mockVMs = [Some r0; Some r1]
    /\ status r0 = windows sr /\ status r1 = linux sr
    /\ (windows sr <> "Stopped" -> resources r0 = resources v0 /\ uptime r0 = uptime v0)
    /\ (linux sr <> "Stopped" -> resources r1 = resources v1 /\ uptime r1 = uptime v1)
    /\ (~ In (windows sr) VMStatus_values -> ~ In (status r0) VMStatus_values)
    /\ (~ In (linux sr) VMStatus_values -> ~ In (status r1) VMStatus_values)
    /\ (windows sr = "stopped" ->
        status r0 = "stopped" /\ normalizeVMStatus (windows sr) = "Stopped"
        /\ ~ In (status r0) VMStatus_values
        /\ resources r0 = resources v0 /\ uptime r0 = uptime v0).
Proof.
  intros He Hs H0 H1 O0 O1.
  exists (overlaid w e sr), (overlay_status sr v0), (overlay_status sr v1).
  assert (S0 : toLowerCase (os v0) = "windows" /\ windows sr = windows sr)
    by (rewrite O0; split; reflexivity).
  assert (S1 : toLowerCase (os v1) = "linux" /\ linux sr = linux sr)
    by (rewrite O1; split; reflexivity).
  destruct (overlay_status_selected sr v0 _ (or_introl S0)) as (A0 & _ & _ & K0 & _).
  destruct (overlay_status_selected sr v1 _ (or_intror S1)) as (A1 & _ & _ & K1 & _).
  split; [now apply loadUserVMs_single|].
  split; [now apply overlaid_deref|].
  split; [exact A0|]. split; [exact A1|].
  split; [exact K0|]. split; [exact K1|].
  split; [now rewrite A0|]. split; [now rewrite A1|].
  intros Hw. rewrite A0, Hw.
  assert (Hne : windows sr <> "Stopped") by (rewrite Hw; discriminate).
  destruct (K0 Hne) as [R U].
  split; [reflexivity|]. split; [reflexivity|]. split; [|split; assumption].
  unfold VMStatus_values. simpl. intros H.
  repeat (destruct H as [H | H]; [discriminate H|]). exact H.
Qed.

Lemma loadUserVMs_status_verbatim_witness :
  "emp-001" <> ""
  /\ getVMStatus (vmService lowercase_env) "emp-001"
     = Fulfilled {| windows := "stopped"; linux := "rebooting" |}
  /\ exists w' r0 r1,
       loadUserVMs lowercase_env (Some "emp-001") initial_world = (Normal mockVMs, w')
       /\ deref (heap w') mockVMs = [Some r0; Some r1]
       /\ status r0 = "stopped" /\ status r1 = "rebooting"
       /\ ~ In (status r0) VMStatus_values
       /\ resources r0 = resources mock_vm_001 /\ uptime r0 = "12h 45m".
Proof.
  assert (He : "emp-001" <> "") by discriminate.
  split; [exact He|]. split; [reflexivity|].
  destruct (loadUserVMs_status_verbatim lowercase_env "emp-001"
              {| windows := "stopped"; linux := "rebooting" |}
              initial_world mock_vm_001 mock_vm_002 He eq_refl eq_refl eq_refl
              eq_refl eq_refl)
    as (w' & r0 & r1 & E & D & A0 & A1 & _ & _ & _ & _ & P).
  destruct (P eq_refl) as (_ & _ & N & R & U).
  exists w', r0, r1. auto 10.
Defined.

(** ** The mock entries in every reachable state *)

Lemma handleVMAction_heap env vmId action instanceOs employeeId w :
  heap (snd (handleVMAction env vmId action instanceOs employeeId w)) = heap w.
Proof.
  destruct (String.eqb_spec (toLowerCase action) "start") as [E1 | E1].
  { rewrite (handleVMAction_dispatch env vmId action instanceOs employeeId w _ _ _ E1
               (dispatches_start env instanceOs employeeId)).
    now destruct (startVM (vmService env) instanceOs employeeId). }
  destruct (String.eqb_spec (toLowerCase action) "stop") as [E2 | E2].
  { rewrite (handleVMAction_dispatch env vmId action instanceOs employeeId w _ _ _ E2
               (dispatches_stop env instanceOs employeeId)).
    now destruct (stopVM (vmService env) instanceOs employeeId). }
  destruct (String.eqb_spec (toLowerCase action) "restart") as [E3 | E3].
  { rewrite (handleVMAction_dispatch env vmId action instanceOs employeeId w _ _ _ E3
               (dispatches_restart env instanceOs employeeId)).
    now destruct (restartVM (vmService env) instanceOs employeeId). }
  destruct (String.eqb_spec (toLowerCase action) "reset") as [E4 | E4].
  { rewrite (handleVMAction_dispatch env vmId action instanceOs employeeId w _ _ _ E4
               (dispatches_reset env instanceOs employeeId)).
    now destruct (restartVM (vmService env) instanceOs employeeId). }
  now rewrite handleVMAction_default.
Qed.

(** Whatever calls were made before, the module-level array still holds
    the Windows entry and the Linux entry: the hypotheses of the theorems
    on the single-user branch hold in every reachable state. *)
Lemma reachable_mock_entries (w : World) :
  reachable w ->
  exists v0 v1,
    heap w !! 0%nat = Some v0 /\ heap w !! 1%nat = Some v1
    /\ os v0 = "Windows" /\ os v1 = "Linux".
Proof.
  induction 1 as [| env employeeId w _ IH | env vmId action instanceOs employeeId w _ IH].
  - exists mock_vm_001, mock_vm_002. repeat split.
  - destruct IH as (v0 & v1 & H0 & H1 & O0 & O1).
    destruct (truthy employeeId) eqn:Ht.
    + destruct employeeId as [e|]; [|discriminate Ht].
      assert (He : e <> "").
      { intros ->. discriminate Ht. }
      destruct (getVMStatus (vmService env) e) as [sr | err] eqn:Hs.
      * rewrite (loadUserVMs_single env e sr w He Hs). cbn [snd].
        pose proof (overlaid_deref w e sr v0 v1 H0 H1) as Hd.
        unfold deref, mockVMs in Hd. cbn [map] in Hd.
        injection Hd as Hd0 Hd1.
        exists (overlay_status sr v0), (overlay_status sr v1).
        split; [exact Hd0|]. split; [exact Hd1|].
        assert (S0 : toLowerCase (os v0) = "windows" /\ windows sr = windows sr)
          by (rewrite O0; split; reflexivity).
        assert (S1 : toLowerCase (os v1) = "linux" /\ linux sr = linux sr)
          by (rewrite O1; split; reflexivity).
        destruct (overlay_status_selected sr v0 _ (or_introl S0)) as (_ & _ & _ & _ & A0 & _).
        destruct (overlay_status_selected sr v1 _ (or_intror S1)) as (_ & _ & _ & _ & A1 & _).
        split; congruence.
      * rewrite (loadUserVMs_single_rejected env e err w He Hs). cbn [snd record heap].
        exists v0, v1. auto.
    + destruct (getAllVMs (vmService env)) as [[|[| |vms]]|err] eqn:Hg.
      4: { destruct (loadUserVMs_all_mapped env employeeId vms w Ht Hg)
             as (refs & objs & w' & E & Hh & _).
           rewrite E. cbn [snd]. rewrite Hh. exists v0, v1.
           split; [apply lookup_app_l_Some; exact H0|].
           split; [apply lookup_app_l_Some; exact H1|]. auto. }
      all: destruct (loadUserVMs_all_fallback env employeeId w Ht) as (evs & E & _);
        [rewrite Hg; intros [vms Hv]; discriminate Hv|];
        rewrite E; cbn [snd record heap]; exists v0, v1; auto.
  - destruct IH as (v0 & v1 & H0 & H1 & O0 & O1).
    rewrite handleVMAction_heap. exists v0, v1. auto.
Qed.

(** * Further properties of the VM service layer *)

(** ** The loader, in every case *)

(** The all-VMs branch on a list of records: the result, the store and
    the trace. *)
Lemma loadUserVMs_all_mapped_full env employeeId vms w :
  truthy employeeId = false ->
  getAllVMs (vmService env) = Fulfilled (ResponseObject (VmsArray vms)) ->
  exists objs w',
    loadUserVMs env employeeId w = (Normal (seq (length (heap w)) (length vms)), w')
    /\ heap w' = (heap w ++ objs)%list
    /\ trace w' = (trace w ++ [Remote GetAllVMs])%list
    /\ Forall2 (mapped env) vms objs.
Proof.
  intros Ht Hg.
  destruct (array_map_convert env vms (record w [Remote GetAllVMs]))
    as (objs & w' & Hm & Hh & Htr & Hf).
  unfold loadUserVMs, try_catch. rewrite Ht, Hg.
  unfold bind in Hm |- *. rewrite await_fulfilled, Hm.
  exists objs, w'. cbn [record heap trace] in Hh, Htr. auto.
Qed.

(** X1.  Whatever the employee, the service and the state, the loader
    completes normally (it never throws), and it makes exactly one remote
    call on the way: [getVMStatus] for a truthy employee, [getAllVMs]
    otherwise. *)
Theorem loadUserVMs_always_returns env employeeId w :
  exists refs w',
    loadUserVMs env employeeId w = (Normal refs, w')
    /\ remote_calls (trace w')
       = (remote_calls (trace w) ++ [loader_call employeeId])%list.
Proof.
  unfold loader_call. destruct (truthy employeeId) eqn:Ht.
  - destruct employeeId as [e|]; [|discriminate Ht].
    assert (He : e <> "") by (intros ->; discriminate Ht).
    change (default "" (Some e)) with e.
    destruct (getVMStatus (vmService env) e) as [sr | err] eqn:Hs.
    + rewrite (loadUserVMs_single env e sr w He Hs).
      eexists _, _. split; [reflexivity|].
      unfold overlaid. cbn [trace]. now rewrite remote_calls_app.
    + rewrite (loadUserVMs_single_rejected env e err w He Hs).
      eexists _, _. split; [reflexivity|].
      unfold record. cbn [trace]. now rewrite remote_calls_app.
  - destruct (getAllVMs (vmService env)) as [[|[| |vms]]|err] eqn:Hg.
    4: { destruct (loadUserVMs_all_mapped_full env employeeId vms w Ht Hg)
           as (objs & w' & E & _ & Htr & _).
         rewrite E. eexists _, _. split; [reflexivity|].
         rewrite Htr. now rewrite remote_calls_app. }
    all: destruct (loadUserVMs_all_fallback env employeeId w Ht) as (evs & E & Hc & _);
      [rewrite Hg; intros [vms Hv]; discriminate Hv|];
      rewrite E; eexists _, _; (split; [reflexivity|]);
      unfold record; cbn [trace];
      change (Remote GetAllVMs :: evs) with ([Remote GetAllVMs] ++ evs)%list;
      rewrite !remote_calls_app, Hc; reflexivity.
Qed.

(** ** The list of all VMs *)

Lemma normalizeVMStatus_closed (s : string) : In (normalizeVMStatus s) VMStatus_values.
Proof.
  pose proof (normalizeVMStatus_cases s) as H. cbv zeta in H.
  unfold VMStatus_values. simpl.
  destruct H as [[_ ->] | [[_ ->] | [[_ ->] | [[_ ->] | [[_ ->] | [_ ->]]]]]]; tauto.
Qed.

Lemma mapped_mapped_from env apiVM vm : mapped env apiVM vm -> mapped_from apiVM vm.
Proof.
  intros (w & w' & E).
  assert (H : status vm = normalizeVMStatus (ApiVM.status apiVM)
              /\ os vm = ApiVM.instance_os apiVM
              /\ name vm = ApiVM.instance_os apiVM +:+ " VM"
              /\ assigned_user vm = ApiVM.employee_id apiVM
              /\ health vm = "Good"
              /\ ip_address vm = "10.0.0.15"
              /\ last_snapshot vm = None
              /\ user_name vm = ApiVM.user_name apiVM
              /\ user_email vm = ApiVM.user_email apiVM
              /\ guacamole_url vm = ApiVM.guacamole_url apiVM
              /\ instance_id vm = ApiVM.instance_id apiVM
              /\ created_at vm = ApiVM.created_at apiVM).
  { unfold convertApiVMToAppFormat in E.
    destruct (toLowerCase (ApiVM.status apiVM) =? "running")%string;
      unfold bind, Date_now, Math_random, ret in E;
      injection E as <- _; repeat split. }
  destruct H as (S & H). unfold mapped_from.
  split; [exact S|]. split; [rewrite S; apply normalizeVMStatus_closed | exact H].
Qed.

(** X2.  In all-VMs mode, on a response of the shape [{vms: Array}], the
    loader returns one VM per record, in the order of the records; each VM
    carries the operating system and the employee of its record, the
    normalized status of the record, which is one of the six values of
    [VMStatus] whatever the server sent, and the placeholders (health
    Good, address 10.0.0.15, no snapshot). *)
Theorem loadUserVMs_all_normalized env employeeId vms w :
  truthy employeeId = false ->
  getAllVMs (vmService env) = Fulfilled (ResponseObject (VmsArray vms)) ->
  exists refs objs w',
    loadUserVMs env employeeId w = (Normal refs, w')
    /\ deref (heap w') refs = map Some objs
    /\ length refs = length vms
    /\ Forall2 mapped_from vms objs.
Proof.
  intros Ht Hg.
  destruct (loadUserVMs_all_mapped_full env employeeId vms w Ht Hg)
    as (objs & w' & E & Hh & _ & Hf).
  exists (seq (length (heap w)) (length vms)), objs, w'.
  split; [exact E|]. split.
  - rewrite Hh, (Forall2_length _ _ _ Hf). apply deref_fresh.
  - split; [apply length_seq|].
    eapply Forall2_impl; [exact Hf|]. intros raw vm. apply mapped_mapped_from.
Qed.

Lemma loadUserVMs_all_normalized_witness :
  truthy (Some "") = false
  /\ exists refs objs w',
       loadUserVMs listing_env (Some "") initial_world = (Normal refs, w')
       /\ deref (heap w') refs = map Some objs
       /\ map status objs = ["Running"; "Error"].
Proof.
  split; [reflexivity|].
  destruct (loadUserVMs_all_normalized listing_env (Some "") listing_records
              initial_world eq_refl eq_refl)
    as (refs & objs & w' & E & D & _ & F).
  exists refs, objs, w'. split; [exact E|]. split; [exact D|].
  unfold listing_records in F.
  inversion F as [|r1 o1 rs1 os1 (S1 & _) F1]; subst.
  inversion F1 as [|r2 o2 rs2 os2 (S2 & _) F2]; subst.
  inversion F2; subst. cbn [map]. rewrite S1, S2. reflexivity.
Defined.

(** X3.  The VMs of the all-VMs list are new objects: their references
    are pairwise distinct and name no object that existed before, and
    every object that existed before, the two mock entries among them, is
    left as it was. *)
Theorem loadUserVMs_all_fresh env employeeId vms w :
  truthy employeeId = false ->
  getAllVMs (vmService env) = Fulfilled (ResponseObject (VmsArray vms)) ->
  exists refs w',
    loadUserVMs env employeeId w = (Normal refs, w')
    /\ NoDup refs
    /\ (forall r, In r refs -> (length (heap w) <= r)%nat /\ is_Some (heap w' !! r))
    /\ (forall r, (r < length (heap w))%nat -> heap w' !! r = heap w !! r)
    /\ ((2 <= length (heap w))%nat ->
        deref (heap w') mockVMs = deref (heap w) mockVMs).
Proof.
  intros Ht Hg.
  destruct (loadUserVMs_all_mapped_full env employeeId vms w Ht Hg)
    as (objs & w' & E & Hh & _ & Hf).
  exists (seq (length (heap w)) (length vms)), w'.
  assert (Hold : forall r, (r < length (heap w))%nat -> heap w' !! r = heap w !! r).
  { intros r Hr. rewrite Hh. now apply lookup_app_l. }
  split; [exact E|]. split; [apply NoDup_seq|]. split; [|split; [exact Hold|]].
  - intros r Hr. apply in_seq in Hr. split; [lia|].
    apply lookup_lt_is_Some. rewrite Hh, length_app, <- (Forall2_length _ _ _ Hf). lia.
  - intros H2. unfold deref, mockVMs. cbn [map].
    rewrite !Hold by lia. reflexivity.
Qed.

Lemma loadUserVMs_all_fresh_witness :
  truthy None = false
  /\ exists w',
       loadUserVMs listing_env None initial_world = (Normal [2%nat; 3%nat], w')
       /\ deref (heap w') mockVMs = [Some mock_vm_001; Some mock_vm_002].
Proof.
  split; [reflexivity|].
  destruct (loadUserVMs_all_fresh listing_env None listing_records initial_world
              eq_refl eq_refl) as (refs & w' & E & _ & _ & _ & D).
  assert (Hr : refs = [2%nat; 3%nat]).
  { assert (Hx : fst (loadUserVMs listing_env None initial_world) = Normal refs)
      by now rewrite E.
    vm_compute in Hx. now injection Hx as <-. }
  subst refs. exists w'. split; [exact E|].
  rewrite D; [reflexivity | cbn; lia].
Defined.

(** ** The overlay of the single-user branch, call after call *)

Lemma overlay_status_choice sr vm :
  overlay_status sr vm
  = if (overlay_choice sr vm =? "Stopped")%string
    then set_uptime "0h 0m"
           (set_resources {| cpu := 0; memory := 0; disk := disk (resources vm);
                             network := 0 |}
                          (set_status (overlay_choice sr vm) vm))
    else set_status (overlay_choice sr vm) vm.
Proof.
  destruct vm as [i n s o au up h ip ls [c m d nw] un ue gu ii ca].
  unfold overlay_status, overlay_choice. cbn [os status].
  destruct (toLowerCase o =? "windows")%string;
    [|destruct (toLowerCase o =? "linux")%string]; reflexivity.
Qed.

Lemma overlay_choice_again sr vm :
  overlay_choice sr (overlay_status sr vm) = overlay_choice sr vm.
Proof.
  rewrite overlay_status_choice.
  destruct vm as [i n s o au up h ip ls [c m d nw] un ue gu ii ca].
  unfold overlay_choice at 1 3.
  destruct (overlay_choice sr _ =? "Stopped")%string;
    cbn [set_status set_resources set_uptime os status];
    unfold overlay_choice; cbn [os status];
    destruct (toLowerCase o =? "windows")%string;
    [|destruct (toLowerCase o =? "linux")%string| |destruct (toLowerCase o =? "linux")%string];
    reflexivity.
Qed.

Lemma overlay_status_idempotent sr vm :
  overlay_status sr (overlay_status sr vm) = overlay_status sr vm.
Proof.
  rewrite (overlay_status_choice sr (overlay_status sr vm)), overlay_choice_again.
  rewrite (overlay_status_choice sr vm).
  destruct (overlay_choice sr vm =? "Stopped")%string; destruct vm; reflexivity.
Qed.

Lemma overlay_status_identity sr vm : same_identity (overlay_status sr vm) vm.
Proof.
  rewrite overlay_status_choice.
  destruct (overlay_choice sr vm =? "Stopped")%string; destruct vm;
    unfold same_identity; cbn; repeat split.
Qed.

Lemma overlay_status_idle sr vm : idle_figures vm -> idle_figures (overlay_status sr vm).
Proof.
  rewrite overlay_status_choice. unfold idle_figures.
  destruct (overlay_choice sr vm =? "Stopped")%string; destruct vm as [? ? ? ? ? ? ? ? ? []];
    cbn; tauto.
Qed.

Lemma alter_twice_mock {A} (f : A -> A) (h : list A) :
  (forall x, f (f x) = f x) ->
  alter f 1%nat (alter f 0%nat (alter f 1%nat (alter f 0%nat h)))
  = alter f 1%nat (alter f 0%nat h).
Proof.
  intros Hf. destruct h as [|a [|b h]]; cbn; rewrite ?Hf; reflexivity.
Qed.

(** X4.  Loading twice for an employee with the same status response
    changes nothing more than loading once: the second call leaves every
    object of the store as the first call left it. *)
Theorem loadUserVMs_single_idempotent env env' e e' sr w :
  e <> "" -> e' <> "" ->
  getVMStatus (vmService env) e = Fulfilled sr ->
  getVMStatus (vmService env') e' = Fulfilled sr ->
  exists w1 w2,
    loadUserVMs env (Some e) w = (Normal mockVMs, w1)
    /\ loadUserVMs env' (Some e') w1 = (Normal mockVMs, w2)
    /\ heap w2 = heap w1.
Proof.
  intros He He' Hs Hs'.
  exists (overlaid w e sr), (overlaid (overlaid w e sr) e' sr).
  split; [now apply loadUserVMs_single|].
  split; [now apply loadUserVMs_single|].
  unfold overlaid. cbn [heap]. apply alter_twice_mock, overlay_status_idempotent.
Qed.

Lemma loadUserVMs_single_idempotent_witness :
  "emp-001" <> "" /\ "emp-002" <> ""
  /\ exists w1 w2,
       loadUserVMs sample_env (Some "emp-001") initial_world = (Normal mockVMs, w1)
       /\ loadUserVMs sample_env (Some "emp-002") w1 = (Normal mockVMs, w2)
       /\ heap w2 = heap w1.
Proof.
  assert (H1 : "emp-001" <> "") by discriminate.
  assert (H2 : "emp-002" <> "") by discriminate.
  split; [exact H1|]. split; [exact H2|].
  exact (loadUserVMs_single_idempotent sample_env sample_env "emp-001" "emp-002"
           {| windows := "Stopped"; linux := "Running" |} initial_world
           H1 H2 eq_refl eq_refl).
Defined.

(** X5.  An entry that was once reported Stopped keeps its zero cpu,
    memory and network figures and its uptime "0h 0m" in the next
    single-user load, whatever status that load reports for it, Running
    included: the figures are zeroed on Stopped and never restored. *)
Theorem loadUserVMs_stopped_figures_stay env env' e e' sr sr' w v0 v1 :
  e <> "" -> e' <> "" ->
  getVMStatus (vmService env) e = Fulfilled sr ->
  getVMStatus (vmService env') e' = Fulfilled sr' ->
  heap w !! 0%nat = Some v0 -> heap w !! 1%nat = Some v1 ->
  os v0 = "Windows" -> os v1 = "Linux" ->
  exists w1 w2 r0 r1,
    loadUserVMs env (Some e) w = (Normal mockVMs, w1)
    /\ loadUserVMs env' (Some e') w1 = (Normal mockVMs, w2)
    /\ deref (heap w2) mockVMs = [Some r0; Some r1]
    /\ status r0 = windows sr' /\ status r1 = linux sr'
    /\ (windows sr = "Stopped" -> idle_figures r0)
    /\ (linux sr = "Stopped" -> idle_figures r1).
Proof.
  intros He He' Hs Hs' H0 H1 O0 O1.
  exists (overlaid w e sr), (overlaid (overlaid w e sr) e' sr'),
         (overlay_status sr' (overlay_status sr v0)),
         (overlay_status sr' (overlay_status sr v1)).
  pose proof (overlaid_deref w e sr v0 v1 H0 H1) as D1.
  unfold deref, mockVMs in D1. cbn [map] in D1. injection D1 as D10 D11.
  assert (S0 : toLowerCase (os v0) = "windows" /\ windows sr = windows sr)
    by (rewrite O0; split; reflexivity).
  assert (S1 : toLowerCase (os v1) = "linux" /\ linux sr = linux sr)
    by (rewrite O1; split; reflexivity).
  destruct (overlay_status_selected sr v0 _ (or_introl S0)) as (_ & _ & Z0 & _ & P0 & _).
  destruct (overlay_status_selected sr v1 _ (or_intror S1)) as (_ & _ & Z1 & _ & P1 & _).
  assert (S0' : toLowerCase (os (overlay_status sr v0)) = "windows"
                /\ windows sr' = windows sr')
    by (rewrite P0, O0; split; reflexivity).
  assert (S1' : toLowerCase (os (overlay_status sr v1)) = "linux"
                /\ linux sr' = linux sr')
    by (rewrite P1, O1; split; reflexivity).
  destruct (overlay_status_selected sr' _ _ (or_introl S0')) as (A0 & _).
  destruct (overlay_status_selected sr' _ _ (or_intror S1')) as (A1 & _).
  split; [now apply loadUserVMs_single|].
  split; [now apply loadUserVMs_single|].
  split; [now apply overlaid_deref|].
  split; [exact A0|]. split; [exact A1|]. split.
  - intros Hw. apply overlay_status_idle. destruct (Z0 Hw) as (? & ? & ? & ?).
    unfold idle_figures. auto.
  - intros Hl. apply overlay_status_idle. destruct (Z1 Hl) as (? & ? & ? & ?).
    unfold idle_figures. auto.
Qed.

Lemma loadUserVMs_stopped_figures_stay_witness :
  "emp-001" <> ""
  /\ exists w1 w2 r0 r1,
       loadUserVMs sample_env (Some "emp-001") initial_world = (Normal mockVMs, w1)
       /\ loadUserVMs running_env (Some "emp-001") w1 = (Normal mockVMs, w2)
       /\ deref (heap w2) mockVMs = [Some r0; Some r1]
       /\ status r0 = "Running" /\ idle_figures r0.
Proof.
  assert (H1 : "emp-001" <> "") by discriminate.
  split; [exact H1|].
  destruct (loadUserVMs_stopped_figures_stay sample_env running_env "emp-001" "emp-001"
              {| windows := "Stopped"; linux := "Running" |}
              {| windows := "Running"; linux := "Running" |}
              initial_world mock_vm_001 mock_vm_002 H1 H1 eq_refl eq_refl eq_refl eq_refl
              eq_refl eq_refl)
    as (w1 & w2 & r0 & r1 & E1 & E2 & D & A0 & _ & I0 & _).
  exists w1, w2, r0, r1.
  split; [exact E1|]. split; [exact E2|]. split; [exact D|].
  split; [exact A0 | exact (I0 eq_refl)].
Defined.

(** ** The mock entries over a whole session *)

(** A call of the loader leaves the two mock entries alone or overlays
    both with one status response. *)
Lemma loadUserVMs_mock_step env employeeId w v0 v1 :
  heap w !! 0%nat = Some v0 -> heap w !! 1%nat = Some v1 ->
  let w' := snd (loadUserVMs env employeeId w) in
  (heap w' !! 0%nat = Some v0 /\ heap w' !! 1%nat = Some v1)
  \/ exists sr,
       heap w' !! 0%nat = Some (overlay_status sr v0)
       /\ heap w' !! 1%nat = Some (overlay_status sr v1).
Proof.
  intros H0 H1. cbv zeta.
  destruct (truthy employeeId) eqn:Ht.
  - destruct employeeId as [e|]; [|discriminate Ht].
    assert (He : e <> "") by (intros ->; discriminate Ht).
    destruct (getVMStatus (vmService env) e) as [sr | err] eqn:Hs.
    + right. exists sr. rewrite (loadUserVMs_single env e sr w He Hs). cbn [snd].
      pose proof (overlaid_deref w e sr v0 v1 H0 H1) as Hd.
      unfold deref, mockVMs in Hd. cbn [map] in Hd. injection Hd as Hd0 Hd1. auto.
    + left. rewrite (loadUserVMs_single_rejected env e err w He Hs).
      cbn [snd record heap]. auto.
  - left. destruct (getAllVMs (vmService env)) as [[|[| |vms]]|err] eqn:Hg.
    4: { destruct (loadUserVMs_all_mapped_full env employeeId vms w Ht Hg)
           as (objs & w' & E & Hh & _).
         rewrite E. cbn [snd]. rewrite Hh.
         split; apply lookup_app_l_Some; assumption. }
    all: destruct (loadUserVMs_all_fallback env employeeId w Ht) as (evs & E & _);
      [rewrite Hg; intros [vms Hv]; discriminate Hv|];
      rewrite E; cbn [snd record heap]; auto.
Qed.

Lemma same_identity_trans a b c :
  same_identity a b -> same_identity b c -> same_identity a c.
Proof.
  unfold same_identity. intros H1 H2.
  repeat match goal with H : _ /\ _ |- _ => destruct H end.
  repeat split; congruence.
Qed.

Lemma same_identity_refl a : same_identity a a.
Proof. unfold same_identity. repeat split. Qed.

Lemma overlay_status_figures sr vm :
  idle_figures (overlay_status sr vm)
  \/ (resources (overlay_status sr vm) = resources vm
      /\ uptime (overlay_status sr vm) = uptime vm).
Proof.
  rewrite overlay_status_choice.
  destruct (overlay_choice sr vm =? "Stopped")%string;
    destruct vm as [? ? ? ? ? ? ? ? ? []]; [left | right]; cbn.
  - unfold idle_figures. cbn. tauto.
  - tauto.
Qed.

(** X6.  In every state that calls of [loadUserVMs] and [handleVMAction]
    lead to, the two mock entries keep their id, name, operating system,
    assigned user, health, address, snapshot date and disk figure, whoever
    the loader was called for.  The Linux entry, which starts stopped,
    shows no cpu, memory or network use and the uptime "0h 0m" for ever,
    whatever status is reported for it; the Windows entry shows its
    initial figures or, once it was reported Stopped, none. *)
Theorem reachable_mock_figures (w : World) :
  reachable w ->
  exists v0 v1,
    heap w !! 0%nat = Some v0 /\ heap w !! 1%nat = Some v1
    /\ same_identity v0 mock_vm_001 /\ same_identity v1 mock_vm_002
    /\ idle_figures v1
    /\ (idle_figures v0
        \/ (resources v0 = resources mock_vm_001 /\ uptime v0 = uptime mock_vm_001)).
Proof.
  induction 1 as [| env employeeId w _ IH | env vmId action instanceOs employeeId w _ IH].
  - exists mock_vm_001, mock_vm_002.
    split; [reflexivity|]. split; [reflexivity|].
    split; [apply same_identity_refl|]. split; [apply same_identity_refl|].
    split; [unfold idle_figures; cbn; tauto | right; tauto].
  - destruct IH as (v0 & v1 & H0 & H1 & I0 & I1 & Z1 & F0).
    destruct (loadUserVMs_mock_step env employeeId w v0 v1 H0 H1)
      as [[K0 K1] | (sr & K0 & K1)].
    + exists v0, v1. auto 10.
    + exists (overlay_status sr v0), (overlay_status sr v1).
      split; [exact K0|]. split; [exact K1|].
      split; [eapply same_identity_trans; [apply overlay_status_identity | exact I0]|].
      split; [eapply same_identity_trans; [apply overlay_status_identity | exact I1]|].
      split; [now apply overlay_status_idle|].
      destruct F0 as [F0 | [R0 U0]].
      * left. now apply overlay_status_idle.
      * destruct (overlay_status_figures sr v0) as [Z | [R U]]; [left; exact Z|].
        right. split; congruence.
  - destruct IH as (v0 & v1 & H0 & H1 & I).
    rewrite handleVMAction_heap. exists v0, v1. auto.
Qed.

Lemma reachable_mock_figures_witness :
  reachable (snd (loadUserVMs running_env (Some "emp-007") initial_world))
  /\ exists v0 v1,
       deref (heap (snd (loadUserVMs running_env (Some "emp-007") initial_world))) mockVMs
       = [Some v0; Some v1]
       /\ status v1 = "Running" /\ assigned_user v1 = "emp-002" /\ idle_figures v1.
Proof.
  assert (R : reachable (snd (loadUserVMs running_env (Some "emp-007") initial_world)))
    by (apply reachable_loadUserVMs, reachable_initial).
  split; [exact R|].
  destruct (reachable_mock_figures _ R) as (v0 & v1 & H0 & H1 & _ & I1 & Z1 & _).
  exists v0, v1.
  split; [unfold deref, mockVMs; cbn [map]; f_equal; [exact H0 | f_equal; exact H1]|].
  assert (E : v1 = overlay_status {| windows := "Running"; linux := "Running" |} mock_vm_002).
  { vm_compute in H1. now injection H1 as <-. }
  split; [rewrite E; reflexivity|].
  split; [|exact Z1].
  destruct I1 as (_ & _ & _ & A & _). rewrite A. reflexivity.
Defined.

(** ** The dispatcher, for every action *)

(** Either the action is supported and the dispatcher runs its remote
    operation, or it is not and the dispatcher takes the default case. *)
Lemma handleVMAction_cases env vmId action instanceOs employeeId w :
  (exists label call promise,
     toLowerCase action = label
     /\ In label supported_actions
     /\ dispatches env instanceOs employeeId label call promise
     /\ handleVMAction env vmId action instanceOs employeeId w =
        match promise with
        | Fulfilled r =>
            (Normal r,
             record w [Remote call;
                       Toast ("VM " +:+ action +:+ " initiated")
                             (Some (or_else (message r)
                                      ("The VM is now being " +:+ label +:+ "ed.")))])
        | Rejected e =>
            (Throw e,
             record w [Remote call;
                       ConsoleError ("Error performing VM " +:+ action +:+ ":")
                                    (ErrorPayload e);
                       ToastError ("VM " +:+ action +:+ " Failed")
                                  (Some (or_else (err_response_message e)
                                           ("Failed to " +:+ label +:+ " VM.")))])
        end)
  \/ ((forall a, In a supported_actions -> toLowerCase action <> a)
      /\ handleVMAction env vmId action instanceOs employeeId w =
         (Throw (new_Error ("Unsupported action: " +:+ action)),
          record w [ConsoleError ("Error performing VM " +:+ action +:+ ":")
                      (ErrorPayload (new_Error ("Unsupported action: " +:+ action)));
                    ToastError ("VM " +:+ action +:+ " Failed")
                               (Some ("Failed to " +:+ toLowerCase action +:+ " VM."))])).
Proof.
  destruct (String.eqb_spec (toLowerCase action) "start") as [E1 | E1].
  { left. eexists "start", _, _. split; [exact E1|]. split; [simpl; tauto|].
    split; [apply dispatches_start|]. now apply handleVMAction_dispatch, dispatches_start. }
  destruct (String.eqb_spec (toLowerCase action) "stop") as [E2 | E2].
  { left. eexists "stop", _, _. split; [exact E2|]. split; [simpl; tauto|].
    split; [apply dispatches_stop|]. now apply handleVMAction_dispatch, dispatches_stop. }
  destruct (String.eqb_spec (toLowerCase action) "restart") as [E3 | E3].
  { left. eexists "restart", _, _. split; [exact E3|]. split; [simpl; tauto|].
    split; [apply dispatches_restart|].
    now apply handleVMAction_dispatch, dispatches_restart. }
  destruct (String.eqb_spec (toLowerCase action) "reset") as [E4 | E4].
  { left. eexists "reset", _, _. split; [exact E4|]. split; [simpl; tauto|].
    split; [apply dispatches_reset|]. now apply handleVMAction_dispatch, dispatches_reset. }
  right. split.
  - intros a Hin. simpl in Hin.
    repeat (destruct Hin as [<- | Hin]; [assumption|]). destruct Hin.
  - now apply handleVMAction_default.
Qed.

(** X7.  Whatever the action, the dispatcher leaves the store of VM
    objects, the clock and the random generator untouched, and it makes at
    most one remote call: none exactly when the action equals no supported
    action up to case. *)
Theorem handleVMAction_frame env vmId action instanceOs employeeId w :
  let w' := snd (handleVMAction env vmId action instanceOs employeeId w) in
  heap w' = heap w /\ ticks w' = ticks w /\ draws w' = draws w
  /\ exists calls,
       remote_calls (trace w') = (remote_calls (trace w) ++ calls)%list
       /\ (length calls <= 1)%nat
       /\ (calls = [] <->
           forall a, In a supported_actions -> ~ eq_ignore_case action a).
Proof.
  cbv zeta.
  destruct (handleVMAction_cases env vmId action instanceOs employeeId w)
    as [(label & call & promise & El & Hin & Hd & E) | [Hno E]]; rewrite E.
  - assert (Hc : eq_ignore_case action label).
    { apply eq_ignore_case_label; [|exact El]. destruct Hd; reflexivity. }
    destruct promise as [r | e]; cbn [snd record heap ticks draws trace];
      (repeat (split; [reflexivity|])); exists [call];
      rewrite remote_calls_app; (split; [reflexivity|]); (split; [cbn; lia|]);
      (split; [discriminate|]); intros Hno; exfalso; exact (Hno label Hin Hc).
  - cbn [snd record heap ticks draws trace]. repeat (split; [reflexivity|]).
    exists []. rewrite remote_calls_app. split; [reflexivity|]. split; [cbn; lia|].
    split; [|reflexivity]. intros _ a Hin Hc. apply (Hno a Hin).
    apply eq_ignore_case_label in Hc; [exact Hc|].
    simpl in Hin. repeat (destruct Hin as [<- | Hin]; [reflexivity|]). destruct Hin.
Qed.

(** X8.  Every run of the dispatcher ends with exactly one notification
    that matches its outcome.  When it returns, it has emitted one success
    notification, titled "VM <action> initiated" and showing the message of
    the response when there is a non-empty one and "The VM is now being
    <action in lower case>ed." otherwise, and neither an error notification
    nor a console line.  When it throws, it has emitted one error
    notification and one console line, and no success notification. *)
Theorem handleVMAction_one_notification env vmId action instanceOs employeeId w :
  exists evs,
    trace (snd (handleVMAction env vmId action instanceOs employeeId w))
    = (trace w ++ evs)%list
    /\ match fst (handleVMAction env vmId action instanceOs employeeId w) with
       | Normal r =>
           count_events is_toast evs = 1%nat
           /\ count_events is_toast_error evs = 0%nat
           /\ count_events is_console_error evs = 0%nat
           /\ In (Toast ("VM " +:+ action +:+ " initiated")
                        (Some (or_else (message r)
                                 ("The VM is now being " +:+ toLowerCase action +:+ "ed."))))
                 evs
       | Throw _ =>
           count_events is_toast evs = 0%nat
           /\ count_events is_toast_error evs = 1%nat
           /\ count_events is_console_error evs = 1%nat
       end.
Proof.
  destruct (handleVMAction_cases env vmId action instanceOs employeeId w)
    as [(label & call & promise & El & Hin & Hd & E) | [Hno E]]; rewrite E.
  - destruct promise as [r | e]; cbn [fst snd record trace]; eexists;
      (split; [reflexivity|]); rewrite ?El; cbn; auto 10.
  - cbn [fst snd record trace]. eexists. split; [reflexivity|]. cbn. auto.
Qed.

(** ** The uptime and the id that the mapper computes *)

Lemma show_Int_inj (a b : Z) : show (Int a) = show (Int b) -> a = b.
Proof.
  unfold show. intros H.
  assert (Hn : forall z, Z.to_int z <> Decimal.Pos Decimal.Nil
                         /\ Z.to_int z <> Decimal.Neg Decimal.Nil).
  { intros [|p|p]; cbn; split; try discriminate; intros E; injection E as E;
      now apply DecimalPos.Unsigned.to_uint_nonnil in E. }
  apply DecimalZ.to_int_inj.
  pose proof (NilZero.isi (Z.to_int a) (proj1 (Hn a)) (proj2 (Hn a))) as Ha.
  pose proof (NilZero.isi (Z.to_int b) (proj1 (Hn b)) (proj2 (Hn b))) as Hb.
  rewrite H in Ha. congruence.
Qed.

Lemma show_Int_not_undefined (a : Z) : show (Int a) <> "undefined".
Proof.
  unfold show. intros H.
  assert (Hn : Z.to_int a <> Decimal.Pos Decimal.Nil
               /\ Z.to_int a <> Decimal.Neg Decimal.Nil).
  { destruct a as [|p|p]; cbn; split; try discriminate; intros E; injection E as E;
      now apply DecimalPos.Unsigned.to_uint_nonnil in E. }
  pose proof (NilZero.isi (Z.to_int a) (proj1 Hn) (proj2 Hn)) as Ha.
  rewrite H in Ha. discriminate Ha.
Qed.

(** X9.  For a running record last updated in the past, the uptime reads
    "<h>h <m>m" with [h] at least 0 and [m] from 0 to 59, and [h] hours
    and [m] minutes are the whole minutes elapsed since the update:
    seconds and milliseconds are dropped, never rounded up. *)
Theorem convertApiVMToAppFormat_uptime_past env apiVM w t :
  eq_ignore_case (ApiVM.status apiVM) "running" ->
  ApiVM.updated_at apiVM = Int t ->
  t <= clock env (ticks w) ->
  exists vm w' h m,
    convertApiVMToAppFormat env apiVM w = (Normal vm, w')
    /\ uptime vm = show (Int h) +:+ "h " +:+ show (Int m) +:+ "m"
    /\ 0 <= h /\ 0 <= m < 60
    /\ h * 60 + m = (clock env (ticks w) - t) / minute_ms.
Proof.
  intros Hc Hu Ht.
  apply eq_ignore_case_label in Hc; [|reflexivity].
  destruct (convert_running env apiVM w Hc) as (vm & E & _ & U & _).
  set (delta := clock env (ticks w) - t) in *.
  set (h := delta / hour_ms). set (m := (delta mod hour_ms) / minute_ms).
  set (ms := delta mod minute_ms).
  assert (Hd : 0 <= delta) by (subst delta; lia).
  unfold hour_ms, minute_ms in *.
  pose proof (Z.div_mod delta 3600000 ltac:(lia)) as D1.
  pose proof (Z.mod_pos_bound delta 3600000 ltac:(lia)) as B1.
  pose proof (Z.div_mod (delta mod 3600000) 60000 ltac:(lia)) as D2.
  pose proof (Z.mod_pos_bound (delta mod 3600000) 60000 ltac:(lia)) as B2.
  assert (Hh : 0 <= h) by (apply Z.div_pos; lia).
  assert (Hm : 0 <= m < 60).
  { subst m. split; [apply Z.div_pos; lia | apply Z.div_lt_upper_bound; lia]. }
  assert (Hdelta : delta = h * 3600000 + m * 60000 + (delta mod 3600000) mod 60000).
  { subst h m. lia. }
  exists vm, (advance w 1 4), h, m.
  split; [exact E|]. split; [|split; [exact Hh|split; [exact Hm|]]].
  - rewrite U, Hu. cbv zeta. unfold Js.sub. fold delta.
    destruct (hours_minutes_of_delta h m ((delta mod 3600000) mod 60000) Hh Hm B2)
      as [Q1 Q2].
    cbv zeta in Q1, Q2. unfold hour_ms, minute_ms in Q1, Q2.
    rewrite <- Hdelta in Q1, Q2. unfold hour_ms, minute_ms. rewrite Q1, Q2. reflexivity.
  - apply (Z.div_unique delta 60000 (h * 60 + m) ((delta mod 3600000) mod 60000)); lia.
Qed.

Lemma convertApiVMToAppFormat_uptime_past_witness :
  eq_ignore_case "Running" "running"
  /\ exists vm w',
       convertApiVMToAppFormat sample_env
         (sample_record "Running" (1750000000000 - 5999999)) initial_world
       = (Normal vm, w')
       /\ uptime vm = "1h 39m".
Proof.
  assert (H : eq_ignore_case "Running" "running")
    by (apply toLowerCase_eq_ignore_case; reflexivity).
  split; [exact H|].
  destruct (convertApiVMToAppFormat_uptime_past sample_env
              (sample_record "Running" (1750000000000 - 5999999)) initial_world
              (1750000000000 - 5999999) H eq_refl ltac:(cbn; lia))
    as (vm & w' & h & m & E & U & Hh & Hm & Hs).
  exists vm, w'. split; [exact E|].
  assert (Hq : (clock sample_env (ticks initial_world) - (1750000000000 - 5999999))
               / minute_ms = 99) by reflexivity.
  rewrite Hq in Hs.
  assert (h = 1 /\ m = 39) as [-> ->] by lia.
  exact U.
Defined.

(** X10.  A running record whose update lies in the future of the clock,
    by less than an hour, gets a negative uptime: "-1h -<n>m", where [n]
    is the number of minutes of the advance, rounded up.  The mapper
    clamps nothing. *)
Theorem convertApiVMToAppFormat_uptime_future env apiVM w m ms :
  eq_ignore_case (ApiVM.status apiVM) "running" ->
  0 <= m < 60 -> 0 < ms <= minute_ms -> m * minute_ms + ms < hour_ms ->
  ApiVM.updated_at apiVM = Int (clock env (ticks w) + (m * minute_ms + ms)) ->
  exists vm w',
    convertApiVMToAppFormat env apiVM w = (Normal vm, w')
    /\ uptime vm = show (Int (-1)) +:+ "h " +:+ show (Int (- (m + 1))) +:+ "m".
Proof.
  intros Hc Hm Hms Hlt Hu.
  apply eq_ignore_case_label in Hc; [|reflexivity].
  destruct (convert_running env apiVM w Hc) as (vm & E & _ & U & _).
  exists vm, (advance w 1 4). split; [exact E|].
  rewrite U, Hu. cbv zeta. unfold Js.sub, Js.rem.
  unfold hour_ms, minute_ms in *.
  set (d := m * 60000 + ms) in *.
  replace (clock env (ticks w) - (clock env (ticks w) + d)) with (- d) by lia.
  rewrite !floor_div_Int.
  assert (H1 : - d / 3600000 = -1).
  { symmetry. apply (Z.div_unique (- d) 3600000 (-1) (3600000 - d)); lia. }
  assert (H2 : Z.rem (- d) 3600000 = - d).
  { rewrite Z.rem_opp_l by lia. rewrite Z.rem_small by lia. reflexivity. }
  assert (H3 : - d / 60000 = - (m + 1)).
  { symmetry. apply (Z.div_unique (- d) 60000 (- (m + 1)) (60000 - ms)); subst d; lia. }
  rewrite H1, H2, H3. reflexivity.
Qed.

Lemma convertApiVMToAppFormat_uptime_future_witness :
  eq_ignore_case "running" "running"
  /\ exists vm w',
       convertApiVMToAppFormat sample_env
         (sample_record "running" (1750000000000 + (29 * minute_ms + 60000))) initial_world
       = (Normal vm, w')
       /\ uptime vm = "-1h -30m".
Proof.
  assert (H : eq_ignore_case "running" "running")
    by (apply toLowerCase_eq_ignore_case; reflexivity).
  split; [exact H|].
  destruct (convertApiVMToAppFormat_uptime_future sample_env
              (sample_record "running" (1750000000000 + (29 * minute_ms + 60000)))
              initial_world 29 60000 H ltac:(lia) ltac:(unfold minute_ms; lia)
              ltac:(unfold minute_ms, hour_ms; lia) eq_refl)
    as (vm & w' & E & U).
  exists vm, w'. split; [exact E | exact U].
Defined.

(** X11.  A running record whose [updated_at] is no valid date gets the
    uptime "NaNh NaNm"; the mapper still returns.  A record that is not
    running is not affected: its uptime is "0h 0m" whatever its
    [updated_at]. *)
Theorem convertApiVMToAppFormat_uptime_invalid_date env apiVM w :
  ApiVM.updated_at apiVM = NaN ->
  exists vm w',
    convertApiVMToAppFormat env apiVM w = (Normal vm, w')
    /\ (eq_ignore_case (ApiVM.status apiVM) "running" -> uptime vm = "NaNh NaNm")
    /\ (~ eq_ignore_case (ApiVM.status apiVM) "running" -> uptime vm = "0h 0m").
Proof.
  intros Hu.
  destruct (String.eqb_spec (toLowerCase (ApiVM.status apiVM)) "running") as [E | E].
  - destruct (convert_running env apiVM w E) as (vm & Hrun & _ & U & _).
    exists vm, (advance w 1 4). split; [exact Hrun|]. split.
    + intros _. rewrite U, Hu. reflexivity.
    + intros Hn. exfalso. apply Hn. now apply eq_ignore_case_label.
  - destruct (convert_idle env apiVM w E) as (vm & Hrun & _ & U & _).
    exists vm, (advance w 1 1). split; [exact Hrun|]. split.
    + intros Hc. exfalso. apply E. now apply eq_ignore_case_label in Hc.
    + intros _. exact U.
Qed.

Lemma convertApiVMToAppFormat_uptime_invalid_date_witness :
  ApiVM.updated_at (undated_record "Running") = NaN
  /\ exists vm w',
       convertApiVMToAppFormat sample_env (undated_record "Running") initial_world
       = (Normal vm, w')
       /\ uptime vm = "NaNh NaNm".
Proof.
  split; [reflexivity|].
  destruct (convertApiVMToAppFormat_uptime_invalid_date sample_env
              (undated_record "Running") initial_world eq_refl)
    as (vm & w' & E & U & _).
  exists vm, w'. split; [exact E|]. apply U.
  apply toLowerCase_eq_ignore_case. reflexivity.
Defined.

Lemma mapped_id env apiVM vm :
  mapped env apiVM vm ->
  id vm = or_else (ApiVM.instance_id apiVM)
                  ("vm-" +:+ match ApiVM.id apiVM with
                             | Some n => show (Int n)
                             | None => "undefined"
                             end).
Proof.
  intros (w & w' & E). unfold convertApiVMToAppFormat in E.
  destruct (toLowerCase (ApiVM.status apiVM) =? "running")%string;
    unfold bind, Date_now, Math_random, ret in E;
    injection E as <- _; reflexivity.
Qed.

(** X12.  The id of a mapped VM is the instance id of the record when
    that is a non-empty string.  Among records without one, two mapped VMs
    get the same id exactly when the records have the same numeric id, or
    both have none: records that lack both all share the id
    "vm-undefined". *)
Theorem convertApiVMToAppFormat_ids env a b va vb :
  mapped env a va -> mapped env b vb ->
  (truthy (ApiVM.instance_id a) = true -> Some (id va) = ApiVM.instance_id a)
  /\ (truthy (ApiVM.instance_id a) = false ->
      truthy (ApiVM.instance_id b) = false ->
      (id va = id vb <-> ApiVM.id a = ApiVM.id b))
  /\ (truthy (ApiVM.instance_id a) = false -> ApiVM.id a = None ->
      id va = "vm-undefined").
Proof.
  intros Ha Hb. apply mapped_id in Ha, Hb. rewrite Ha, Hb. clear Ha Hb.
  split; [|split].
  - unfold truthy, or_else. destruct (ApiVM.instance_id a) as [s|]; [|discriminate].
    destruct (s =? "")%string; [discriminate | reflexivity].
  - intros Ta Tb. rewrite !or_else_falsy by assumption.
    destruct (ApiVM.id a) as [x|], (ApiVM.id b) as [y|]; split; intros H;
      try reflexivity.
    + injection H as H. apply show_Int_inj in H. now subst.
    + now injection H as ->.
    + injection H as H. now apply show_Int_not_undefined in H.
    + discriminate H.
    + injection H as H. symmetry in H. now apply show_Int_not_undefined in H.
    + discriminate H.
  - intros Ta Hn. rewrite or_else_falsy by assumption. rewrite Hn. reflexivity.
Qed.

Lemma convertApiVMToAppFormat_ids_witness :
  mapped sample_env (anonymous_record None)
    {| id := "vm-undefined"; name := "Windows VM"; status := "Stopped"; os := "Windows";
       assigned_user := "emp-011"; uptime := "0h 0m"; health := "Good";
       ip_address := "10.0.0.15"; last_snapshot := None;
       resources := {| cpu := 0; memory := 0; disk := 10; network := 0 |};
       user_name := None; user_email := None; guacamole_url := None;
       instance_id := None; created_at := None |}
  /\ (forall va vb, mapped sample_env (anonymous_record None) va ->
                    mapped sample_env (anonymous_record None) vb -> id va = id vb).
Proof.
  split.
  - exists initial_world. eexists. vm_compute. reflexivity.
  - intros va vb Ha Hb.
    destruct (convertApiVMToAppFormat_ids sample_env _ _ va vb Ha Hb) as (_ & H & _).
    now apply H.
Defined.

(** * The action buttons of a VM row *)

Lemma VMTableActions_button p b :
  In b (VMTableActions p) ->
  (b = {| VMRow.title := "Stop VM"; VMRow.disabled := VMRow.loading p;
          VMRow.onClick := VMRow.OnAction (VMRow.vmId p) "Stop" (VMRow.instanceOs p)
                                          (VMRow.employeeId p) |}
   /\ toLowerCase (VMRow.status p) = "running")
  \/ (b = {| VMRow.title := "Connect to VM"; VMRow.disabled := false;
             VMRow.onClick := VMRow.HandleConnect |}
      /\ toLowerCase (VMRow.status p) = "running"
      /\ truthy (VMRow.guacamoleUrl p) = true)
  \/ (b = {| VMRow.title := "Start VM"; VMRow.disabled := VMRow.loading p;
             VMRow.onClick := VMRow.OnAction (VMRow.vmId p) "Start" (VMRow.instanceOs p)
                                             (VMRow.employeeId p) |}
      /\ toLowerCase (VMRow.status p) <> "running")
  \/ b = {| VMRow.title := "View Details"; VMRow.disabled := false;
            VMRow.onClick := VMRow.OnViewDetails |}
  \/ (b = {| VMRow.title := "Restart VM"; VMRow.disabled := VMRow.loading p;
             VMRow.onClick := VMRow.OnAction (VMRow.vmId p) "Restart" (VMRow.instanceOs p)
                                             (VMRow.employeeId p) |}
      /\ (toLowerCase (VMRow.status p) = "error"
          \/ toLowerCase (VMRow.status p) = "running")).
Proof.
  unfold VMTableActions. cbv zeta. intros H.
  apply in_app_or in H as [H | H]; [|apply in_app_or in H as [H | H]].
  - destruct (String.eqb_spec (toLowerCase (VMRow.status p)) "running") as [E | E].
    + apply in_app_or in H as [[<- | []] | H]; [auto 10|].
      destruct (truthy (VMRow.guacamoleUrl p)) eqn:T; [|destruct H].
      destruct H as [<- | []]. auto 10.
    + destruct H as [<- | []]. auto 10.
  - destruct H as [<- | []]. auto 10.
  - destruct (String.eqb_spec (toLowerCase (VMRow.status p)) "error") as [E1 | E1];
      destruct (String.eqb_spec (toLowerCase (VMRow.status p)) "running") as [E2 | E2];
      cbn [orb] in H; try (destruct H as [<- | []]; auto 10). destruct H.
Qed.

(** X13.  Every action that a button of the row can ask for is one that
    the dispatcher supports, and it concerns the VM of the row: the Stop
    button asks for Stop, the Start button for Start and the Restart button
    for Restart, each with the id, the operating system and the employee of
    the row, and the dispatcher answers with exactly one call of the
    matching remote operation, never with the error of an unsupported
    action. *)
Theorem VMTableActions_actions_supported env p b v a o e w :
  In b (VMTableActions p) ->
  VMRow.onClick b = VMRow.OnAction v a o e ->
  v = VMRow.vmId p /\ o = VMRow.instanceOs p /\ e = VMRow.employeeId p
  /\ In (VMRow.title b, a) button_actions
  /\ remote_calls (trace (snd (handleVMAction env v a o e w)))
     = (remote_calls (trace w) ++ [row_call a o e])%list.
Proof.
  intros Hin Hc.
  assert (Hcall : forall label call promise,
             toLowerCase a = label ->
             dispatches env o e label call promise ->
             remote_calls (trace (snd (handleVMAction env v a o e w)))
             = (remote_calls (trace w) ++ [call])%list).
  { intros label call promise El Hd.
    rewrite (handleVMAction_dispatch env v a o e w _ _ _ El Hd).
    destruct promise; cbn [snd record trace]; now rewrite remote_calls_app. }
  destruct (VMTableActions_button p b Hin)
    as [[-> _] | [[-> _] | [[-> _] | [-> | [-> _]]]]];
    cbn [VMRow.onClick VMRow.title] in Hc |- *; try discriminate Hc;
    injection Hc as <- <- <- <-;
    (repeat (split; [reflexivity|])); (split; [simpl; tauto|]).
  - apply (Hcall "stop" _ _ eq_refl (dispatches_stop env _ _)).
  - apply (Hcall "start" _ _ eq_refl (dispatches_start env _ _)).
  - apply (Hcall "restart" _ _ eq_refl (dispatches_restart env _ _)).
Qed.

Lemma VMTableActions_actions_supported_witness :
  In {| VMRow.title := "Restart VM"; VMRow.disabled := false;
        VMRow.onClick := VMRow.OnAction "i-0abc" "Restart" "Linux" "emp-009" |}
     (VMTableActions sample_row)
  /\ remote_calls (trace (snd (handleVMAction sample_env "i-0abc" "Restart" "Linux"
                                              "emp-009" initial_world)))
     = [RestartVM "Linux" "emp-009"].
Proof.
  assert (H : In {| VMRow.title := "Restart VM"; VMRow.disabled := false;
                    VMRow.onClick := VMRow.OnAction "i-0abc" "Restart" "Linux" "emp-009" |}
                 (VMTableActions sample_row))
    by (vm_compute; right; right; right; left; reflexivity).
  split; [exact H|].
  destruct (VMTableActions_actions_supported sample_env sample_row _ _ _ _ _
              initial_world H eq_refl) as (_ & _ & _ & _ & C).
  exact C.
Defined.

(** X14.  Which buttons a row shows depends on the status up to case
    only, and on the connection URL: Stop exactly for a running VM and
    Start exactly for any other, so always one of the two; Restart exactly
    for a running VM or one in error; Connect exactly for a running VM with
    a non-empty URL; View Details always.  No button appears twice. *)
Theorem VMTableActions_buttons p :
  let shown t := In t (titles (VMTableActions p)) in
  (shown "Stop VM" <-> eq_ignore_case (VMRow.status p) "running")
  /\ (shown "Start VM" <-> ~ eq_ignore_case (VMRow.status p) "running")
  /\ (shown "Restart VM" <->
      eq_ignore_case (VMRow.status p) "running"
      \/ eq_ignore_case (VMRow.status p) "error")
  /\ (shown "Connect to VM" <->
      eq_ignore_case (VMRow.status p) "running"
      /\ truthy (VMRow.guacamoleUrl p) = true)
  /\ shown "View Details"
  /\ NoDup (titles (VMTableActions p)).
Proof.
  cbv zeta.
  rewrite !(eq_ignore_case_label (VMRow.status p)) by reflexivity.
  unfold VMTableActions, titles. cbv zeta.
  destruct (String.eqb_spec (toLowerCase (VMRow.status p)) "running") as [E1 | E1];
    destruct (String.eqb_spec (toLowerCase (VMRow.status p)) "error") as [E2 | E2];
    destruct (truthy (VMRow.guacamoleUrl p)) eqn:T;
    try (exfalso; congruence);
    cbn [orb app map VMRow.title];
    repeat match goal with
           | |- _ /\ _ => split
           | |- _ <-> _ => split; intros ?
           end;
    try solve [simpl in *; intuition (try discriminate; try congruence)];
    compute_done.
Qed.

(** X15.  While an action of the VM of the row is in flight
    ([actionLoading] is the id of the row), the buttons that ask for an
    action are disabled and no click on the row asks for another one; View
    Details and Connect are never disabled.  An action in flight for
    another VM disables nothing on this row. *)
Theorem VMTableActions_in_flight p b :
  In b (VMTableActions p) ->
  (VMRow.loading p = true <-> VMRow.actionLoading p = Some (VMRow.vmId p))
  /\ (VMRow.disabled b = true <->
      VMRow.loading p = true
      /\ exists v a o e, VMRow.onClick b = VMRow.OnAction v a o e)
  /\ (VMRow.loading p = true ->
      forall v a o e, ~ In (VMRow.CallOnAction v a o e) (VMRow.click p b))
  /\ (VMRow.loading p = false -> VMRow.click p b = VMRow.run p (VMRow.onClick b)).
Proof.
  intros Hin. split; [|split; [|split]].
  - unfold VMRow.loading. destruct (VMRow.actionLoading p) as [a|].
    + rewrite String.eqb_eq. split; [intros ->; reflexivity | intros H; now injection H].
    + split; discriminate.
  - destruct (VMTableActions_button p b Hin)
      as [[-> _] | [[-> _] | [[-> _] | [-> | [-> _]]]]];
      cbn [VMRow.disabled VMRow.onClick]; split;
      try (intros H; split; [exact H | eauto]);
      try (intros [H _]; exact H);
      try discriminate;
      intros [_ (v & a & o & e & H)]; discriminate H.
  - intros Hl v a o e. unfold VMRow.click.
    destruct (VMTableActions_button p b Hin)
      as [[-> _] | [[-> _] | [[-> _] | [-> | [-> _]]]]];
      cbn [VMRow.disabled VMRow.onClick VMRow.run]; rewrite ?Hl;
      unfold VMRow.handleConnect;
      try (destruct (truthy (VMRow.guacamoleUrl p)));
      cbn; intuition congruence.
  - intros Hl. unfold VMRow.click.
    destruct (VMTableActions_button p b Hin)
      as [[-> _] | [[-> _] | [[-> _] | [-> | [-> _]]]]];
      cbn [VMRow.disabled]; rewrite ?Hl; reflexivity.
Qed.

Lemma VMTableActions_in_flight_witness :
  In {| VMRow.title := "Stop VM"; VMRow.disabled := true;
        VMRow.onClick := VMRow.OnAction "i-0abc" "Stop" "Linux" "emp-009" |}
     (VMTableActions busy_row)
  /\ VMRow.click busy_row
       {| VMRow.title := "Stop VM"; VMRow.disabled := true;
          VMRow.onClick := VMRow.OnAction "i-0abc" "Stop" "Linux" "emp-009" |} = []
  /\ forall v a o e,
       ~ In (VMRow.CallOnAction v a o e)
            (VMRow.click busy_row
               {| VMRow.title := "Stop VM"; VMRow.disabled := true;
                  VMRow.onClick := VMRow.OnAction "i-0abc" "Stop" "Linux" "emp-009" |}).
Proof.
  assert (H : In {| VMRow.title := "Stop VM"; VMRow.disabled := true;
                    VMRow.onClick := VMRow.OnAction "i-0abc" "Stop" "Linux" "emp-009" |}
                 (VMTableActions busy_row))
    by (vm_compute; left; reflexivity).
  split; [exact H|]. split; [reflexivity|].
  destruct (VMTableActions_in_flight busy_row _ H) as (_ & _ & N & _).
  exact (N eq_refl).
Defined.

(** X16.  A click on the Connect button opens the connection URL of the
    row in a new tab, keeps the click from reaching the row, and asks for
    no action; the button exists only with a non-empty URL, so the guard of
    [handleConnect] never fails, and it reacts even while an action is in
    flight. *)
Theorem VMTableActions_connect p b :
  In b (VMTableActions p) ->
  VMRow.onClick b = VMRow.HandleConnect ->
  exists url,
    VMRow.guacamoleUrl p = Some url /\ url <> ""
    /\ eq_ignore_case (VMRow.status p) "running"
    /\ VMRow.click p b
       = [VMRow.StopPropagation; VMRow.PreventDefault; VMRow.WindowOpen url "_blank"].
Proof.
  intros Hin Hc.
  destruct (VMTableActions_button p b Hin)
    as [[-> _] | [[-> [E T]] | [[-> _] | [-> | [-> _]]]]];
    cbn [VMRow.onClick] in Hc; try discriminate Hc.
  unfold VMRow.click, VMRow.run, VMRow.handleConnect. cbn [VMRow.disabled VMRow.onClick].
  rewrite T. unfold truthy in T.
  destruct (VMRow.guacamoleUrl p) as [url|]; [|discriminate T].
  exists url. split; [reflexivity|]. split.
  - intros ->. discriminate T.
  - split; [now apply eq_ignore_case_label | reflexivity].
Qed.

Lemma VMTableActions_connect_witness :
  In {| VMRow.title := "Connect to VM"; VMRow.disabled := false;
        VMRow.onClick := VMRow.HandleConnect |} (VMTableActions busy_row)
  /\ VMRow.click busy_row
       {| VMRow.title := "Connect to VM"; VMRow.disabled := false;
          VMRow.onClick := VMRow.HandleConnect |}
     = [VMRow.StopPropagation; VMRow.PreventDefault;
        VMRow.WindowOpen "https://desk.example/1" "_blank"].
Proof.
  assert (H : In {| VMRow.title := "Connect to VM"; VMRow.disabled := false;
                    VMRow.onClick := VMRow.HandleConnect |} (VMTableActions busy_row))
    by (vm_compute; right; left; reflexivity).
  split; [exact H|].
  destruct (VMTableActions_connect busy_row _ H eq_refl) as (url & U & _ & _ & C).
  injection U as <-. exact C.
Defined.

(** X17.  For a VM whose status went through the normalizer, the row
    offers Restart exactly when the status of the server was running up to
    case or was unknown to the normalizer (which shows it as Error), and
    Stop exactly when it was running; a VM that the server reports stopped,
    starting, stopping or paused gets Start and View Details only. *)
Theorem VMTableActions_of_normalized p s :
  VMRow.status p = normalizeVMStatus s ->
  let shown t := In t (titles (VMTableActions p)) in
  let unknown := forall label canon, In (label, canon) known_labels ->
                                     ~ eq_ignore_case s label in
  (shown "Stop VM" <-> eq_ignore_case s "running")
  /\ (shown "Restart VM" <-> eq_ignore_case s "running" \/ unknown)
  /\ (~ eq_ignore_case s "running" -> ~ unknown ->
      titles (VMTableActions p) = ["Start VM"; "View Details"]).
Proof.
  intros Hs. cbv zeta.
  assert (Hunk : (forall label canon, In (label, canon) known_labels ->
                                      ~ eq_ignore_case s label)
                 <-> (toLowerCase s <> "running" /\ toLowerCase s <> "stopped"
                      /\ toLowerCase s <> "starting" /\ toLowerCase s <> "stopping"
                      /\ toLowerCase s <> "paused")).
  { split.
    - intros H. repeat split; intros E;
        [apply (H "running" "Running") | apply (H "stopped" "Stopped")
         | apply (H "starting" "Starting") | apply (H "stopping" "Stopping")
         | apply (H "paused" "Paused")];
        try (simpl; tauto); now apply eq_ignore_case_label.
    - intros (N1 & N2 & N3 & N4 & N5) label canon Hin Hc.
      simpl in Hin.
      repeat (destruct Hin as [Hin | Hin];
              [injection Hin as <- <-;
               apply eq_ignore_case_label in Hc; [contradiction | reflexivity]|]).
      destruct Hin. }
  rewrite Hunk. rewrite (eq_ignore_case_label s "running") by reflexivity.
  unfold VMTableActions, titles. cbv zeta. rewrite Hs.
  pose proof (normalizeVMStatus_cases s) as H. cbv zeta in H.
  destruct H as [[L ->] | [[L ->] | [[L ->] | [[L ->] | [[L ->] | [L ->]]]]]];
    destruct (truthy (VMRow.guacamoleUrl p));
    cbn [toLowerCase lower_ascii is_upper String.eqb Ascii.eqb Bool.eqb orb app map
         VMRow.title N_of_ascii N.leb N.compare Pos.compare Pos.compare_cont andb
         ascii_of_N N.add Pos.add ascii_of_pos];
    rewrite ?L;
    repeat match goal with
           | |- _ /\ _ => split
           | |- _ <-> _ => split; intros ?
           | |- _ -> _ => intros ?
           end;
    try reflexivity;
    try solve [simpl in *; intuition (try discriminate; try congruence)].
Qed.

Lemma VMTableActions_of_normalized_witness :
  In "Stop VM"
     (titles (VMTableActions
                {| VMRow.vmId := "i-0abc"; VMRow.status := normalizeVMStatus "RUNNING";
                   VMRow.instanceOs := "Linux"; VMRow.employeeId := "emp-009";
                   VMRow.actionLoading := None; VMRow.guacamoleUrl := None |})).
Proof.
  apply (VMTableActions_of_normalized
           {| VMRow.vmId := "i-0abc"; VMRow.status := normalizeVMStatus "RUNNING";
              VMRow.instanceOs := "Linux"; VMRow.employeeId := "emp-009";
              VMRow.actionLoading := None; VMRow.guacamoleUrl := None |}
           "RUNNING" eq_refl).
  apply eq_ignore_case_label; reflexivity.
Defined.

(** ** The projects page *)

(** The four categories of a status, with the counters that count it and
    the colour of its badge. *)
Lemma status_category (p : Project.t) :
  (has_status "in progress" p = true /\ has_status "complete" p = false
   /\ has_status "not started" p = false
   /\ getStatusColor (Project.status p)
      = "bg-green-900/40 text-green-300 border-green-800")
  \/ (has_status "in progress" p = false /\ has_status "complete" p = true
      /\ has_status "not started" p = false
      /\ getStatusColor (Project.status p)
         = "bg-blue-900/40 text-blue-300 border-blue-800")
  \/ (has_status "in progress" p = false /\ has_status "complete" p = false
      /\ has_status "not started" p = true
      /\ getStatusColor (Project.status p)
         = "bg-amber-900/40 text-amber-300 border-amber-800")
  \/ (has_status "in progress" p = false /\ has_status "complete" p = false
      /\ has_status "not started" p = false
      /\ getStatusColor (Project.status p) = "bg-gray-800 text-gray-300 border-gray-700").
Proof.
  unfold has_status, getStatusColor. cbv zeta.
  destruct (String.eqb_spec (toLowerCase (Project.status p)) "in progress") as [E1 | E1].
  { left. rewrite E1. repeat split; reflexivity. }
  destruct (String.eqb_spec (toLowerCase (Project.status p)) "complete") as [E2 | E2].
  { right; left. rewrite E2. repeat split; reflexivity. }
  destruct (String.eqb_spec (toLowerCase (Project.status p)) "not started") as [E3 | E3].
  { right; right; left. repeat split; reflexivity. }
  right; right; right. repeat split; reflexivity.
Qed.

(** X18.  Each counter of the page counts the rows whose status badge has
    its colour: Active the green ones, Completed the blue ones, Not Started
    the amber ones.  No project is counted twice, and the projects that no
    counter counts are the rows with a gray badge. *)
Theorem project_counters_match_badges (projects : list Project.t) :
  activeProjects projects
  = badges "bg-green-900/40 text-green-300 border-green-800" projects
  /\ completedProjects projects
     = badges "bg-blue-900/40 text-blue-300 border-blue-800" projects
  /\ notStartedProjects projects
     = badges "bg-amber-900/40 text-amber-300 border-amber-800" projects
  /\ (activeProjects projects + completedProjects projects
      + notStartedProjects projects
      + badges "bg-gray-800 text-gray-300 border-gray-700" projects
      = length projects)%nat.
Proof.
  unfold activeProjects, completedProjects, notStartedProjects, badges.
  induction projects as [|p projects IH]; [repeat split; reflexivity|].
  destruct IH as (I1 & I2 & I3 & I4).
  cbn [List.filter].
  destruct (status_category p) as [(H1 & H2 & H3 & ->) | [(H1 & H2 & H3 & ->)
    | [(H1 & H2 & H3 & ->) | (H1 & H2 & H3 & ->)]]];
    rewrite H1, H2, H3;
    cbn [String.eqb Ascii.eqb Bool.eqb andb length];
    repeat split; lia.
Qed.

(** The status of a mapped project, by the status that the server sent. *)
Lemma mapped_status (a : ApiProject.t) :
  (truthy (ApiProject.status a) = false
   /\ Project.status (mapApiProjectToProject a) = "not started")
  \/ (truthy (ApiProject.status a) = true
      /\ ApiProject.status a = Some (Project.status (mapApiProjectToProject a))
      /\ Project.status (mapApiProjectToProject a) <> "").
Proof.
  unfold mapApiProjectToProject, truthy, or_else. cbn [Project.status].
  destruct (ApiProject.status a) as [s|]; [|left; split; reflexivity].
  destruct (String.eqb_spec s "") as [E | E].
  - left; split; reflexivity.
  - right. split; [reflexivity|]. split; [reflexivity | exact E].
Qed.

(** The counters that count a mapped project, by the status that the
    server sent. *)
Lemma mapped_has_status (a : ApiProject.t) :
  has_status "in progress" (mapApiProjectToProject a)
  = (toLowerCase (default "" (ApiProject.status a)) =? "in progress")%string
  /\ has_status "complete" (mapApiProjectToProject a)
     = (toLowerCase (default "" (ApiProject.status a)) =? "complete")%string
  /\ has_status "not started" (mapApiProjectToProject a)
     = negb (truthy (ApiProject.status a))
       || (toLowerCase (default "" (ApiProject.status a)) =? "not started")%string.
Proof.
  unfold has_status.
  destruct (mapped_status a) as [[T E] | (T & E & N)].
  - rewrite E, T.
    assert (D : default "" (ApiProject.status a) = "").
    { unfold truthy in T. destruct (ApiProject.status a) as [s|]; [|reflexivity].
      cbn [default]. destruct (String.eqb_spec s ""); [assumption | discriminate T]. }
    rewrite D. repeat split; reflexivity.
  - rewrite T. rewrite E. cbn [default negb orb]. repeat split; reflexivity.
Qed.

(** X19.  The counters, read on the records of the server: a record whose
    status is missing or empty is counted as not started, and the mapper
    moves no other record from one counter to another; no row of the table
    has an empty status badge. *)
Theorem project_counters_of_records (records : list ApiProject.t) :
  let projects := snd (queryFn (Fulfilled (ProjectsArray records))) in
  let sent label (a : ApiProject.t) :=
    (toLowerCase (default "" (ApiProject.status a)) =? label)%string in
  activeProjects projects = length (List.filter (sent "in progress") records)
  /\ completedProjects projects = length (List.filter (sent "complete") records)
  /\ notStartedProjects projects
     = length (List.filter (fun a => negb (truthy (ApiProject.status a))
                                     || sent "not started" a) records)
  /\ Forall (fun p => Project.status p <> "") projects
  /\ length projects = length records.
Proof.
  cbv zeta. cbn [queryFn snd].
  unfold activeProjects, completedProjects, notStartedProjects.
  induction records as [|a records IH].
  { repeat split; try reflexivity. constructor. }
  destruct IH as (I1 & I2 & I3 & I4 & I5).
  cbn [map List.filter].
  destruct (mapped_has_status a) as (-> & -> & ->).
  split; [|split; [|split; [|split]]].
  - destruct (_ =? "in progress")%string; cbn [length]; congruence.
  - destruct (_ =? "complete")%string; cbn [length]; congruence.
  - destruct (negb _ || _); cbn [length]; congruence.
  - constructor; [|exact I4].
    destruct (mapped_status a) as [[_ E] | (_ & _ & N)]; [rewrite E; discriminate | exact N].
  - cbn [length]. congruence.
Qed.

(** The identifiers of the project rows of a table body, in order. *)
Lemma table_body_loaded L (projects : list Project.t) :
  table_body L false projects
  = match projects with
    | [] => [NoProjectsRow]
    | _ => map (fun project => ProjectCells (project_row L project)) projects
    end.
Proof. destruct projects; reflexivity. Qed.

(** X20.  What the table shows once the query has settled.  A non-empty
    array of the server gives exactly one row per record, in the order of
    the server, each the row of the mapped record, and no notice.  An empty
    array gives the single line that no project was found, and no notice.
    An answer that is no array gives the same single line, after one
    console line and the error toast of an invalid format; a failed request
    gives it after one console line and the error toast of a failed load.
    The spinner is not shown. *)
Theorem projects_table_of_response (toLocaleDateString : string -> string)
    (response : Settled ProjectsResponse) :
  let notices := fst (queryFn response) in
  let projects := snd (queryFn response) in
  let body := table_body toLocaleDateString false projects in
  match response with
  | Fulfilled (ProjectsArray []) =>
      notices = [] /\ projects = [] /\ body = [NoProjectsRow]
  | Fulfilled (ProjectsArray (a :: rest)) =>
      notices = []
      /\ projects = map mapApiProjectToProject (a :: rest)
      /\ body = map (fun a => ProjectCells
                                (project_row toLocaleDateString
                                             (mapApiProjectToProject a)))
                    (a :: rest)
      /\ length body = length (a :: rest)
  | Fulfilled ProjectsNotArray =>
      notices = [NoticeConsole "Unexpected projects API response format:";
                 NoticeError "Invalid projects data format"
                             "The server returned projects in an unexpected format."]
      /\ projects = [] /\ body = [NoProjectsRow]
  | Rejected _ =>
      notices = [NoticeConsole "Error fetching projects:";
                 NoticeError "Failed to load projects"
                   "There was an error loading projects. Please try again later."]
      /\ projects = [] /\ body = [NoProjectsRow]
  end.
Proof.
  cbv zeta. rewrite table_body_loaded.
  destruct response as [[|[|a rest]] | e]; cbn [queryFn fst snd].
  - repeat split.
  - repeat split.
  - split; [reflexivity|]. split; [reflexivity|].
    cbn [map]. split.
    + f_equal. rewrite map_map. reflexivity.
    + cbn [length]. rewrite !length_map. reflexivity.
  - repeat split.
Qed.

(** X21.  The row of a project that came through the mapper.  The Manager
    cell shows the manager name of the server, or Not Assigned when there
    is none: the fallback text of the cell itself is never used.  Each date
    of the timeline is the locale form of the date of the server, or
    nothing when the date is missing or empty: the Not set text of
    [formatDate] is never reached from a row.  The Archived cell reads True
    exactly when the server sent [archived] true. *)
Theorem project_row_of_mapped (toLocaleDateString : string -> string)
    (a : ApiProject.t) :
  let row := project_row toLocaleDateString (mapApiProjectToProject a) in
  ProjectRow.manager row = or_else (ApiProject.manager_name a) "Not Assigned"
  /\ ProjectRow.manager row <> ""
  /\ ProjectRow.status row <> ""
  /\ ProjectRow.timeline_start row
     = (if truthy (ApiProject.start_date a)
        then Some (toLocaleDateString (default "" (ApiProject.start_date a)))
        else None)
  /\ ProjectRow.timeline_end row
     = (if truthy (ApiProject.end_date a)
        then Some (toLocaleDateString (default "" (ApiProject.end_date a)))
        else None)
  /\ (ProjectRow.archived row = "True" <-> ApiProject.archived a = Some true)
  /\ ProjectRow.id row = Num (ApiProject.id a).
Proof.
  cbv zeta. unfold project_row, mapApiProjectToProject.
  cbn [Project.id Project.name Project.description Project.status Project.archived
       Project.start_date Project.end_date Project.manager_name
       ProjectRow.manager ProjectRow.status ProjectRow.timeline_start
       ProjectRow.timeline_end ProjectRow.archived ProjectRow.id].
  assert (Hne : forall o d, d <> "" -> or_else o d <> "").
  { intros o d Hd. unfold or_else. destruct o as [s|]; [|exact Hd].
    destruct (String.eqb_spec s ""); assumption. }
  assert (Hself : forall o d, d <> "" -> or_else (Some (or_else o d)) "Not specified"
                                         = or_else o d).
  { intros o d Hd. unfold or_else at 1.
    destruct (String.eqb_spec (or_else o d) "") as [E | E]; [|reflexivity].
    exfalso. exact (Hne o d Hd E). }
  assert (Hdate : forall o, truthy o = true -> formatDate toLocaleDateString (default "" o)
                                              = toLocaleDateString (default "" o)).
  { intros o T. unfold formatDate, truthy in *. destruct o as [s|]; [|discriminate T].
    change (default "" (Some s)) with s.
    destruct (s =? "")%string; [discriminate T | reflexivity]. }
  split; [apply Hself; discriminate|].
  split; [rewrite Hself by discriminate; apply Hne; discriminate|].
  split; [apply Hne; discriminate|].
  split.
  { unfold and_formatDate. destruct (truthy (ApiProject.start_date a)) eqn:T;
      [rewrite Hdate by exact T|]; reflexivity. }
  split.
  { unfold and_formatDate.
    assert (T2 : truthy (Some (or_else (ApiProject.end_date a) ""))
                 = truthy (ApiProject.end_date a)).
    { unfold truthy, or_else. destruct (ApiProject.end_date a) as [s|]; [|reflexivity].
      destruct (String.eqb_spec s "") as [-> | E]; [reflexivity|].
      destruct (String.eqb_spec s ""); [contradiction | reflexivity]. }
    rewrite T2. destruct (truthy (ApiProject.end_date a)) eqn:T; [|reflexivity].
    assert (D : default "" (Some (or_else (ApiProject.end_date a) ""))
                = default "" (ApiProject.end_date a)).
    { unfold truthy in T. unfold or_else.
      destruct (ApiProject.end_date a) as [s|]; [|discriminate T].
      change (default "" (Some (if (s =? "")%string then "" else s)))
        with (if (s =? "")%string then "" else s).
      change (default "" (Some s)) with s.
      destruct (s =? "")%string; [discriminate T | reflexivity]. }
    rewrite D. rewrite Hdate by exact T. reflexivity. }
  split; [|reflexivity].
  cbn [or_false]. destruct (ApiProject.archived a) as [[|]|]; cbn [or_false];
    split; intros H; try reflexivity; try discriminate H.
Qed.

(** X22.  Edit on the row of a project that came through the mapper, then
    Save: the form is filled from the row with the manager id left
    undefined, whatever manager the server sent (the mapper never sets
    it), the dialog opens, and the update is requested for the id of the
    server with the values of the form. *)
Theorem handleEditClick_of_mapped (a : ApiProject.t) (s : Page.State)
    (values : ProjectFormValues.t) :
  let project := mapApiProjectToProject a in
  let s' := fst (Page.handleEditClick project s) in
  (exists v,
      snd (Page.handleEditClick project s) = [Page.FormReset (Some v)]
      /\ ProjectFormValues.managerId v = None
      /\ ProjectFormValues.name v = or_else (ApiProject.name a) ""
      /\ ProjectFormValues.description v = or_else (ApiProject.description a) ""
      /\ ProjectFormValues.status v = Some (or_else (ApiProject.status a) "not started")
      /\ ProjectFormValues.start_date v = or_else (ApiProject.start_date a) ""
      /\ ProjectFormValues.end_date v = or_else (ApiProject.end_date a) ""
      /\ ProjectFormValues.scope v = Some (or_else (ApiProject.scope a) ""))
  /\ Page.isEditDialogOpen s' = true
  /\ Page.isCreateDialogOpen s' = Page.isCreateDialogOpen s
  /\ Page.archiveProjectId s' = Page.archiveProjectId s
  /\ snd (Page.handleEditProject values s')
     = [Page.UpdateProject (Num (ApiProject.id a)) values].
Proof.
  cbv zeta.
  assert (Hidem : forall o d, or_else (Some (or_else o d)) d = or_else o d).
  { intros o d. unfold or_else. destruct o as [x|].
    - destruct (String.eqb_spec x "") as [E | E].
      + destruct (d =? "")%string; reflexivity.
      + destruct (String.eqb_spec x ""); [contradiction | reflexivity].
    - destruct (d =? "")%string; reflexivity. }
  split.
  - eexists. split; [reflexivity|].
    cbn [ProjectFormValues.managerId ProjectFormValues.name
         ProjectFormValues.description ProjectFormValues.status
         ProjectFormValues.start_date ProjectFormValues.end_date
         ProjectFormValues.scope mapApiProjectToProject Project.managerId
         Project.name Project.description Project.status Project.start_date
         Project.end_date Project.scope].
    unfold mapApiProjectToProject.
    cbn [Project.managerId Project.name Project.description Project.status
         Project.start_date Project.end_date Project.scope].
    rewrite !Hidem. repeat split; reflexivity.
  - repeat split; reflexivity.
Qed.

(** *** Sequences of calls of the handlers of the page *)

Lemma run_app (s : Page.State) (l1 l2 : list Page.Action) :
  Page.run s (l1 ++ l2)%list
  = (fst (Page.run (fst (Page.run s l1)) l2),
     (snd (Page.run s l1) ++ snd (Page.run (fst (Page.run s l1)) l2))%list).
Proof.
  revert s. induction l1 as [|a l1 IH]; intros s.
  - cbn [app Page.run fst snd]. destruct (Page.run s l2); reflexivity.
  - cbn [app Page.run]. destruct (Page.handle s a) as [s1 d1].
    rewrite IH. destruct (Page.run s1 l1) as [s2 d2]. cbn [fst snd].
    rewrite <- app_assoc. reflexivity.
Qed.

Lemma run_snoc (s : Page.State) (l : list Page.Action) (a : Page.Action) :
  fst (Page.run s (l ++ [a])%list) = fst (Page.handle (fst (Page.run s l)) a).
Proof.
  rewrite run_app. cbn [fst Page.run].
  destruct (Page.handle (fst (Page.run s l)) a); reflexivity.
Qed.

Lemma handle_keeps_selection (s : Page.State) (a : Page.Action) :
  Page.keeps_selection a = true ->
  Page.selectedProject (fst (Page.handle s a)) = Page.selectedProject s.
Proof.
  destruct a; cbn [Page.keeps_selection]; intros H; try discriminate H;
    destruct s as [c e [sp|] [ap|]]; reflexivity.
Qed.

Lemma handle_keeps_archive_choice (s : Page.State) (a : Page.Action) :
  Page.keeps_archive_choice a = true ->
  Page.archiveProjectId (fst (Page.handle s a)) = Page.archiveProjectId s.
Proof.
  destruct a; cbn [Page.keeps_archive_choice]; intros H; try discriminate H;
    destruct s as [c e [sp|] [ap|]]; reflexivity.
Qed.

(** The project chosen for editing after a sequence of calls is the one
    of the last click on Edit, unless an update has succeeded since. *)
Lemma selectedProject_after (actions : list Page.Action) (p : Project.t) :
  Page.selectedProject (fst (Page.run Page.initial actions)) = Some p
  <-> exists before after,
        actions = (before ++ Page.ClickEdit p :: after)%list
        /\ forallb Page.keeps_selection after = true.
Proof.
  induction actions as [|a actions IH] using rev_ind.
  - cbn. split; [discriminate|]. intros (b & af & H & _).
    destruct b; discriminate H.
  - rewrite run_snoc. split.
    + intros H. destruct (Page.keeps_selection a) eqn:K.
      * rewrite handle_keeps_selection in H by exact K.
        apply IH in H. destruct H as (b & af & -> & F).
        exists b, (af ++ [a])%list. split.
        { rewrite <- app_assoc. reflexivity. }
        rewrite forallb_app, F. cbn [forallb]. rewrite K. reflexivity.
      * destruct a; try discriminate K.
        -- cbn in H. injection H as ->. exists actions, []. split; reflexivity.
        -- cbn in H. discriminate H.
    + intros (b & af & E & F).
      destruct af as [|x af] using rev_ind.
      * apply app_inj_tail in E. destruct E as [_ ->]. reflexivity.
      * clear IHaf. rewrite app_comm_cons, app_assoc in E.
        apply app_inj_tail in E. destruct E as [-> ->].
        rewrite forallb_app in F. apply andb_true_iff in F. destruct F as [F K].
        cbn [forallb] in K. rewrite andb_true_r in K.
        rewrite handle_keeps_selection by exact K.
        apply IH. exists b, af. split; [reflexivity | exact F].
Qed.

(** The project chosen for archiving after a sequence of calls is the
    one of the last click on Archive, unless the choice has been cancelled
    or an archiving has succeeded since. *)
Lemma archiveProjectId_after (actions : list Page.Action) (id : StringOrNumber) :
  Page.archiveProjectId (fst (Page.run Page.initial actions)) = Some id
  <-> exists before p after,
        actions = (before ++ Page.ClickArchive p :: after)%list
        /\ forallb Page.keeps_archive_choice after = true
        /\ Project.id p = id.
Proof.
  induction actions as [|a actions IH] using rev_ind.
  - cbn. split; [discriminate|]. intros (b & p & af & H & _).
    destruct b; discriminate H.
  - rewrite run_snoc. split.
    + intros H. destruct (Page.keeps_archive_choice a) eqn:K.
      * rewrite handle_keeps_archive_choice in H by exact K.
        apply IH in H. destruct H as (b & p & af & -> & F & E).
        exists b, p, (af ++ [a])%list. split.
        { rewrite <- app_assoc. reflexivity. }
        rewrite forallb_app, F. cbn [forallb]. rewrite K. auto.
      * destruct a; try discriminate K.
        -- cbn in H. injection H as <-. exists actions, project, [].
           repeat split; reflexivity.
        -- cbn in H. discriminate H.
        -- cbn in H. discriminate H.
    + intros (b & p & af & E & F & I).
      destruct af as [|x af] using rev_ind.
      * apply app_inj_tail in E. destruct E as [_ ->]. cbn. rewrite I. reflexivity.
      * clear IHaf. rewrite app_comm_cons, app_assoc in E.
        apply app_inj_tail in E. destruct E as [-> ->].
        rewrite forallb_app in F. apply andb_true_iff in F. destruct F as [F K].
        cbn [forallb] in K. rewrite andb_true_r in K.
        rewrite handle_keeps_archive_choice by exact K.
        apply IH. exists b, p, af. auto.
Qed.

(** X23.  Saving the edit form never names a stale project.  After any
    sequence of calls of the handlers, a submission of the edit form
    requests one update, for the project of the last click on Edit with the
    submitted values, provided no update has succeeded since that click;
    otherwise it requests nothing.  A failed update, a cancelled dialog or
    any other call in between does not change the project named. *)
Theorem update_names_last_edited (actions : list Page.Action)
    (values : ProjectFormValues.t) :
  let requested :=
    snd (Page.handle (fst (Page.run Page.initial actions)) (Page.SubmitEdit values)) in
  (forall id data,
      requested = [Page.UpdateProject id data]
      <-> data = values
          /\ exists before p after,
               actions = (before ++ Page.ClickEdit p :: after)%list
               /\ forallb Page.keeps_selection after = true
               /\ Project.id p = id)
  /\ (requested = [] \/ exists id, requested = [Page.UpdateProject id values]).
Proof.
  cbv zeta. cbn [Page.handle]. unfold Page.handleEditProject.
  pose proof (selectedProject_after actions) as S.
  destruct (Page.selectedProject (fst (Page.run Page.initial actions))) as [q|];
    cbn [snd].
  - split; [|right; eauto].
    intros id data. split.
    + intros H. injection H as <- <-. split; [reflexivity|].
      destruct (proj1 (S q) eq_refl) as (b & af & E & F). eauto 8.
    + intros [-> (b & p & af & E & F & <-)].
      assert (Hq : Some q = Some p) by (apply S; eauto).
      injection Hq as ->. reflexivity.
  - split; [|left; reflexivity].
    intros id data. split; [discriminate|].
    intros [_ (b & p & af & E & F & _)].
    assert (Hq : None = Some p) by (apply S; eauto).
    discriminate Hq.
Qed.

(** X24.  Confirming the archive dialog never names a stale project.
    After any sequence of calls of the handlers, a confirmation requests
    the archiving of one project, the one of the last click on Archive,
    provided the choice has not been cancelled and no archiving has
    succeeded since; otherwise it requests nothing.  The guard of the
    handler tests the id against [null] only, so a project whose id is the
    number 0 or the empty string is archived like any other. *)
Theorem archive_names_last_chosen (actions : list Page.Action) :
  let requested :=
    snd (Page.handle (fst (Page.run Page.initial actions)) Page.ConfirmArchive) in
  (forall id,
      requested = [Page.ArchiveProject id]
      <-> exists before p after,
            actions = (before ++ Page.ClickArchive p :: after)%list
            /\ forallb Page.keeps_archive_choice after = true
            /\ Project.id p = id)
  /\ (requested = [] \/ exists id, requested = [Page.ArchiveProject id])
  /\ (forall p, snd (Page.run Page.initial [Page.ClickArchive p; Page.ConfirmArchive])
                = [Page.ArchiveProject (Project.id p)]).
Proof.
  cbv zeta. cbn [Page.handle]. unfold Page.handleArchiveProject.
  pose proof (archiveProjectId_after actions) as S.
  destruct (Page.archiveProjectId (fst (Page.run Page.initial actions))) as [q|];
    cbn [snd].
  - split; [|split; [right; eauto | reflexivity]].
    intros id. split.
    + intros H. injection H as <-. apply S. reflexivity.
    + intros H. apply S in H. injection H as ->. reflexivity.
  - split; [|split; [left; reflexivity | reflexivity]].
    intros id. split; [discriminate|].
    intros H. apply S in H. discriminate H.
Qed.
